(** * openai-claude: the translation core of the proxy

    A shallow embedding of [src/converters.ts] (request and response
    translation between the Anthropic message protocol and the Azure
    OpenAI "responses" protocol), of the stream emitter, the URL builder
    and the [/v1/messages] handler of [src/server.ts], of the
    configuration loader and of the command-line parser, followed by the
    properties of the specification that were checked against it and by
    further properties of the code.

    Conventions of the embedding.
    - A JavaScript value that the code inspects dynamically ([typeof],
      [Array.isArray], [in], truthiness) is a [JValue].  Objects are
      association lists in property enumeration order; [undefined] is a
      value of its own because the code builds objects with undefined
      fields.
    - Strings are [string]; a character stands for one code unit in the
      range 0..255.  Numbers are modelled by [Z]: the code only copies
      numbers, tests [typeof], or prints them.
    - Fields follow the TypeScript declarations.  An optional field is an
      [option]; a field is widened to [JValue] where the code tests its
      dynamic type or uses it as it was sent ([tools], [stream]).  The
      request body and the upstream result are not validated: an entry of
      an array that the code guards against, or fails on, when it is
      [null] is an [option].
    - A function that can throw returns a [result]; [input.push(x)] is
      [input ++ [x]]; the mutable locals of a loop are threaded through a
      fold as an explicit state.
    - [JSON.parse] is the runtime's; the development is parametric in it
      (class [JsonParser]; [None] when it throws). *)

From stdpp Require Import base option list strings pretty gmap.
From Stdlib Require Import ZArith Ascii String.

Set Warnings "-register-all".

Local Open Scope string_scope.
Local Open Scope list_scope.

(** ** JavaScript values *)

Inductive JValue : Type :=
| JUndefined
| JNull
| JBool (b : bool)
| JNum (n : Z)
| JStr (s : string)
| JArr (items : list JValue)
| JObj (fields : list (string * JValue)).

Definition typeof (v : JValue) : string :=
  match v with
  | JUndefined => "undefined"
  | JNull => "object"
  | JBool _ => "boolean"
  | JNum _ => "number"
  | JStr _ => "string"
  | JArr _ => "object"
  | JObj _ => "object"
  end.

(** [ToBoolean]. *)
Definition truthy (v : JValue) : bool :=
  match v with
  | JUndefined | JNull => false
  | JBool b => b
  | JNum n => negb (Z.eqb n 0)
  | JStr s => negb (String.eqb s "")
  | JArr _ | JObj _ => true
  end.

Definition isArray (v : JValue) : bool :=
  match v with JArr _ => true | _ => false end.

Definition isString (v : JValue) : bool :=
  match v with JStr _ => true | _ => false end.

Definition isNullish (v : JValue) : bool :=
  match v with JUndefined | JNull => true | _ => false end.

(** [a ?? b] on dynamic values and on optional fields. *)
Definition nullish (a b : JValue) : JValue :=
  if isNullish a then b else a.

Definition nullish_opt {A : Type} (a : option A) (b : A) : A :=
  match a with Some x => x | None => b end.

(** [a ?? b] where [b] may itself be absent (a chain [a ?? b ?? c]). *)
Definition nullish_chain {A : Type} (a b : option A) : option A :=
  match a with Some x => Some x | None => b end.

Fixpoint assoc (k : string) (fields : list (string * JValue)) : option JValue :=
  match fields with
  | [] => None
  | (k', v) :: rest => if String.eqb k k' then Some v else assoc k rest
  end.

(** [k in v], for the property names this program tests ([type], [id],
    [name], [tool_use_id]), none of which an array has. *)
Definition js_in (k : string) (v : JValue) : bool :=
  match v with
  | JObj fields => match assoc k fields with Some _ => true | None => false end
  | _ => false
  end.

(** [v.k] for a value that is not null or undefined, for the property
    names this program reads, none of which a primitive or an array has. *)
Definition prop (v : JValue) (k : string) : JValue :=
  match v with
  | JObj fields => nullish_opt (assoc k fields) JUndefined
  | _ => JUndefined
  end.

(** [a === s] for a string literal [s]. *)
Definition is_str (v : JValue) (s : string) : bool :=
  match v with JStr s' => String.eqb s' s | _ => false end.

(** [ToString], as used by [String(value)] and by template literals. *)
Fixpoint js_String (v : JValue) : string :=
  match v with
  | JUndefined => "undefined"
  | JNull => "null"
  | JBool true => "true"
  | JBool false => "false"
  | JNum n => pretty n
  | JStr s => s
  | JArr items =>
      String.concat ","
        (map (fun x => if isNullish x then "" else js_String x) items)
  | JObj _ => "[object Object]"
  end.

(** *** [String.prototype.trim] *)

Definition isWhiteSpace (c : ascii) : bool :=
  let n := N_of_ascii c in
  ((9 <=? n) && (n <=? 13) || (n =? 32) || (n =? 160))%N.

Fixpoint trimStart (s : string) : string :=
  match s with
  | EmptyString => EmptyString
  | String c rest => if isWhiteSpace c then trimStart rest else s
  end.

Definition trimEnd (s : string) : string :=
  String.rev (trimStart (String.rev s)).

Definition trim (s : string) : string := trimEnd (trimStart s).

(** *** [JSON.stringify] on values without cycles *)

Definition dquote : string := String "034"%char EmptyString.
Definition newline : string := String "010"%char EmptyString.

Definition hexDigit (n : N) : ascii :=
  ascii_of_N (if (n <? 10)%N then 48 + n else 87 + n)%N.

Definition quoteChar (c : ascii) : string :=
  let n := N_of_ascii c in
  if (n =? 8)%N then "\b"
  else if (n =? 9)%N then "\t"
  else if (n =? 10)%N then "\n"
  else if (n =? 12)%N then "\f"
  else if (n =? 13)%N then "\r"
  else if (n =? 34)%N then "\" +:+ dquote
  else if (n =? 92)%N then "\\"
  else if (n <? 32)%N then
    "\u00" +:+ String (hexDigit (n / 16)) (String (hexDigit (n mod 16)) EmptyString)
  else String c EmptyString.

Fixpoint quoteChars (s : string) : string :=
  match s with
  | EmptyString => EmptyString
  | String c rest => quoteChar c +:+ quoteChars rest
  end.

Definition quoteJSONString (s : string) : string :=
  dquote +:+ quoteChars s +:+ dquote.

(** A property whose value is [undefined] is left out of an object and
    printed as [null] inside an array.  The program never serializes
    [undefined] itself (for which [JSON.stringify] returns no string). *)
Definition isUndefined (v : JValue) : bool :=
  match v with JUndefined => true | _ => false end.

Fixpoint JSON_stringify (v : JValue) : string :=
  match v with
  | JUndefined => "undefined"
  | JNull => "null"
  | JBool true => "true"
  | JBool false => "false"
  | JNum n => pretty n
  | JStr s => quoteJSONString s
  | JArr items =>
      "[" +:+ String.concat ","
                (map (fun x => if isUndefined x then "null" else JSON_stringify x)
                     items) +:+ "]"
  | JObj fields =>
      "{" +:+ String.concat ","
                ((fix members (l : list (string * JValue)) : list string :=
                    match l with
                    | [] => []
                    | (k, x) :: rest =>
                        if isUndefined x then members rest
                        else (quoteJSONString k +:+ ":" +:+ JSON_stringify x)
                               :: members rest
                    end) fields) +:+ "}"
  end.

(** ** Exceptions *)

Inductive Exn : Type :=
| Error (message : string)
| TypeError (message : string).

Inductive result (A : Type) : Type :=
| Ok (a : A)
| Throw (e : Exn).

Arguments Ok {A} a.
Arguments Throw {A} e.

Definition bind {A B : Type} (m : result A) (k : A -> result B) : result B :=
  match m with
  | Ok a => k a
  | Throw e => Throw e
  end.

Notation "'let*' x ':=' m 'in' k" := (bind m (fun x => k))
  (at level 10, x pattern, m at level 100, k at level 200).

(** [l.map(f)] and a [for ... of] loop over [l], stopping at the first
    exception. *)
Fixpoint mapM {A B : Type} (f : A -> result B) (l : list A) : result (list B) :=
  match l with
  | [] => Ok []
  | x :: rest =>
      let* y := f x in
      let* ys := mapM f rest in
      Ok (y :: ys)
  end.

Fixpoint foldM {A T : Type} (f : T -> A -> result T) (l : list A) (s : T) : result T :=
  match l with
  | [] => Ok s
  | x :: rest =>
      let* s' := f s x in
      foldM f rest s'
  end.

(** ** Data model ([converters.ts], lines 1-193) *)

Inductive AnthropicContentBlock : Type :=
| AnthropicTextBlock (text : string)
| AnthropicToolUseBlock (id name input : JValue)
| AnthropicToolResultBlock (tool_use_id content text is_error status : JValue).

Record AnthropicMessage : Type := {
  msg_role : string;
  msg_content : JValue;
}.

(** ['auto' | 'none' | 'any'] (any string, as the code compares it) or an
    object [{type, name}]. *)
Inductive AnthropicToolChoice : Type :=
| ChoiceLiteral (s : string)
| ChoiceObject (type name : string).

Record AnthropicReasoning : Type := {
  effort : JValue;
}.

Record AnthropicRequest : Type := {
  req_model : JValue;
  req_system : JValue;
  req_max_tokens : option Z;
  req_temperature : option Z;
  req_top_p : option Z;
  req_stop_sequences : option (list string);
  req_stream : JValue;
  req_messages : option (list (option AnthropicMessage));
  req_metadata : option (list (string * JValue));
  req_tools : JValue;
  req_tool_choice : option AnthropicToolChoice;
  req_reasoning : option AnthropicReasoning;
}.

Inductive AzureTextContentBlockType : Type :=
| input_text
| output_text
| summary_text
| refusal
| input_image
| input_file
| computer_screenshot
| tether_browsing_display.

Record AzureToolCallFunction : Type := {
  fn_name : option string;
  fn_arguments : option string;
}.

Record AzureToolCall : Type := {
  tc_id : option string;
  tc_name : option string;
  tc_arguments : option string;
  tc_function : option AzureToolCallFunction;
}.

(** An entry of [tool_calls] that is [null] is [None]: the result comes
    from the upstream as it was sent. *)
Inductive AzureContentBlock : Type :=
| AzureTextContentBlock (type : AzureTextContentBlockType) (text : string)
| AzureToolCallBlock (tool_calls : option (list (option AzureToolCall))).

Inductive AzureInputItem : Type :=
| AzureMessageInput (role : string) (content : list AzureContentBlock)
| AzureFunctionCallOutput (call_id : JValue) (output : string)
| AzureFunctionCallInput (call_id name : JValue) (arguments : string).

(** The name, description and parameters are copied from the request's
    tool, whatever they are. *)
Record AzureToolDefinition : Type := {
  az_tool_type : string;
  az_tool_name : JValue;
  az_tool_description : JValue;
  az_tool_parameters : JValue;
}.

Inductive AzureToolChoice : Type :=
| AzureChoiceLiteral (s : string)
| AzureChoiceFunction (name : string).

Record AzureReasoning : Type := {
  az_effort : string;
}.

Record AzureResponsesRequestBody : Type := {
  az_model : string;
  az_input : list AzureInputItem;
  az_temperature : option Z;
  az_top_p : option Z;
  az_stop : option (list string);
  az_max_output_tokens : option Z;
  az_metadata : option (list (string * JValue));
  az_tools : option (list AzureToolDefinition);
  az_tool_choice : option AzureToolChoice;
  az_reasoning : option AzureReasoning;
}.

Record AzureUsage : Type := {
  completion_tokens : option Z;
  prompt_tokens : option Z;
  total_tokens : option Z;
  output_tokens : option Z;
  input_tokens : option Z;
}.

Record AzureResponseOutputMessage : Type := {
  out_msg_id : option string;
  out_msg_role : string;
  out_msg_content : option (list (option AzureContentBlock));
  out_msg_stop_reason : option string;
}.

Record AzureResponseFunctionCall : Type := {
  fc_id : option string;
  fc_call_id : option string;
  fc_name : option string;
  fc_arguments : option string;
}.

(** The code tests [item.type] and ignores an item of any other type. *)
Inductive AzureResponseOutputItem : Type :=
| OutputMessage (message : AzureResponseOutputMessage)
| OutputFunctionCall (call : AzureResponseFunctionCall)
| OutputOther (type : string).

Record AzureResponsesResponseBody : Type := {
  resp_id : option string;
  resp_model : option string;
  resp_output : option (list (option AzureResponseOutputItem));
  resp_usage : option AzureUsage;
  resp_output_text : option string;
}.

Record AnthropicUsage : Type := {
  usage_input_tokens : Z;
  usage_output_tokens : Z;
}.

(** The constant field [type: 'message'] is left out. *)
Record AnthropicResponse : Type := {
  id : string;
  role : string;
  model : string;
  content : list AnthropicContentBlock;
  stop_reason : option string;
  stop_sequence : option string;
  usage : AnthropicUsage;
}.

(** ** Request translation ([converters.ts], lines 195-469) *)

Fixpoint normalizeToString (value : JValue) : string :=
  match value with
  | JStr s => s
  | JNull | JUndefined => ""
  | JArr items => String.concat "" (map normalizeToString items)
  | JObj _ => JSON_stringify value
  | JBool _ | JNum _ => js_String value
  end.

Definition UnsupportedFormat : Exn :=
  Error "Unsupported content block format".

Definition UnsupportedType (type : JValue) : Exn :=
  Error ("Unsupported content block type: " +:+ js_String type).

Definition MalformedToolUse : Exn :=
  Error "tool_use block must include id and name".

Definition MalformedToolResult : Exn :=
  Error "tool_result block must include tool_use_id".

Definition BadContent : Exn :=
  Error "Message content must be a string or an array of content blocks".

(** The callback of [content.map] in [normalizeMessageContent]. *)
Definition normalizeItem (item : JValue) : result AnthropicContentBlock :=
  if String.eqb (typeof item) "string" then
    Ok (AnthropicTextBlock (normalizeToString item))
  else if negb (truthy item) || negb (String.eqb (typeof item) "object")
          || negb (js_in "type" item) then
    Throw UnsupportedFormat
  else
    let block := item in
    if is_str (prop block "type") "text" then
      Ok (AnthropicTextBlock (normalizeToString (prop block "text")))
    else if is_str (prop block "type") "tool_use" then
      if negb (js_in "id" block) || negb (js_in "name" block) then
        Throw MalformedToolUse
      else
        Ok (AnthropicToolUseBlock (prop block "id") (prop block "name")
              (nullish (prop block "input") (JObj [])))
    else if is_str (prop block "type") "tool_result" then
      if negb (js_in "tool_use_id" block) then
        Throw MalformedToolResult
      else
        Ok (AnthropicToolResultBlock (prop block "tool_use_id")
              (prop block "content") (prop block "text")
              (prop block "is_error") (prop block "status"))
    else
      Throw (UnsupportedType (prop block "type")).

Definition normalizeMessageContent (content : JValue)
  : result (list AnthropicContentBlock) :=
  match content with
  | JStr _ => Ok [AnthropicTextBlock (normalizeToString content)]
  | JArr items => mapM normalizeItem items
  | _ => Throw BadContent
  end.

(** [part.text], which throws on [null] and [undefined]. *)
Definition partText (part : JValue) : result string :=
  if isNullish part then
    Throw (TypeError "Cannot read properties of null or undefined (reading 'text')")
  else Ok (normalizeToString (prop part "text")).

(** The [payload] object of [serializeToolResultOutput], spread after
    [tool_use_id]. *)
Definition toolResultPayload (content is_error status : JValue)
  : list (string * JValue) :=
  (if isUndefined content then [] else [("content", content)])
  ++ (if isUndefined is_error then [] else [("is_error", is_error)])
  ++ (if isUndefined status then [] else [("status", status)]).

(** The argument is the [tool_result] block, given by its fields. *)
Definition serializeToolResultOutput
    (tool_use_id content text is_error status : JValue) : result string :=
  match content with
  | JStr s => Ok s
  | JArr parts =>
      let* texts := mapM partText parts in
      Ok (String.concat "" texts)
  | _ =>
      match text with
      | JStr t => Ok t
      | _ =>
          Ok (JSON_stringify
                (JObj (("tool_use_id", tool_use_id)
                         :: toolResultPayload content is_error status)))
      end
  end.

(** [v.length] for a value that is not null or undefined: the length of
    an array or of a string, else the property of that name. *)
Definition js_length (v : JValue) : JValue :=
  match v with
  | JArr items => JNum (Z.of_nat (List.length items))
  | JStr s => JNum (Z.of_nat (String.length s))
  | _ => prop v "length"
  end.

(** [a === n] for a number literal [n]. *)
Definition is_num (v : JValue) (n : Z) : bool :=
  match v with JNum n' => Z.eqb n' n | _ => false end.

(** [Object.keys(v).length] for a value that is not null or undefined:
    the own keys are the fields of an object and the indices of an array
    or of a string; a number or a boolean has none. *)
Definition keyCount (v : JValue) : nat :=
  match v with
  | JObj fields => List.length fields
  | JArr items => List.length items
  | JStr s => String.length s
  | _ => 0%nat
  end.

Definition defaultParameters : JValue :=
  JObj [("type", JStr "object"); ("properties", JObj [])].

(** The callback of [tools.map]: reading [tool.name] throws on [null] and
    [undefined]. *)
Definition toolToAzure (tool : JValue) : result AzureToolDefinition :=
  if isNullish tool then
    Throw (TypeError ("Cannot read properties of " +:+ js_String tool
                        +:+ " (reading 'name')"))
  else
    Ok {| az_tool_type := "function";
          az_tool_name := prop tool "name";
          az_tool_description := prop tool "description";
          az_tool_parameters :=
            if truthy (prop tool "input_schema")
               && (0 <? keyCount (prop tool "input_schema"))%nat
            then prop tool "input_schema"
            else defaultParameters |}.

(** [body.tools] comes from the request body as it was sent: only an
    array has a [map] method. *)
Definition anthropicToolsToAzure (tools : JValue)
  : result (option (list AzureToolDefinition)) :=
  if negb (truthy tools) || is_num (js_length tools) 0 then Ok None
  else
    match tools with
    | JArr items =>
        let* azureTools := mapM toolToAzure items in
        Ok (Some azureTools)
    | _ => Throw (TypeError "tools.map is not a function")
    end.

Definition anthropicToolChoiceToAzure (toolChoice : option AnthropicToolChoice)
  : option AzureToolChoice :=
  match toolChoice with
  | None => None
  | Some (ChoiceLiteral s) =>
      if String.eqb s "" then None
      else if String.eqb s "auto" then Some (AzureChoiceLiteral "auto")
      else if String.eqb s "none" then Some (AzureChoiceLiteral "none")
      else if String.eqb s "any" then Some (AzureChoiceLiteral "required")
      else None
  | Some (ChoiceObject type name) =>
      if String.eqb type "tool" then Some (AzureChoiceFunction name)
      else None
  end.

Definition EmptyMessages : Exn :=
  Error "Anthropic request must include at least one message".

Definition NoModelSpecified : Exn :=
  Error "No model specified in request or config".

(** The state of the loop over the blocks of one message: the [input]
    array built so far and the [textAccumulator]. *)
Definition BlockLoop : Type := list AzureInputItem * list string.

Definition textItem (role text : string) : AzureInputItem :=
  AzureMessageInput role
    [AzureTextContentBlock
       (if String.eqb role "assistant" then output_text else input_text)
       text].

Definition flushText (role : string) (st : BlockLoop) : BlockLoop :=
  let '(input, textAccumulator) := st in
  if (List.length textAccumulator =? 0)%nat then st
  else (input ++ [textItem role (String.concat "" textAccumulator)], []).

(** The body of [for (const block of blocks)]. *)
Definition translateBlock (role : string) (st : BlockLoop)
    (block : AnthropicContentBlock) : result BlockLoop :=
  match block with
  | AnthropicTextBlock text =>
      let '(input, textAccumulator) := st in
      Ok (input, textAccumulator ++ [text])
  | AnthropicToolUseBlock id name input_ =>
      let '(input, textAccumulator) := flushText role st in
      Ok (input ++ [AzureFunctionCallInput id name
                      (JSON_stringify (nullish input_ (JObj [])))],
          textAccumulator)
  | AnthropicToolResultBlock tool_use_id content text is_error status =>
      let '(input, textAccumulator) := flushText role st in
      let* output :=
        serializeToolResultOutput tool_use_id content text is_error status in
      Ok (input ++ [AzureFunctionCallOutput tool_use_id output], textAccumulator)
  end.

(** The body of [for (const message of body.messages)]: reading
    [message.content] throws when the entry is [null]. *)
Definition translateMessage (input : list AzureInputItem)
    (message : option AnthropicMessage) : result (list AzureInputItem) :=
  match message with
  | None => Throw (TypeError "Cannot read properties of null (reading 'content')")
  | Some message =>
      let* blocks := normalizeMessageContent (msg_content message) in
      let* st := foldM (translateBlock (msg_role message)) blocks (input, []) in
      Ok (fst (flushText (msg_role message) st))
  end.

Record Options : Type := {
  defaultReasoningEffort : option string;
}.

(** [s.trim().length > 0] for a value that is a string. *)
Definition isNonBlankString (v : JValue) : bool :=
  match v with
  | JStr s => (0 <? String.length (trim s))%nat
  | _ => false
  end.

Definition systemItems (system : JValue) : list AzureInputItem :=
  if truthy system then
    [AzureMessageInput "system"
       [AzureTextContentBlock input_text (normalizeToString system)]]
  else [].

(** [body.reasoning?.effort ?? options?.defaultReasoningEffort]. *)
Definition resolveReasoningEffort (reasoning : option AnthropicReasoning)
    (options : option Options) : JValue :=
  nullish
    (match reasoning with Some r => effort r | None => JUndefined end)
    (match options with
     | Some o =>
         match defaultReasoningEffort o with
         | Some d => JStr d
         | None => JUndefined
         end
     | None => JUndefined
     end).

Definition azureReasoning (reasoningEffort : JValue) : option AzureReasoning :=
  match reasoningEffort with
  | JStr s =>
      if isNonBlankString reasoningEffort then Some {| az_effort := s |}
      else None
  | _ => None
  end.

Definition resolveModel (model : JValue) (fallbackModel : option string) : string :=
  nullish_opt
    (match model with
     | JStr s => if isNonBlankString model then Some s else fallbackModel
     | _ => fallbackModel
     end)
    "".

Definition anthropicToAzureRequest (body : AnthropicRequest)
    (fallbackModel : option string) (options : option Options)
  : result AzureResponsesRequestBody :=
  match req_messages body with
  | None | Some [] => Throw EmptyMessages
  | Some messages =>
      let* input := foldM translateMessage messages (systemItems (req_system body)) in
      let requestedModel := resolveModel (req_model body) fallbackModel in
      if String.eqb requestedModel "" then Throw NoModelSpecified
      else
        let* azureTools := anthropicToolsToAzure (req_tools body) in
        Ok {| az_model := requestedModel;
              az_input := input;
              az_temperature := req_temperature body;
              az_top_p := req_top_p body;
              az_stop :=
                match req_stop_sequences body with
                | Some (s :: rest) => Some (s :: rest)
                | _ => None
                end;
              az_max_output_tokens := req_max_tokens body;
              az_metadata := req_metadata body;
              az_tools := azureTools;
              az_tool_choice := anthropicToolChoiceToAzure (req_tool_choice body);
              az_reasoning :=
                azureReasoning
                  (resolveReasoningEffort (req_reasoning body) options) |}
  end.

(** ** Response translation ([converters.ts], lines 339-348 and 471-573) *)

(** [!s] for a value of type [string | null | undefined]. *)
Definition falsy (s : option string) : bool :=
  match s with
  | None => true
  | Some s => String.eqb s ""
  end.

Definition mapStopReason (responseStopReason : option string)
    (hasToolCall : bool) : string :=
  if negb (falsy responseStopReason) then nullish_opt responseStopReason ""
  else if hasToolCall then "tool_use"
  else "end_turn".

(** The mutable locals of [azureToAnthropicResponse]. *)
Record Translation : Type := {
  contentBlocks : list AnthropicContentBlock;
  stopReason : option string;
  processedToolCallIds : gset string;
}.

Definition emptyUsage : AzureUsage :=
  {| completion_tokens := None; prompt_tokens := None; total_tokens := None;
     output_tokens := None; input_tokens := None |}.

(** [JSON.parse], the runtime's: [None] when it throws. *)
Class JsonParser : Type := JSON_parse : string -> option JValue.

Section ResponseTranslator.

Context {parser : JsonParser}.

Definition safeJsonParse (value : option string) (fallback : JValue) : JValue :=
  if falsy value then fallback
  else
    match value with
    | Some s =>
        match JSON_parse s with
        | Some v => v
        | None => fallback
        end
    | None => fallback
    end.

(** [call.name ?? call.function?.name ?? 'tool']. *)
Definition toolCallName (call : AzureToolCall) : string :=
  nullish_opt
    (nullish_chain (tc_name call)
       (match tc_function call with
        | Some f => fn_name f
        | None => None
        end))
    "tool".

(** [call.id ?? callName ?? `tool_${contentBlocks.length}`]. *)
Definition toolCallId (call : AzureToolCall) (blocks : nat) : string :=
  nullish_opt
    (nullish_chain (tc_id call) (Some (toolCallName call)))
    ("tool_" +:+ pretty blocks).

(** [call.arguments ?? call.function?.arguments]. *)
Definition toolCallArguments (call : AzureToolCall) : option string :=
  nullish_chain (tc_arguments call)
    (match tc_function call with
     | Some f => fn_arguments f
     | None => None
     end).

(** The body of [for (const call of block.tool_calls ?? [])]: reading
    [call.name] throws when the entry is [null]. *)
Definition expandToolCall (st : Translation) (call : option AzureToolCall)
  : result Translation :=
  match call with
  | None => Throw (TypeError "Cannot read properties of null (reading 'name')")
  | Some call =>
      let callName := toolCallName call in
      let callId := toolCallId call (List.length (contentBlocks st)) in
      Ok {| contentBlocks :=
              contentBlocks st
                ++ [AnthropicToolUseBlock (JStr callId) (JStr callName)
                      (safeJsonParse (toolCallArguments call) (JObj []))];
            stopReason := stopReason st;
            processedToolCallIds := {[ callId ]} ∪ processedToolCallIds st |}
  end.

(** The body of [for (const block of message.content ?? [])]. *)
Definition translateOutputBlock (st : Translation)
    (block : option AzureContentBlock) : result Translation :=
  match block with
  | None => Ok st
  | Some (AzureTextContentBlock type text) =>
      match type with
      | output_text | summary_text =>
          Ok {| contentBlocks :=
                  contentBlocks st
                    ++ [AnthropicTextBlock (normalizeToString (JStr text))];
                stopReason := stopReason st;
                processedToolCallIds := processedToolCallIds st |}
      | _ => Ok st
      end
  | Some (AzureToolCallBlock tool_calls) =>
      foldM expandToolCall (nullish_opt tool_calls []) st
  end.

Definition translateOutputMessage (st : Translation)
    (message : AzureResponseOutputMessage) : result Translation :=
  let* st := foldM translateOutputBlock
               (nullish_opt (out_msg_content message) []) st in
  if falsy (stopReason st) then
    Ok {| contentBlocks := contentBlocks st;
          stopReason :=
            Some (mapStopReason (out_msg_stop_reason message)
                    (0 <? size (processedToolCallIds st))%nat);
          processedToolCallIds := processedToolCallIds st |}
  else Ok st.

(** [call.name ?? 'tool']. *)
Definition functionCallName (call : AzureResponseFunctionCall) : string :=
  nullish_opt (fc_name call) "tool".

(** [call.call_id ?? call.id ?? callName ?? `tool_${processedToolCallIds.size}`]. *)
Definition functionCallId (call : AzureResponseFunctionCall) (seen : nat) : string :=
  nullish_opt
    (nullish_chain (nullish_chain (fc_call_id call) (fc_id call))
       (Some (functionCallName call)))
    ("tool_" +:+ pretty seen).

Definition translateFunctionCall (st : Translation)
    (call : AzureResponseFunctionCall) : Translation :=
  let callName := functionCallName call in
  let callId := functionCallId call (size (processedToolCallIds st)) in
  if bool_decide (callId ∈ processedToolCallIds st) then st
  else
    {| contentBlocks :=
         contentBlocks st
           ++ [AnthropicToolUseBlock (JStr callId) (JStr callName)
                 (safeJsonParse (fc_arguments call) (JObj []))];
       stopReason :=
         if falsy (stopReason st) then Some "tool_use" else stopReason st;
       processedToolCallIds := {[ callId ]} ∪ processedToolCallIds st |}.

(** The body of [for (const item of data.output ?? [])]. *)
Definition translateOutputItem (st : Translation)
    (item : option AzureResponseOutputItem) : result Translation :=
  match item with
  | None => Ok st
  | Some (OutputMessage message) => translateOutputMessage st message
  | Some (OutputFunctionCall call) => Ok (translateFunctionCall st call)
  | Some (OutputOther _) => Ok st
  end.

Definition initialTranslation : Translation :=
  {| contentBlocks := []; stopReason := None; processedToolCallIds := ∅ |}.

Definition translateOutput (output : list (option AzureResponseOutputItem))
  : result Translation :=
  foldM translateOutputItem output initialTranslation.

Definition azureToAnthropicResponse (data : AzureResponsesResponseBody)
    (requestedModel : string) : result AnthropicResponse :=
  let* st := translateOutput (nullish_opt (resp_output data) []) in
  let contentBlocks :=
    if (List.length (contentBlocks st) =? 0)%nat then
      contentBlocks st
        ++ [AnthropicTextBlock (nullish_opt (resp_output_text data) "")]
    else contentBlocks st in
  let stopReason :=
    if falsy (stopReason st) then Some "end_turn" else stopReason st in
  let usage := nullish_opt (resp_usage data) emptyUsage in
  let inputTokens :=
    nullish_opt (nullish_chain (input_tokens usage) (prompt_tokens usage)) 0%Z in
  let outputTokens :=
    nullish_opt (nullish_chain (output_tokens usage) (completion_tokens usage)) 0%Z in
  Ok {| id := nullish_opt (resp_id data) "proxy-response";
        role := "assistant";
        model := nullish_opt (resp_model data) requestedModel;
        content := contentBlocks;
        stop_reason := stopReason;
        stop_sequence := None;
        usage := {| usage_input_tokens := inputTokens;
                    usage_output_tokens := outputTokens |} |}.

End ResponseTranslator.

(** ** Stream emitter ([server.ts], lines 12-90) *)

(** The part of the HTTP response object that the emitter touches. *)
Record ServerResponse : Type := {
  statusCode : option Z;
  headers : list (string * string);
  written : list string;
  hasFlush : bool;
  flushes : nat;
  ended : bool;
}.

Definition res_status (res : ServerResponse) (code : Z) : ServerResponse :=
  {| statusCode := Some code; headers := headers res; written := written res;
     hasFlush := hasFlush res; flushes := flushes res; ended := ended res |}.

Definition res_setHeader (res : ServerResponse) (name value : string)
  : ServerResponse :=
  {| statusCode := statusCode res; headers := headers res ++ [(name, value)];
     written := written res; hasFlush := hasFlush res; flushes := flushes res;
     ended := ended res |}.

Definition res_write (res : ServerResponse) (chunk : string) : ServerResponse :=
  {| statusCode := statusCode res; headers := headers res;
     written := written res ++ [chunk]; hasFlush := hasFlush res;
     flushes := flushes res; ended := ended res |}.

Definition res_flush (res : ServerResponse) : ServerResponse :=
  {| statusCode := statusCode res; headers := headers res;
     written := written res; hasFlush := hasFlush res;
     flushes := S (flushes res); ended := ended res |}.

Definition res_end (res : ServerResponse) : ServerResponse :=
  {| statusCode := statusCode res; headers := headers res;
     written := written res; hasFlush := hasFlush res;
     flushes := flushes res; ended := true |}.

Definition writeSseEvent (res : ServerResponse) (event : string) (data : JValue)
  : ServerResponse :=
  let res := res_write res ("event: " +:+ event +:+ newline) in
  let res := res_write res ("data: " +:+ JSON_stringify data +:+ newline +:+ newline) in
  if hasFlush res then res_flush res else res.

(** The JavaScript object that a content block is: the properties in the
    order in which [converters.ts] builds them. *)
Definition blockObject (block : AnthropicContentBlock) : JValue :=
  match block with
  | AnthropicTextBlock text =>
      JObj [("type", JStr "text"); ("text", JStr text)]
  | AnthropicToolUseBlock id name input =>
      JObj [("type", JStr "tool_use"); ("id", id); ("name", name); ("input", input)]
  | AnthropicToolResultBlock tool_use_id content text is_error status =>
      JObj [("type", JStr "tool_result"); ("tool_use_id", tool_use_id);
            ("content", content); ("text", text); ("is_error", is_error);
            ("status", status)]
  end.

Definition usageObject (u : AnthropicUsage) : JValue :=
  JObj [("input_tokens", JNum (usage_input_tokens u));
        ("output_tokens", JNum (usage_output_tokens u))].

(** A value of type [string | null]. *)
Definition stringOrNull (s : option string) : JValue :=
  match s with Some s => JStr s | None => JNull end.

Definition indexValue (index : nat) : JValue := JNum (Z.of_nat index).

(** The callback of [response.content.forEach]. *)
Definition streamBlock (res : ServerResponse) (block : AnthropicContentBlock)
    (index : nat) : ServerResponse :=
  let res :=
    writeSseEvent res "content_block_start"
      (JObj [("type", JStr "content_block_start");
             ("index", indexValue index);
             ("content_block", blockObject block)]) in
  let res :=
    match block with
    | AnthropicTextBlock text =>
        if (0 <? String.length text)%nat then
          writeSseEvent res "content_block_delta"
            (JObj [("type", JStr "content_block_delta");
                   ("index", indexValue index);
                   ("delta", JObj [("type", JStr "text_delta");
                                   ("text", JStr text)])])
        else res
    | AnthropicToolUseBlock _ _ input =>
        writeSseEvent res "content_block_delta"
          (JObj [("type", JStr "content_block_delta");
                 ("index", indexValue index);
                 ("delta", JObj [("type", JStr "input_json_delta");
                                 ("partial_json",
                                  JStr (JSON_stringify (nullish input (JObj []))))])])
    | AnthropicToolResultBlock _ _ _ _ _ => res
    end in
  writeSseEvent res "content_block_stop"
    (JObj [("type", JStr "content_block_stop"); ("index", indexValue index)]).

(** [l.forEach((x, index) => ...)] with the mutated object threaded
    through. *)
Fixpoint forEach {A T : Type} (f : T -> A -> nat -> T) (l : list A)
    (index : nat) (s : T) : T :=
  match l with
  | [] => s
  | x :: rest => forEach f rest (S index) (f s x index)
  end.

Definition streamAnthropicResponse (res : ServerResponse)
    (response : AnthropicResponse) : ServerResponse :=
  let res := res_status res 200 in
  let res := res_setHeader res "Content-Type" "text/event-stream" in
  let res := res_setHeader res "Cache-Control" "no-cache, no-transform" in
  let res := res_setHeader res "Connection" "keep-alive" in
  let res :=
    writeSseEvent res "message_start"
      (JObj [("type", JStr "message_start");
             ("message",
              JObj [("id", JStr (id response));
                    ("type", JStr "message");
                    ("role", JStr (role response));
                    ("model", JStr (model response));
                    ("content", JArr []);
                    ("stop_reason", JNull);
                    ("stop_sequence", JNull);
                    ("usage", usageObject (usage response))])]) in
  let res := forEach streamBlock (content response) 0 res in
  let res :=
    writeSseEvent res "message_delta"
      (JObj [("type", JStr "message_delta");
             ("delta",
              JObj [("stop_reason", stringOrNull (stop_reason response));
                    ("stop_sequence", stringOrNull (stop_sequence response))]);
             ("usage", usageObject (usage response))]) in
  let res :=
    writeSseEvent res "message_stop" (JObj [("type", JStr "message_stop")]) in
  res_end res.

(** ** The upstream URL ([server.ts], lines 106-114)

    The provider configuration comes from a parsed TOML file, so its
    fields are dynamic values; [encodeURIComponent] is the runtime's. *)

(** What [process.env[name]] is when it is not undefined: the value of
    the environment variable of that name or, for a name that is no
    variable but a property of the object's prototype ([constructor],
    [toString], ...), that inherited property, which is a function or an
    object and never a string. *)
Inductive EnvValue : Type :=
| EnvString (value : string)
| EnvInherited (name : string).

Record AzureProviderConfig : Type := {
  azure_name : JValue;
  azure_baseUrl : JValue;
  azure_envKey : JValue;
  azure_wireApi : JValue;
  azure_apiVersion : JValue;
  azure_apiKey : EnvValue;
}.

(** [s.replace(/\/$/, '')]: one slash at the very end is removed. *)
Definition stripTrailingSlash (s : string) : string :=
  match String.rev s with
  | String "/" r => String.rev r
  | _ => s
  end.

(** [s.includes(t)]. *)
Definition includes (s t : string) : bool :=
  match String.index 0 t s with Some _ => true | None => false end.

Section UpstreamUrl.

Variable encodeURIComponent : string -> string.

Definition buildAzureUrl (azure : AzureProviderConfig) : result string :=
  match azure_baseUrl azure with
  | JStr baseUrl =>
      let base := stripTrailingSlash baseUrl in
      let url := base +:+ "/" +:+ js_String (azure_wireApi azure) in
      if truthy (azure_apiVersion azure) then
        let separator := if includes url "?" then "&" else "?" in
        Ok (url +:+ separator +:+ "api-version="
                +:+ encodeURIComponent (js_String (azure_apiVersion azure)))
      else Ok url
  | JUndefined =>
      Throw (TypeError "Cannot read properties of undefined (reading 'replace')")
  | JNull =>
      Throw (TypeError "Cannot read properties of null (reading 'replace')")
  | _ => Throw (TypeError "azure.baseUrl.replace is not a function")
  end.

End UpstreamUrl.

(** ** The [/v1/messages] handler ([server.ts], lines 120-181)

    The outbound call [axios.post] is the function [post] of the URL and
    the request: it returns the result body, or the error that the
    awaited call throws.  The exchange records the requests posted, each
    with its URL, and the reply sent; the debug logging is left out.  An
    exception that is not the outbound call's is answered with the status
    400 and its message. *)

Record ServerConfig : Type := {
  cfg_model : option string;
  cfg_reasoningEffort : option string;
  cfg_azure : AzureProviderConfig;
}.

Record AxiosError : Type := {
  err_status : option Z;
  err_data : JValue;
}.

Inductive Reply : Type :=
| ReplyJson (body : AnthropicResponse)
| ReplyStream (res : ServerResponse)
| ReplyError (status : Z) (message : JValue).

Record Exchange : Type := {
  outbound : list (string * AzureResponsesRequestBody);
  reply : Reply;
}.

(** [v?.k]. *)
Definition optProp (v : JValue) (k : string) : JValue :=
  if isNullish v then JUndefined else prop v k.

(** [error.message] of a thrown [Error]. *)
Definition exnMessage (e : Exn) : string :=
  match e with
  | Error message => message
  | TypeError message => message
  end.

(** The token of the [x-api-key] header, else of a [Bearer] authorization
    header. *)
Definition providedToken (x_api_key authorization : option string) : option string :=
  nullish_chain x_api_key
    (match authorization with
     | Some a =>
         if String.prefix "Bearer " a then
           Some (String.substring 7 (String.length a - 7) a)
         else None
     | None => None
     end).

Section Handler.

Context {parser : JsonParser}.

Variable encodeURIComponent : string -> string.
Variable serverConfig : ServerConfig.
Variable expectedAnthropicToken : option string.
Variable post :
  string -> AzureResponsesRequestBody -> AxiosError + AzureResponsesResponseBody.

Definition postMessages (x_api_key authorization : option string)
    (body : AnthropicRequest) (res : ServerResponse) : Exchange :=
  if negb (falsy expectedAnthropicToken)
     && (falsy (providedToken x_api_key authorization)
         || negb (bool_decide (providedToken x_api_key authorization
                               = expectedAnthropicToken))) then
    {| outbound := [];
       reply := ReplyError 401 (JStr "Invalid or missing API key") |}
  else
    match anthropicToAzureRequest body (cfg_model serverConfig)
            (Some {| defaultReasoningEffort := cfg_reasoningEffort serverConfig |}) with
    | Throw e =>
        {| outbound := []; reply := ReplyError 400 (JStr (exnMessage e)) |}
    | Ok azureRequest =>
        match buildAzureUrl encodeURIComponent (cfg_azure serverConfig) with
        | Throw e =>
            {| outbound := []; reply := ReplyError 400 (JStr (exnMessage e)) |}
        | Ok url =>
            match post url azureRequest with
            | inl error =>
                {| outbound := [(url, azureRequest)];
                   reply :=
                     ReplyError (nullish_opt (err_status error) 500%Z)
                       (if isString (err_data error) then err_data error
                        else
                          nullish
                            (nullish
                               (optProp (optProp (err_data error) "error") "message")
                               (optProp (err_data error) "message"))
                            (JStr "Unexpected error from Azure OpenAI service")) |}
            | inr data =>
                match azureToAnthropicResponse data (az_model azureRequest) with
                | Throw e =>
                    {| outbound := [(url, azureRequest)];
                       reply := ReplyError 400 (JStr (exnMessage e)) |}
                | Ok anthropicResponse =>
                    {| outbound := [(url, azureRequest)];
                       reply :=
                         if truthy (req_stream body) then
                           ReplyStream (streamAnthropicResponse res anthropicResponse)
                         else ReplyJson anthropicResponse |}
                end
            end
        end
    end.

End Handler.

(** ** Configuration ([config.ts])

    The file system, the TOML parser and the process environment are the
    runtime's: [existsSync] is [fs.existsSync(configPath)], [parsedToml] is
    [toml.parse(fs.readFileSync(configPath, 'utf8'))] or what it throws,
    [env name] is [process.env[name]], [None] when it is undefined. *)

Record CodexConfig : Type := {
  config_model : JValue;
  config_modelProvider : JValue;
  config_azure : AzureProviderConfig;
}.

Section Configuration.

Variable configPath : string.
Variable existsSync : bool.
Variable parsedToml : result JValue.
Variable env : string -> option EnvValue.

(** [!v] for a value of [process.env]: an inherited property is truthy. *)
Definition envFalsy (v : option EnvValue) : bool :=
  match v with
  | None => true
  | Some (EnvString s) => String.eqb s ""
  | Some (EnvInherited _) => false
  end.

Definition loadCodexConfig : result CodexConfig :=
  if negb existsSync then
    Throw (Error ("Config file not found at " +:+ configPath))
  else
    let* parsed := parsedToml in
    let model := optProp parsed "model" in
    let modelProvider := optProp parsed "model_provider" in
    if negb (truthy modelProvider) || negb (is_str modelProvider "azure") then
      Throw (Error ("Only 'azure' model_provider is supported. Found: "
                      +:+ js_String (nullish modelProvider (JStr "undefined"))))
    else
      let providerConfig :=
        optProp (optProp parsed "model_providers") (js_String modelProvider) in
      if negb (truthy providerConfig) then
        Throw (Error ("Azure provider configuration missing in " +:+ configPath))
      else
        let baseUrl := optProp providerConfig "base_url" in
        let envKey := optProp providerConfig "env_key" in
        let wireApi := optProp providerConfig "wire_api" in
        let apiVersion := optProp providerConfig "api_version" in
        if negb (truthy baseUrl) || negb (truthy envKey) || negb (truthy wireApi) then
          Throw (Error "Azure provider configuration missing required fields (base_url, env_key, wire_api)")
        else
          let apiKey :=
            nullish_chain (env (js_String envKey)) (env "ANTHROPIC_AUTH_TOKEN") in
          if envFalsy apiKey then
            Throw (Error ("Environment variable " +:+ js_String envKey
                            +:+ " (or fallback ANTHROPIC_AUTH_TOKEN) for Azure API key is not set"))
          else
            Ok {| config_model := model;
                  config_modelProvider := modelProvider;
                  config_azure :=
                    {| azure_name :=
                         nullish (optProp providerConfig "name") (JStr "Azure OpenAI");
                       azure_baseUrl := baseUrl;
                       azure_envKey := envKey;
                       azure_wireApi := wireApi;
                       azure_apiVersion := apiVersion;
                       azure_apiKey := nullish_opt apiKey (EnvString "") |} |}.

End Configuration.

(** ** Command line ([cli.ts], [parseArgs])

    [integerValue s] is [Number(s)] when [Number.isInteger(Number(s))]
    holds and [None] otherwise.  The result ['error'] carries the line
    that [console.error] prints before it is returned. *)

Record CliOptions : Type := {
  cli_host : option string;
  cli_port : option Z;
}.

Inductive ParseResult : Type :=
| Parsed (options : CliOptions)
| ParsedHelp
| ParsedVersion
| ParsedError (logged : string).

(** [s.split(sep)] for a one-character separator. *)
Fixpoint js_split (sep : ascii) (s : string) : list string :=
  match s with
  | EmptyString => [EmptyString]
  | String c rest =>
      if Ascii.eqb c sep then EmptyString :: js_split sep rest
      else
        match js_split sep rest with
        | piece :: pieces => String c piece :: pieces
        | [] => [String c EmptyString]
        end
  end.

(** [arg.split('=', 2)[1]]. *)
Definition optionValue (arg : string) : option string :=
  nth_error (firstn 2 (js_split "=" arg)) 1.

(** [String(v)] of a string or [undefined]. *)
Definition shown (v : option string) : string :=
  nullish_opt v "undefined".

Section CommandLine.

Variable integerValue : string -> option Z.

(** [!Number.isInteger(port) || port <= 0] for [port = Number(value)]. *)
Definition validPort (value : option string) : option Z :=
  match value with
  | Some s =>
      match integerValue s with
      | Some port => if (port <=? 0)%Z then None else Some port
      | None => None
      end
  | None => None
  end.

(** The loop of [parseArgs] from the argument at index [i] on: [argv] is
    what is left of the vector there. *)
Fixpoint parseArgsFrom (argv : list string) (options : CliOptions) : ParseResult :=
  match argv with
  | [] => Parsed options
  | arg :: rest =>
      if String.eqb arg "-h" || String.eqb arg "--help" then ParsedHelp
      else if String.eqb arg "-v" || String.eqb arg "--version" then ParsedVersion
      else if String.eqb arg "-p" || String.eqb arg "--port" then
        match rest with
        | next :: rest' =>
            if String.eqb next "" then ParsedError "Missing value for port option."
            else
              match validPort (Some next) with
              | Some port =>
                  parseArgsFrom rest'
                    {| cli_host := cli_host options; cli_port := Some port |}
              | None => ParsedError ("Invalid port: " +:+ next)
              end
        | [] => ParsedError "Missing value for port option."
        end
      else if String.prefix "--port=" arg then
        match validPort (optionValue arg) with
        | Some port =>
            parseArgsFrom rest
              {| cli_host := cli_host options; cli_port := Some port |}
        | None => ParsedError ("Invalid port: " +:+ shown (optionValue arg))
        end
      else if String.eqb arg "-H" || String.eqb arg "--host" then
        match rest with
        | next :: rest' =>
            if String.eqb next "" then ParsedError "Missing value for host option."
            else
              parseArgsFrom rest'
                {| cli_host := Some next; cli_port := cli_port options |}
        | [] => ParsedError "Missing value for host option."
        end
      else if String.prefix "--host=" arg then
        parseArgsFrom rest
          {| cli_host := optionValue arg; cli_port := cli_port options |}
      else ParsedError ("Unknown argument: " +:+ arg)
  end.

Definition parseArgs (argv : list string) : ParseResult :=
  parseArgsFrom argv {| cli_host := None; cli_port := None |}.

End CommandLine.

(** ** Definitions that follow the specification's words *)

(** *** Maximal runs of Text blocks (specification, section 4.2 step 2) *)

Inductive Run : Type :=
| TextRun (texts : list string)
| Single (block : AnthropicContentBlock).

(** Put a (possibly empty) sequence of texts in front of a decomposition,
    merging it with a run that starts the decomposition. *)
Definition consText (texts : list string) (rs : list Run) : list Run :=
  match texts with
  | [] => rs
  | _ :: _ =>
      match rs with
      | TextRun ts :: rest => TextRun (texts ++ ts) :: rest
      | _ => TextRun texts :: rs
      end
  end.

(** The decomposition of a block sequence into its maximal runs of
    consecutive Text blocks and its other blocks, in order. *)
Fixpoint runs (blocks : list AnthropicContentBlock) : list Run :=
  match blocks with
  | [] => []
  | AnthropicTextBlock text :: rest => consText [text] (runs rest)
  | block :: rest => Single block :: runs rest
  end.

Definition runBlocks (r : Run) : list AnthropicContentBlock :=
  match r with
  | TextRun texts => map AnthropicTextBlock texts
  | Single block => [block]
  end.

Definition isText (block : AnthropicContentBlock) : bool :=
  match block with AnthropicTextBlock _ => true | _ => false end.

(** No run is empty, no two runs are adjacent, and a block standing alone
    is not a Text block: the runs are maximal. *)
Fixpoint maximalRuns (rs : list Run) : Prop :=
  match rs with
  | [] => True
  | TextRun texts :: rest =>
      texts <> []
      /\ match rest with TextRun _ :: _ => False | _ => True end
      /\ maximalRuns rest
  | Single block :: rest => isText block = false /\ maximalRuns rest
  end.

(** The one input item of a run (its texts concatenated; output_text
    for the assistant role, input_text otherwise) or of another block. *)
Definition runItem (role : string) (r : Run) : result AzureInputItem :=
  match r with
  | TextRun texts =>
      Ok (AzureMessageInput role
            [AzureTextContentBlock
               (if String.eqb role "assistant" then output_text else input_text)
               (String.concat "" texts)])
  | Single (AnthropicTextBlock text) =>
      Ok (AzureMessageInput role
            [AzureTextContentBlock
               (if String.eqb role "assistant" then output_text else input_text)
               text])
  | Single (AnthropicToolUseBlock id name input) =>
      Ok (AzureFunctionCallInput id name
            (JSON_stringify (nullish input (JObj []))))
  | Single (AnthropicToolResultBlock tool_use_id content text is_error status) =>
      let* output :=
        serializeToolResultOutput tool_use_id content text is_error status in
      Ok (AzureFunctionCallOutput tool_use_id output)
  end.

(** The input items of one message: one per run or other block. *)
Definition messageItems (message : AnthropicMessage) : result (list AzureInputItem) :=
  let* blocks := normalizeMessageContent (msg_content message) in
  mapM (runItem (msg_role message)) (runs blocks).

(** *** Reasoning effort (specification, section 4.2 step 7) *)

(** [body.reasoning.effort], [undefined] when there is none. *)
Definition explicitEffort (body : AnthropicRequest) : JValue :=
  match req_reasoning body with
  | Some r => effort r
  | None => JUndefined
  end.

Definition defaultEffort (options : option Options) : option string :=
  match options with
  | Some o => defaultReasoningEffort o
  | None => None
  end.

(** The effort as the specification resolves it: the explicit effort if
    it is a non-empty string, else the default; kept only if it is a
    non-empty string. *)
Definition specifiedEffort (body : AnthropicRequest) (options : option Options)
  : option string :=
  let resolved :=
    match explicitEffort body with
    | JStr s => if String.eqb s "" then defaultEffort options else Some s
    | _ => defaultEffort options
    end in
  match resolved with
  | Some s => if String.eqb s "" then None else Some s
  | None => None
  end.

(** *** The event stream (specification, section 4.4) *)











(** *** Content blocks of the response (specification, section 4.3) *)

Section ResponseBlocks.

Context {parser : JsonParser}.

(** The ToolUse block of a call inside a message: the id is the call's
    own id, else its name (its function's name, else ['tool']). *)
Definition toolUseOf (call : AzureToolCall) : AnthropicContentBlock :=
  AnthropicToolUseBlock
    (JStr (nullish_opt (tc_id call) (toolCallName call)))
    (JStr (toolCallName call))
    (safeJsonParse (toolCallArguments call) (JObj [])).

(** The calls of a [tool_calls] array. *)
Definition presentCalls (calls : list (option AzureToolCall)) : list AzureToolCall :=
  flat_map (fun call => match call with Some c => [c] | None => [] end) calls.

(** The content blocks that one block of an output message expands to,
    whatever was translated before it. *)
Definition outputBlockBlocks (block : option AzureContentBlock)
  : list AnthropicContentBlock :=
  match block with
  | Some (AzureTextContentBlock output_text text)
  | Some (AzureTextContentBlock summary_text text) => [AnthropicTextBlock text]
  | Some (AzureToolCallBlock (Some calls)) => map toolUseOf (presentCalls calls)
  | _ => []
  end.

Definition outputMessageBlocks (message : AzureResponseOutputMessage)
  : list AnthropicContentBlock :=
  flat_map outputBlockBlocks (nullish_opt (out_msg_content message) []).

(** The ToolUse block of a top-level function call: the id is the call's
    call_id, else its id, else its name (['tool'] when it has none). *)
Definition functionCallResolvedId (call : AzureResponseFunctionCall) : string :=
  nullish_opt (nullish_chain (fc_call_id call) (fc_id call)) (functionCallName call).

Definition toolUseOfFunctionCall (call : AzureResponseFunctionCall)
  : AnthropicContentBlock :=
  AnthropicToolUseBlock
    (JStr (functionCallResolvedId call))
    (JStr (functionCallName call))
    (safeJsonParse (fc_arguments call) (JObj [])).



End ResponseBlocks.

(** No entry of a [tool_calls] array is [null]: in a block, in a message,
    in an output item, in a result. *)
Definition blockCallsPresent (block : option AzureContentBlock) : bool :=
  match block with
  | Some (AzureToolCallBlock (Some calls)) =>
      forallb (fun call => match call with Some _ => true | None => false end) calls
  | _ => true
  end.

Definition messageCallsPresent (message : AzureResponseOutputMessage) : bool :=
  forallb blockCallsPresent (nullish_opt (out_msg_content message) []).

Definition itemCallsPresent (item : option AzureResponseOutputItem) : bool :=
  match item with
  | Some (OutputMessage message) => messageCallsPresent message
  | _ => true
  end.

Definition callsPresent (data : AzureResponsesResponseBody) : bool :=
  forallb itemCallsPresent (nullish_opt (resp_output data) []).

Definition setOutput (data : AzureResponsesResponseBody)
    (output : list (option AzureResponseOutputItem)) : AzureResponsesResponseBody :=
  {| resp_id := resp_id data; resp_model := resp_model data;
     resp_output := Some output; resp_usage := resp_usage data;
     resp_output_text := resp_output_text data |}.

(** *** Sample inputs *)

Definition textBlockObject (text : string) : JValue :=
  JObj [("type", JStr "text"); ("text", JStr text)].

Definition sampleRequest (messages : option (list AnthropicMessage))
    (model : JValue) (reasoning : option AnthropicReasoning) : AnthropicRequest :=
  {| req_model := model; req_system := JUndefined; req_max_tokens := None;
     req_temperature := None; req_top_p := None; req_stop_sequences := None;
     req_stream := JUndefined; req_messages := option_map (map Some) messages;
     req_metadata := None;
     req_tools := JUndefined; req_tool_choice := None; req_reasoning := reasoning |}.

(** Two consecutive Text blocks, a tool call, and a closing Text block. *)
Definition mergeRequest : AnthropicRequest :=
  sampleRequest
    (Some [ {| msg_role := "assistant";
               msg_content :=
                 JArr [textBlockObject "Hel"; textBlockObject "lo";
                       JObj [("type", JStr "tool_use"); ("id", JStr "t1");
                             ("name", JStr "lookup");
                             ("input", JObj [("q", JStr "x")])];
                       JStr "bye"] |} ])
    (JStr "gpt-5-codex") None.

(** A [tool_result] block with content [[{type:'text', text:'42'}]]. *)
Definition toolResult42 : JValue :=
  JObj [("type", JStr "tool_result"); ("tool_use_id", JStr "t1");
        ("content", JArr [textBlockObject "42"])].

Definition toolResultMessage : AnthropicMessage :=
  {| msg_role := "user"; msg_content := JArr [toolResult42] |}.

Definition toolResultRequest : AnthropicRequest :=
  sampleRequest (Some [toolResultMessage]) (JStr "gpt-5-codex") None.

Definition helloMessage : AnthropicMessage :=
  {| msg_role := "user"; msg_content := JStr "Hello" |}.

(** A request whose [reasoning.effort] is the empty string. *)
Definition emptyEffortRequest : AnthropicRequest :=
  sampleRequest (Some [helloMessage]) (JStr "gpt-5-codex")
    (Some {| effort := JStr "" |}).

Definition highDefault : option Options :=
  Some {| defaultReasoningEffort := Some "high" |}.

(** A content block without a type discriminator. *)
Definition untypedBlock : JValue := JObj [("text", JStr "hi")].

Definition untypedBlockMessage : AnthropicMessage :=
  {| msg_role := "user"; msg_content := JArr [untypedBlock] |}.

(** A request whose [reasoning.effort] is blank. *)
Definition blankEffortRequest : AnthropicRequest :=
  sampleRequest (Some [helloMessage]) (JStr "gpt-5-codex")
    (Some {| effort := JStr "  " |}).

Definition outputMessage (content : list (option AzureContentBlock))
    (stop_reason : option string) : option AzureResponseOutputItem :=
  Some (OutputMessage {| out_msg_id := None; out_msg_role := "assistant";
                         out_msg_content := Some content;
                         out_msg_stop_reason := stop_reason |}).

Definition functionCall (call_id id name arguments : option string)
  : option AzureResponseOutputItem :=
  Some (OutputFunctionCall {| fc_id := id; fc_call_id := call_id;
                              fc_name := name; fc_arguments := arguments |}).

Definition toolCall (id name arguments : option string) : AzureToolCall :=
  {| tc_id := id; tc_name := name; tc_arguments := arguments;
     tc_function := None |}.

Definition responseBody (output : list (option AzureResponseOutputItem))
  : AzureResponsesResponseBody :=
  {| resp_id := None; resp_model := None; resp_output := Some output;
     resp_usage := None; resp_output_text := None |}.

(** A message with only text and no stop_reason, then a function call. *)
Definition textThenCall : AzureResponsesResponseBody :=
  responseBody
    [outputMessage [Some (AzureTextContentBlock output_text "Hi")] None;
     functionCall (Some "c1") None (Some "lookup") (Some "{}")].

(** A tool call without id and name inside a message; a function call
    without call_id, id and name; two such function calls. *)
Definition anonymousToolCall : AzureResponsesResponseBody :=
  responseBody
    [outputMessage [Some (AzureToolCallBlock (Some [Some (toolCall None None None)]))]
       None].

Definition anonymousFunctionCall : AzureResponsesResponseBody :=
  responseBody [functionCall None None None None].

Definition twoAnonymousFunctionCalls : AzureResponsesResponseBody :=
  responseBody [functionCall None None None (Some "1");
                functionCall None None None (Some "2")].

(** The same call inside a message and as a top-level item. *)
Definition duplicatedCall : list (option AzureResponseOutputItem) :=
  [outputMessage
     [Some (AzureToolCallBlock
              (Some [Some (toolCall (Some "call_1") (Some "lookup") None)]))]
     None;
   functionCall (Some "call_1") (Some "fc_1") (Some "lookup") None].

(** The same tool call twice in one message, and in two messages. *)
Definition repeatedCall : AzureToolCall :=
  toolCall (Some "call_1") (Some "lookup") None.

Definition repeatedInOneMessage : AzureResponsesResponseBody :=
  responseBody
    [outputMessage
       [Some (AzureToolCallBlock (Some [Some repeatedCall; Some repeatedCall]))] None].

Definition repeatedInTwoMessages : AzureResponsesResponseBody :=
  responseBody
    [outputMessage [Some (AzureToolCallBlock (Some [Some repeatedCall]))] None;
     outputMessage [Some (AzureToolCallBlock (Some [Some repeatedCall]))] None].

Definition repeatedCallMessage : AzureResponseOutputMessage :=
  {| out_msg_id := None; out_msg_role := "assistant";
     out_msg_content := Some [Some (AzureToolCallBlock (Some [Some repeatedCall]))];
     out_msg_stop_reason := None |}.

(** The top-level item that repeats [repeatedCall]. *)
Definition repeatedCallItem : AzureResponseFunctionCall :=
  {| fc_id := Some "fc_1"; fc_call_id := Some "call_1";
     fc_name := Some "lookup"; fc_arguments := None |}.

(** A parser that rejects every string. *)
Definition rejectAll : JsonParser := fun _ => None.

Definition freshResponse : ServerResponse :=
  {| statusCode := None; headers := []; written := []; hasFlush := true;
     flushes := 0; ended := false |}.


Definition greetingResponse : AnthropicResponse :=
  {| id := "resp_2"; role := "assistant"; model := "gpt-5-codex";
     content := [AnthropicTextBlock "Hi"; AnthropicTextBlock "";
                 AnthropicToolUseBlock (JStr "call_1") (JStr "lookup")
                   (JObj [("q", JStr "x")])];
     stop_reason := Some "tool_use"; stop_sequence := None;
     usage := {| usage_input_tokens := 3; usage_output_tokens := 5 |} |}.

Definition sampleAzure : AzureProviderConfig :=
  {| azure_name := JStr "Azure OpenAI";
     azure_baseUrl := JStr "https://example.openai.azure.com/openai";
     azure_envKey := JStr "AZURE_OPENAI_API_KEY";
     azure_wireApi := JStr "responses";
     azure_apiVersion := JStr "2025-04-01-preview";
     azure_apiKey := EnvString "secret" |}.

Definition sampleConfig : ServerConfig :=
  {| cfg_model := Some "gpt-5-codex"; cfg_reasoningEffort := None;
     cfg_azure := sampleAzure |}.

(** The URL that [sampleAzure] is posted to, for an encoder that leaves
    this API version as it is. *)
Definition sampleUrl : string :=
  "https://example.openai.azure.com/openai/responses?api-version=2025-04-01-preview".

(** An upstream that is unreachable. *)
Definition unreachable (url : string) (request : AzureResponsesRequestBody)
  : AxiosError + AzureResponsesResponseBody :=
  inl {| err_status := None; err_data := JUndefined |}.




(** The same two items in the other order. *)
Definition callThenText : AzureResponsesResponseBody :=
  responseBody
    [functionCall (Some "c1") None (Some "lookup") (Some "{}");
     outputMessage [Some (AzureTextContentBlock output_text "Hi")] None].

(** A function call whose arguments are the JSON text [null]. *)
Definition nullArguments : AzureResponsesResponseBody :=
  responseBody [functionCall (Some "call_1") None (Some "lookup") (Some "null")].

(** *** Predicates of the further properties *)

Definition succeeds {A : Type} (r : result A) : bool :=
  match r with Ok _ => true | Throw _ => false end.

(** A [tool_result] content whose array entries can all be read. *)
Definition serializable (content : JValue) : bool :=
  match content with
  | JArr parts => forallb (fun part => negb (isNullish part)) parts
  | _ => true
  end.

(** The items of a content array that the request translator accepts: a
    string; an object of type text; of type tool_use with the keys [id]
    and [name]; of type tool_result with the key [tool_use_id] and a
    content that can be serialized. *)
Definition acceptsItem (item : JValue) : bool :=
  match item with
  | JStr _ => true
  | JObj _ =>
      js_in "type" item
      && (is_str (prop item "type") "text"
          || is_str (prop item "type") "tool_use"
             && js_in "id" item && js_in "name" item
          || is_str (prop item "type") "tool_result"
             && js_in "tool_use_id" item && serializable (prop item "content"))
  | _ => false
  end.

Definition acceptsMessage (message : AnthropicMessage) : bool :=
  match msg_content message with
  | JStr _ => true
  | JArr items => forallb acceptsItem items
  | _ => false
  end.

(** An entry of [messages] that is not null and is accepted. *)
Definition acceptsEntry (entry : option AnthropicMessage) : bool :=
  match entry with
  | Some message => acceptsMessage message
  | None => false
  end.

Definition blockSerializable (block : AnthropicContentBlock) : bool :=
  match block with
  | AnthropicToolResultBlock _ content _ _ _ => serializable content
  | _ => true
  end.

(** The shape of every message item that the request translator emits. *)
Definition textMessageItem (item : AzureInputItem) : Prop :=
  match item with
  | AzureMessageInput role content =>
      exists text,
        content
        = [AzureTextContentBlock
             (if String.eqb role "assistant" then output_text else input_text)
             text]
  | _ => True
  end.

(** A request of two messages with string content and a system prompt. *)
Definition dialogueRequest : AnthropicRequest :=
  {| req_model := JStr "gpt-5-codex"; req_system := JStr "Be brief.";
     req_max_tokens := None; req_temperature := None; req_top_p := None;
     req_stop_sequences := Some []; req_stream := JUndefined;
     req_messages :=
       Some [ Some {| msg_role := "user"; msg_content := JStr "Hello" |};
              Some {| msg_role := "assistant"; msg_content := JStr "" |} ];
     req_metadata := None; req_tools := JArr []; req_tool_choice := None;
     req_reasoning := None |}.

Definition lookupToolUse : JValue :=
  JObj [("type", JStr "tool_use"); ("id", JStr "t1"); ("name", JStr "lookup")].

Definition toolUseMessage : AnthropicMessage :=
  {| msg_role := "assistant"; msg_content := JArr [lookupToolUse] |}.

Definition toolUseRequest : AnthropicRequest :=
  sampleRequest (Some [toolUseMessage]) (JStr "gpt-5-codex") None.

(** A tool with an empty schema, and one with a schema of its own. *)
Definition lookupTool : JValue :=
  JObj [("name", JStr "lookup"); ("input_schema", JObj [])].

Definition searchSchema : JValue :=
  JObj [("type", JStr "object");
        ("properties", JObj [("q", JObj [("type", JStr "string")])])].

Definition searchTool : JValue :=
  JObj [("name", JStr "search"); ("description", JStr "Search the web");
        ("input_schema", searchSchema)].

(** The tools that [anthropicToolsToAzure] translates: none (a falsy
    value, or a value whose length is the number 0), or an array without
    null and undefined entries. *)
Definition acceptsTools (tools : JValue) : bool :=
  negb (truthy tools) || is_num (js_length tools) 0
  || match tools with
     | JArr items => forallb (fun tool => negb (isNullish tool)) items
     | _ => false
     end.

(** What one tool is translated to. *)
Definition translatedTool (tool : JValue) (azureTool : AzureToolDefinition) : Prop :=
  isNullish tool = false
  /\ az_tool_type azureTool = "function"
  /\ az_tool_name azureTool = prop tool "name"
  /\ az_tool_description azureTool = prop tool "description"
  /\ (truthy (prop tool "input_schema") = true ->
      keyCount (prop tool "input_schema") <> 0%nat ->
      az_tool_parameters azureTool = prop tool "input_schema")
  /\ (truthy (prop tool "input_schema") = false
      \/ keyCount (prop tool "input_schema") = 0%nat ->
      az_tool_parameters azureTool
      = JObj [("type", JStr "object"); ("properties", JObj [])]).

Definition withTools (body : AnthropicRequest) (tools : JValue) : AnthropicRequest :=
  {| req_model := req_model body; req_system := req_system body;
     req_max_tokens := req_max_tokens body; req_temperature := req_temperature body;
     req_top_p := req_top_p body; req_stop_sequences := req_stop_sequences body;
     req_stream := req_stream body; req_messages := req_messages body;
     req_metadata := req_metadata body; req_tools := tools;
     req_tool_choice := req_tool_choice body; req_reasoning := req_reasoning body |}.

(** The ids of the ToolUse blocks of a response, in order. *)
Definition toolUseIds (blocks : list AnthropicContentBlock) : list string :=
  flat_map (fun block =>
              match block with
              | AnthropicToolUseBlock (JStr id) _ _ => [id]
              | _ => []
              end) blocks.

(** The two shapes of block that the response translator produces. *)
Definition translatedBlock (block : AnthropicContentBlock) : Prop :=
  match block with
  | AnthropicTextBlock _ => True
  | AnthropicToolUseBlock (JStr _) (JStr _) _ => True
  | _ => False
  end.

Definition isToolUse (block : AnthropicContentBlock) : bool :=
  match block with AnthropicToolUseBlock _ _ _ => true | _ => false end.

(** An output item that the response translator passes over. *)
Definition ignoredItem (item : option AzureResponseOutputItem) : bool :=
  match item with
  | None | Some (OutputOther _) => true
  | _ => false
  end.

Definition isFunctionCall (item : option AzureResponseOutputItem) : bool :=
  match item with
  | Some (OutputFunctionCall _) => true
  | _ => false
  end.

(** The invariant of the loop over the output items: an id is in the
    seen-set exactly when a ToolUse block with that id has been produced,
    and every block produced is a Text block or a ToolUse block with a
    string id and name. *)
Definition seenInvariant (st : Translation) : Prop :=
  (forall id, id ∈ processedToolCallIds st <-> In id (toolUseIds (contentBlocks st)))
  /\ Forall translatedBlock (contentBlocks st).

(** Function calls without arguments, the third item repeating the
    call_id of the first. *)
Definition repeatedFunctionCalls : AzureResponsesResponseBody :=
  responseBody [functionCall (Some "call_1") None (Some "lookup") None;
                None;
                functionCall (Some "call_1") None (Some "lookup") None;
                functionCall (Some "call_2") None (Some "lookup") None].

(** A message that stops for a reason of its own. *)
Definition stoppedMessage : AzureResponseOutputMessage :=
  {| out_msg_id := None; out_msg_role := "assistant";
     out_msg_content := Some [Some (AzureTextContentBlock output_text "Hi")];
     out_msg_stop_reason := Some "max_tokens" |}.

Definition stoppedThenCall : AzureResponsesResponseBody :=
  responseBody [None; Some (OutputOther "reasoning");
                Some (OutputMessage stoppedMessage);
                functionCall (Some "call_1") None (Some "lookup") None].

(** An upstream error with a JSON body. *)
Definition rateLimited : AxiosError :=
  {| err_status := Some 429%Z;
     err_data := JObj [("error", JObj [("message", JStr "slow down")])] |}.

Definition streamingHello : AnthropicRequest :=
  {| req_model := JStr "gpt-5-codex"; req_system := JUndefined;
     req_max_tokens := None; req_temperature := None; req_top_p := None;
     req_stop_sequences := None; req_stream := JBool true;
     req_messages := Some [Some helloMessage]; req_metadata := None;
     req_tools := JUndefined; req_tool_choice := None; req_reasoning := None |}.

(** An upstream that answers every request with the same text. *)
Definition answersHi (url : string) (request : AzureResponsesRequestBody)
  : AxiosError + AzureResponsesResponseBody :=
  inr (responseBody
         [outputMessage [Some (AzureTextContentBlock output_text "Hi")] None]).

(** The transport [res] is [res0] after [events] more events: two writes
    and, where the response can flush, one flush for each, with the headers
    untouched. *)
Definition emitted (events : nat) (res0 res : ServerResponse) : Prop :=
  hasFlush res = hasFlush res0
  /\ headers res = headers res0
  /\ statusCode res = statusCode res0
  /\ List.length (written res) = (List.length (written res0) + 2 * events)%nat
  /\ flushes res = (flushes res0 + if hasFlush res0 then events else 0)%nat.

(** The caller passes the API-key gate: no token is expected, or the
    token provided is the expected one. *)
Definition authorized (expectedAnthropicToken x_api_key authorization : option string)
  : Prop :=
  falsy expectedAnthropicToken = true
  \/ providedToken x_api_key authorization = expectedAnthropicToken.

(** [s.endsWith('/')]. *)
Definition endsWithSlash (s : string) : bool :=
  match String.rev s with
  | String "/" _ => true
  | _ => false
  end.

(** The provider configuration with another base URL. *)
Definition withBaseUrl (azure : AzureProviderConfig) (baseUrl : JValue)
  : AzureProviderConfig :=
  {| azure_name := azure_name azure;
     azure_baseUrl := baseUrl;
     azure_envKey := azure_envKey azure;
     azure_wireApi := azure_wireApi azure;
     azure_apiVersion := azure_apiVersion azure;
     azure_apiKey := azure_apiKey azure |}.

(** The text of [s] before its first [sep]: all of [s] when it has none. *)
Fixpoint upTo (sep : ascii) (s : string) : string :=
  match s with
  | EmptyString => EmptyString
  | String c rest =>
      if Ascii.eqb c sep then EmptyString else String c (upTo sep rest)
  end.

(** A provider configuration file, as parsed. *)
Definition sampleToml : JValue :=
  JObj [("model", JStr "gpt-5-codex");
        ("model_provider", JStr "azure");
        ("model_providers",
         JObj [("azure",
                JObj [("base_url", JStr "https://example.openai.azure.com/openai/");
                      ("env_key", JStr "AZURE_OPENAI_API_KEY");
                      ("wire_api", JStr "responses");
                      ("api_version", JStr "2025-04-01-preview")])])].

(** An environment where only the fallback variable is set. *)
Definition fallbackEnv (name : string) : option EnvValue :=
  if String.eqb name "ANTHROPIC_AUTH_TOKEN" then Some (EnvString "secret") else None.

(** The same environment, where [process.env.constructor] is the property
    that the object inherits. *)
Definition inheritingEnv (name : string) : option EnvValue :=
  if String.eqb name "constructor" then Some (EnvInherited "constructor")
  else fallbackEnv name.

(** A provider configuration whose [env_key] is [constructor]. *)
Definition constructorToml : JValue :=
  JObj [("model_provider", JStr "azure");
        ("model_providers",
         JObj [("azure",
                JObj [("base_url", JStr "https://example.openai.azure.com/openai");
                      ("env_key", JStr "constructor");
                      ("wire_api", JStr "responses")])])].

(** A sample of the runtime's number conversion: it agrees with
    [Number(s)] on the strings of decimal digits, which are all integers
    ([Number('')] is [0]), and takes no other string for an integer. *)
Fixpoint digitsValue (s : string) (value : Z) : option Z :=
  match s with
  | EmptyString => Some value
  | String c rest =>
      let code := Z.of_nat (nat_of_ascii c) in
      if ((48 <=? code) && (code <=? 57))%Z then
        digitsValue rest (10 * value + (code - 48))%Z
      else None
  end.

Definition decimalValue (s : string) : option Z := digitsValue s 0%Z.

(** ** Properties *)

(** *** The exception monad *)

Lemma bind_Ok {A B : Type} (m : result A) (k : A -> result B) (b : B) :
  bind m k = Ok b -> exists a, m = Ok a /\ k a = Ok b.
Proof. destruct m as [a|e]; simpl; [eauto | discriminate]. Qed.

Lemma mapM_Ok_In {A B : Type} (f : A -> result B) (l : list A) (ys : list B) (x : A) :
  mapM f l = Ok ys -> In x l -> exists y, f x = Ok y /\ In y ys.
Proof.
  revert ys. induction l as [|a l IH]; intros ys Hm Hin; [destruct Hin|].
  simpl in Hm.
  apply bind_Ok in Hm as (y & Hy & Hm).
  apply bind_Ok in Hm as (ys' & Hys & Hm).
  injection Hm as <-.
  destruct Hin as [->|Hin].
  - exists y. split; [assumption | left; reflexivity].
  - destruct (IH ys' Hys Hin) as (y' & Hy' & Hin').
    exists y'. split; [assumption | right; assumption].
Qed.

Lemma mapM_Throw_In {A B : Type} (f : A -> result B) (l : list A) (x : A) (e : Exn) :
  In x l -> f x = Throw e -> exists e', mapM f l = Throw e'.
Proof.
  intros Hin Hx. induction l as [|a l IH]; [destruct Hin|].
  simpl. destruct Hin as [->|Hin].
  - rewrite Hx. simpl. eauto.
  - destruct (f a) as [y|e1]; simpl; [|eauto].
    destruct (IH Hin) as (e' & ->). simpl. eauto.
Qed.

Lemma foldM_Throw_In {A T : Type} (f : T -> A -> result T) (l : list A) (x : A) :
  In x l -> (forall s, exists e, f s x = Throw e) ->
  forall s, exists e, foldM f l s = Throw e.
Proof.
  intros Hin Hx. induction l as [|a l IH]; intros s; [destruct Hin|].
  simpl. destruct Hin as [->|Hin].
  - destruct (Hx s) as (e & ->). simpl. eauto.
  - destruct (f s a) as [s'|e1]; simpl; [|eauto].
    apply (IH Hin).
Qed.

Lemma succeeds_mapM {A B : Type} (f : A -> result B) (l : list A) :
  succeeds (mapM f l) = forallb (fun x => succeeds (f x)) l.
Proof.
  induction l as [|x l IH]; [reflexivity|].
  cbn [mapM forallb]. destruct (f x) as [y|e]; cbn [bind succeeds andb];
    [|reflexivity].
  rewrite <- IH. destruct (mapM f l); reflexivity.
Qed.

Lemma succeeds_foldM {A T : Type} (f : T -> A -> result T) (g : A -> bool)
    (l : list A) :
  (forall s x, succeeds (f s x) = g x) ->
  forall s, succeeds (foldM f l s) = forallb g l.
Proof.
  intros Hf. induction l as [|x l IH]; intros s; [reflexivity|].
  cbn [foldM forallb]. rewrite <- (Hf s x).
  destruct (f s x) as [s'|e]; cbn [bind succeeds andb]; [apply IH | reflexivity].
Qed.

Lemma succeeds_true {A : Type} (r : result A) :
  succeeds r = true <-> exists a, r = Ok a.
Proof.
  destruct r as [a|e]; cbn; split; intros H; eauto; try discriminate.
  destruct H as (a & H). discriminate.
Qed.

Lemma mapM_length {A B : Type} (f : A -> result B) (l : list A) (ys : list B) :
  mapM f l = Ok ys -> List.length ys = List.length l.
Proof.
  revert ys. induction l as [|x l IH]; intros ys H.
  - injection H as <-. reflexivity.
  - cbn [mapM] in H. apply bind_Ok in H as (y & _ & H).
    apply bind_Ok in H as (ys' & Hys & H). injection H as <-.
    cbn. f_equal. apply IH, Hys.
Qed.

Lemma mapM_Forall {A B : Type} (f : A -> result B) (P : B -> Prop) (l : list A)
    (ys : list B) :
  (forall x y, f x = Ok y -> P y) -> mapM f l = Ok ys -> Forall P ys.
Proof.
  intros Hf. revert ys. induction l as [|x l IH]; intros ys H.
  - injection H as <-. constructor.
  - cbn [mapM] in H. apply bind_Ok in H as (y & Hy & H).
    apply bind_Ok in H as (ys' & Hys & H). injection H as <-.
    constructor; [apply (Hf x), Hy | apply IH, Hys].
Qed.

Lemma foldM_app {A T : Type} (f : T -> A -> result T) (l1 l2 : list A) (s : T) :
  foldM f (l1 ++ l2) s = (let* s' := foldM f l1 s in foldM f l2 s').
Proof.
  revert s. induction l1 as [|x l1 IH]; intros s; [reflexivity|].
  cbn [app foldM]. destruct (f s x) as [s'|e]; cbn [bind]; [apply IH | reflexivity].
Qed.

(** What every successful step preserves holds at the end of a
    successful loop. *)
Lemma foldM_invariant {A T : Type} (f : T -> A -> result T) (P : T -> Prop)
    (l : list A) :
  (forall s x s', P s -> f s x = Ok s' -> P s') ->
  forall s s', P s -> foldM f l s = Ok s' -> P s'.
Proof.
  intros Hf. induction l as [|x l IH]; intros s s' Hs H.
  - injection H as <-. exact Hs.
  - cbn [foldM] in H. apply bind_Ok in H as (s1 & H1 & H).
    apply (IH s1 s' (Hf s x s1 Hs H1) H).
Qed.

(** *** Runs *)

Lemma consText_snoc (acc : list string) (text : string) (rs : list Run) :
  consText acc (consText [text] rs) = consText (acc ++ [text]) rs.
Proof.
  destruct acc as [|a acc]; [reflexivity|].
  destruct rs as [|[ts|b] rest]; simpl; try reflexivity.
  rewrite <- app_assoc. reflexivity.
Qed.

Lemma runBlocks_consText (texts : list string) (rs : list Run) :
  List.concat (map runBlocks (consText texts rs))
  = map AnthropicTextBlock texts ++ List.concat (map runBlocks rs).
Proof.
  destruct texts as [|t texts]; [reflexivity|].
  destruct rs as [|[ts|b] rest]; simpl; try reflexivity.
  rewrite map_app, <- app_assoc. reflexivity.
Qed.

Lemma runs_flatten (blocks : list AnthropicContentBlock) :
  List.concat (map runBlocks (runs blocks)) = blocks.
Proof.
  induction blocks as [|b rest IH]; [reflexivity|].
  destruct b as [text| |]; cbn [runs].
  - rewrite runBlocks_consText, IH. reflexivity.
  - simpl. rewrite IH. reflexivity.
  - simpl. rewrite IH. reflexivity.
Qed.

Lemma maximalRuns_consText (text : string) (rs : list Run) :
  maximalRuns rs -> maximalRuns (consText [text] rs).
Proof.
  destruct rs as [|[ts|b] rest]; simpl.
  - intros _. repeat split. discriminate.
  - intros (Hne & Hadj & Hrest). repeat split; try assumption. discriminate.
  - intros (Hb & Hrest). repeat split; try assumption. discriminate.
Qed.

Lemma runs_maximal (blocks : list AnthropicContentBlock) :
  maximalRuns (runs blocks).
Proof.
  induction blocks as [|b rest IH]; [exact I|].
  destruct b; cbn [runs].
  - apply maximalRuns_consText, IH.
  - split; [reflexivity | exact IH].
  - split; [reflexivity | exact IH].
Qed.

(** *** The text accumulator computes the runs *)

Lemma flushText_nil (role : string) (input : list AzureInputItem) :
  flushText role (input, []) = (input, []).
Proof. reflexivity. Qed.

Lemma flushText_cons (role : string) (input : list AzureInputItem)
    (text : string) (acc : list string) :
  flushText role (input, text :: acc)
  = (input ++ [textItem role (String.concat "" (text :: acc))], []).
Proof. reflexivity. Qed.

Lemma blockLoop_runs (role : string) (blocks : list AnthropicContentBlock) :
  forall (input : list AzureInputItem) (acc : list string),
    (let* st := foldM (translateBlock role) blocks (input, acc) in
     Ok (fst (flushText role st)))
    = (let* items := mapM (runItem role) (consText acc (runs blocks)) in
       Ok (input ++ items)).
Proof.
  induction blocks as [|b rest IH]; intros input acc.
  - destruct acc as [|a acc].
    + simpl. rewrite app_nil_r. reflexivity.
    + cbn [foldM bind runs consText mapM runItem]. rewrite flushText_cons.
      reflexivity.
  - destruct b as [text|tid name inp|tid cont text err status].
    + cbn [foldM translateBlock bind runs].
      rewrite IH, consText_snoc. reflexivity.
    + cbn [foldM translateBlock runs].
      destruct acc as [|a acc].
      * rewrite flushText_nil. cbn [bind consText mapM runItem].
        rewrite IH. cbn [consText].
        destruct (mapM (runItem role) (runs rest)); simpl; [|reflexivity].
        rewrite <- app_assoc. reflexivity.
      * rewrite flushText_cons. cbn [bind consText mapM runItem].
        rewrite IH. cbn [consText].
        destruct (mapM (runItem role) (runs rest)); simpl; [|reflexivity].
        rewrite <- !app_assoc. reflexivity.
    + cbn [foldM translateBlock runs].
      destruct acc as [|a acc].
      * rewrite flushText_nil. cbn [consText mapM runItem].
        destruct (serializeToolResultOutput tid cont text err status) as [out|e];
          cbn [bind]; [|reflexivity].
        rewrite IH. cbn [consText].
        destruct (mapM (runItem role) (runs rest)); simpl; [|reflexivity].
        rewrite <- app_assoc. reflexivity.
      * rewrite flushText_cons. cbn [consText mapM runItem].
        destruct (serializeToolResultOutput tid cont text err status) as [out|e];
          cbn [bind]; [|reflexivity].
        rewrite IH. cbn [consText].
        destruct (mapM (runItem role) (runs rest)); simpl; [|reflexivity].
        rewrite <- !app_assoc. reflexivity.
Qed.

Lemma translateMessage_items (input : list AzureInputItem) (message : AnthropicMessage) :
  translateMessage input (Some message)
  = (let* items := messageItems message in Ok (input ++ items)).
Proof.
  unfold translateMessage, messageItems.
  destruct (normalizeMessageContent (msg_content message)) as [blocks|e];
    [|reflexivity].
  cbn [bind]. apply (blockLoop_runs (msg_role message) blocks input []).
Qed.

Lemma translateMessages_items (messages : list AnthropicMessage) :
  forall input : list AzureInputItem,
    foldM translateMessage (map Some messages) input
    = (let* itemss := mapM messageItems messages in
       Ok (input ++ List.concat itemss)).
Proof.
  induction messages as [|m rest IH]; intros input.
  - simpl. rewrite app_nil_r. reflexivity.
  - cbn [map foldM mapM]. rewrite translateMessage_items.
    destruct (messageItems m) as [items|e]; cbn [bind]; [|reflexivity].
    rewrite IH.
    destruct (mapM messageItems rest) as [itemss|e]; cbn [bind]; [|reflexivity].
    simpl. rewrite <- app_assoc. reflexivity.
Qed.

(** The messages of a loop that ends without throwing are not null. *)
Lemma In_Some_map {A : Type} (x : A) (l : list A) :
  In (Some x) (map Some l) -> In x l.
Proof.
  intros H. apply in_map_iff in H as (y & [= ->] & H). exact H.
Qed.

Lemma map_Some_inj {A : Type} (l1 l2 : list A) :
  map Some l1 = map Some l2 -> l1 = l2.
Proof.
  revert l2. induction l1 as [|x l1 IH]; intros [|y l2] H; try discriminate H;
    [reflexivity|].
  injection H as -> H. f_equal. apply IH, H.
Qed.

Lemma translateMessages_present (entries : list (option AnthropicMessage)) :
  forall input input' : list AzureInputItem,
    foldM translateMessage entries input = Ok input' ->
    exists messages, entries = map Some messages.
Proof.
  induction entries as [|entry rest IH]; intros input input' H.
  - exists []. reflexivity.
  - cbn [foldM] in H. apply bind_Ok in H as (input1 & H1 & H).
    destruct entry as [message|]; [|discriminate H1].
    destruct (IH _ _ H) as (messages & ->). exists (message :: messages). reflexivity.
Qed.

(** Inversion of a successful translation. *)
Lemma anthropicToAzureRequest_Ok (body : AnthropicRequest)
    (fallbackModel : option string) (options : option Options)
    (req : AzureResponsesRequestBody) :
  anthropicToAzureRequest body fallbackModel options = Ok req ->
  exists messages itemss,
    req_messages body = Some (map Some messages)
    /\ messages <> []
    /\ mapM messageItems messages = Ok itemss
    /\ az_input req = systemItems (req_system body) ++ List.concat itemss
    /\ az_model req = resolveModel (req_model body) fallbackModel
    /\ az_model req <> ""
    /\ az_reasoning req
       = azureReasoning (resolveReasoningEffort (req_reasoning body) options).
Proof.
  unfold anthropicToAzureRequest.
  destruct (req_messages body) as [[|m ms]|]; try discriminate.
  destruct (foldM translateMessage (m :: ms) (systemItems (req_system body)))
    as [input|e] eqn:Hfold; [|discriminate].
  destruct (translateMessages_present _ _ _ Hfold) as (messages & Hmessages).
  rewrite Hmessages, translateMessages_items in Hfold.
  destruct (mapM messageItems messages) as [itemss|e] eqn:Hitems; [|discriminate].
  cbn [bind] in *. injection Hfold as <-.
  destruct (String.eqb (resolveModel (req_model body) fallbackModel) "") eqn:Hm;
    [discriminate|].
  destruct (anthropicToolsToAzure (req_tools body)) as [azureTools|e];
    [|discriminate]. cbn [bind].
  intros [= <-]. exists messages, itemss. rewrite Hmessages.
  assert (Hne : messages <> []) by (intros ->; discriminate Hmessages). cbn [az_input az_model az_reasoning].
  repeat split; try reflexivity; try discriminate; try assumption.
  intros Heq. rewrite Heq in Hm. discriminate.
Qed.

(** *** Request translation *)

Lemma length_pos_iff (s : string) :
  (0 <? String.length s)%nat = true <-> s <> "".
Proof.
  destruct s; simpl; split; intros H; try discriminate; try reflexivity.
  contradiction.
Qed.

Lemma In_runs_Single (block : AnthropicContentBlock) (blocks : list AnthropicContentBlock) :
  isText block = false -> In block blocks -> In (Single block) (runs blocks).
Proof.
  intros Hb. induction blocks as [|b rest IH]; intros Hin; [destruct Hin|].
  assert (Hcons : forall text rs, In (Single block) rs ->
                                  In (Single block) (consText [text] rs)).
  { intros text [|[ts|b'] rs'] H; simpl in *; try tauto.
    - destruct H as [H|H]; [discriminate | right; assumption]. }
  destruct Hin as [->|Hin].
  - destruct block; [discriminate | left; reflexivity | left; reflexivity].
  - destruct b; cbn [runs].
    + apply Hcons, IH, Hin.
    + right. apply IH, Hin.
    + right. apply IH, Hin.
Qed.

Lemma normalizeItem_tool_result (item : JValue) (block : AnthropicContentBlock) :
  prop item "type" = JStr "tool_result" ->
  normalizeItem item = Ok block ->
  block = AnthropicToolResultBlock (prop item "tool_use_id") (prop item "content")
            (prop item "text") (prop item "is_error") (prop item "status").
Proof.
  intros Htype. destruct item as [| | | | |?|fields]; try discriminate.
  unfold normalizeItem. rewrite Htype.
  cbn [typeof truthy negb orb String.eqb Ascii.eqb Bool.eqb is_str].
  destruct (js_in "type" (JObj fields)); cbn [negb]; [|intros H; discriminate H].
  destruct (js_in "tool_use_id" (JObj fields)); cbn [negb];
    [|intros H; discriminate H].
  intros [= <-]. reflexivity.
Qed.

Lemma mapM_partText (parts : list JValue) (texts : list string) :
  mapM partText parts = Ok texts ->
  texts = map (fun part => normalizeToString (prop part "text")) parts.
Proof.
  revert texts. induction parts as [|p rest IH]; intros texts H.
  - injection H as <-. reflexivity.
  - cbn [mapM] in H.
    apply bind_Ok in H as (t & Ht & H).
    apply bind_Ok in H as (ts & Hts & H).
    injection H as <-.
    unfold partText in Ht. destruct (isNullish p); [discriminate|].
    injection Ht as <-. cbn [map]. f_equal. apply IH, Hts.
Qed.

(** C5. In [anthropicToAzureRequest] the input items are the system item
    (if any) followed, message by message in order, by one item per element
    of the decomposition [runs] of the message's normalized blocks: each
    maximal run of consecutive Text blocks gives exactly one message item
    whose single text entry is the concatenation of the run's texts, typed
    output_text for the assistant role and input_text otherwise
    ([runItem]); the decomposition lists the blocks in their order, none of
    its runs is empty and no two runs are adjacent; flushing an empty
    accumulator changes nothing. *)
Theorem text_runs_merged (body : AnthropicRequest) (fallbackModel : option string)
    (options : option Options) (req : AzureResponsesRequestBody) :
  anthropicToAzureRequest body fallbackModel options = Ok req ->
  exists messages itemss,
    req_messages body = Some (map Some messages)
    /\ mapM messageItems messages = Ok itemss
    /\ az_input req = systemItems (req_system body) ++ List.concat itemss
    /\ (forall input message,
          translateMessage input (Some message)
          = (let* items := messageItems message in Ok (input ++ items)))
    /\ (forall blocks,
          List.concat (map runBlocks (runs blocks)) = blocks
          /\ maximalRuns (runs blocks))
    /\ (forall role input, flushText role (input, []) = (input, [])).
Proof.
  intros H.
  apply anthropicToAzureRequest_Ok in H
    as (messages & itemss & Hm & _ & Hitems & Hinput & _).
  exists messages, itemss. repeat split; try assumption.
  - apply translateMessage_items.
  - apply runs_flatten.
  - apply runs_maximal.
Qed.

Lemma text_runs_merged_witness :
  exists req,
    anthropicToAzureRequest mergeRequest None None = Ok req
    /\ az_input req
       = [AzureMessageInput "assistant" [AzureTextContentBlock output_text "Hello"];
          AzureFunctionCallInput (JStr "t1") (JStr "lookup")
            (JSON_stringify (JObj [("q", JStr "x")]));
          AzureMessageInput "assistant" [AzureTextContentBlock output_text "bye"]].
Proof.
  eexists. split; [reflexivity|].
  destruct (text_runs_merged mergeRequest None None _ eq_refl)
    as (messages & itemss & Hm & Hitems & Hinput & _).
  destruct messages as [|message [|message' rest]]; try discriminate Hm.
  injection Hm as <-. injection Hitems as <-. exact Hinput.
Defined.

Lemma serializeToolResultOutput_cascade
    (tool_use_id content text is_error status : JValue) (output : string) :
  serializeToolResultOutput tool_use_id content text is_error status = Ok output ->
  (forall s, content = JStr s -> output = s)
  /\ (forall parts, content = JArr parts ->
        output = String.concat ""
                   (map (fun part => normalizeToString (prop part "text")) parts))
  /\ (isString content = false -> isArray content = false ->
      forall t, text = JStr t -> output = t)
  /\ (isString content = false -> isArray content = false ->
      isString text = false ->
      output = JSON_stringify
                 (JObj (("tool_use_id", tool_use_id)
                          :: (if isUndefined content then [] else [("content", content)])
                          ++ (if isUndefined is_error then [] else [("is_error", is_error)])
                          ++ (if isUndefined status then [] else [("status", status)])))).
Proof.
  intros H. repeat split.
  - intros s ->. simpl in H. congruence.
  - intros parts ->. cbn [serializeToolResultOutput] in H.
    apply bind_Ok in H as (texts & Htexts & H).
    injection H as <-. f_equal. apply mapM_partText, Htexts.
  - intros Hs Ha t ->.
    destruct content; try discriminate; simpl in H; congruence.
  - intros Hs Ha Ht.
    destruct content; try discriminate;
      destruct text; try discriminate; simpl in H; injection H as <-;
      reflexivity.
Qed.

(** C6. When [anthropicToAzureRequest] succeeds, every [tool_result] block
    of every message has its FunctionCallOutput item among the input items,
    with call_id the block's tool_use_id and an output given by the first
    case that applies: (a) a string content verbatim; (b) for an array
    content, the concatenation of the (string-coerced) text of its entries;
    (c) the text field when it is a string; (d) otherwise the JSON encoding
    of the object made of tool_use_id and of those of content, is_error and
    status that are not undefined. *)
Theorem tool_result_output (body : AnthropicRequest) (fallbackModel : option string)
    (options : option Options) (req : AzureResponsesRequestBody)
    (messages : list (option AnthropicMessage)) (message : AnthropicMessage)
    (items : list JValue) (item : JValue) :
  anthropicToAzureRequest body fallbackModel options = Ok req ->
  req_messages body = Some messages ->
  In (Some message) messages ->
  msg_content message = JArr items ->
  In item items ->
  prop item "type" = JStr "tool_result" ->
  exists output,
    In (AzureFunctionCallOutput (prop item "tool_use_id") output) (az_input req)
    /\ (forall s, prop item "content" = JStr s -> output = s)
    /\ (forall parts, prop item "content" = JArr parts ->
          output = String.concat ""
                     (map (fun part => normalizeToString (prop part "text")) parts))
    /\ (isString (prop item "content") = false ->
        isArray (prop item "content") = false ->
        forall t, prop item "text" = JStr t -> output = t)
    /\ (isString (prop item "content") = false ->
        isArray (prop item "content") = false ->
        isString (prop item "text") = false ->
        output = JSON_stringify
                   (JObj (("tool_use_id", prop item "tool_use_id")
                            :: (if isUndefined (prop item "content") then []
                                else [("content", prop item "content")])
                            ++ (if isUndefined (prop item "is_error") then []
                                else [("is_error", prop item "is_error")])
                            ++ (if isUndefined (prop item "status") then []
                                else [("status", prop item "status")])))).
Proof.
  intros H Hmsgs Hmsg Hcontent Hitem Htype.
  apply anthropicToAzureRequest_Ok in H
    as (messages' & itemss & Hm & _ & Hitems & Hinput & _).
  rewrite Hmsgs in Hm. injection Hm as ->. apply In_Some_map in Hmsg.
  destruct (mapM_Ok_In _ _ _ _ Hitems Hmsg) as (its & Hits & Hin_its).
  unfold messageItems in Hits. rewrite Hcontent in Hits.
  cbn [normalizeMessageContent] in Hits.
  apply bind_Ok in Hits as (blocks & Hblocks & Hruns).
  destruct (mapM_Ok_In _ _ _ _ Hblocks Hitem) as (block & Hblock & Hin_block).
  apply (normalizeItem_tool_result _ _ Htype) in Hblock. subst block.
  apply In_runs_Single in Hin_block; [|reflexivity].
  destruct (mapM_Ok_In _ _ _ _ Hruns Hin_block) as (y & Hy & Hin_y).
  cbn [runItem] in Hy.
  apply bind_Ok in Hy as (output & Hout & Hy). injection Hy as <-.
  exists output. split.
  - rewrite Hinput. apply in_or_app. right.
    apply in_concat. exists its. split; assumption.
  - apply (serializeToolResultOutput_cascade _ _ _ _ _ _ Hout).
Qed.

Lemma tool_result_output_witness :
  exists req,
    anthropicToAzureRequest toolResultRequest None None = Ok req
    /\ In (AzureFunctionCallOutput (JStr "t1") "42") (az_input req).
Proof.
  eexists. split; [reflexivity|].
  destruct (tool_result_output toolResultRequest None None _
              [Some toolResultMessage] toolResultMessage [toolResult42] toolResult42
              eq_refl eq_refl (or_introl eq_refl) eq_refl (or_introl eq_refl)
              eq_refl)
    as (output & Hin & _ & Hb & _).
  rewrite (Hb _ eq_refl) in Hin. exact Hin.
Defined.

Lemma translateMessage_bad_item (message : AnthropicMessage) (items : list JValue)
    (item : JValue) (e : Exn) :
  msg_content message = JArr items ->
  In item items ->
  normalizeItem item = Throw e ->
  forall input, exists e', translateMessage input (Some message) = Throw e'.
Proof.
  intros Hcontent Hin Hitem input.
  unfold translateMessage. rewrite Hcontent. cbn [normalizeMessageContent].
  destruct (mapM_Throw_In _ _ _ _ Hin Hitem) as (e' & ->).
  exists e'. reflexivity.
Qed.

Lemma normalizeItem_untyped (fields : list (string * JValue)) :
  assoc "type" fields = None ->
  normalizeItem (JObj fields) = Throw UnsupportedFormat.
Proof.
  intros H. unfold normalizeItem, js_in. rewrite H. reflexivity.
Qed.

Lemma normalizeItem_unknown_type (fields : list (string * JValue)) (type : JValue) :
  assoc "type" fields = Some type ->
  type <> JStr "text" -> type <> JStr "tool_use" -> type <> JStr "tool_result" ->
  normalizeItem (JObj fields) = Throw (UnsupportedType type).
Proof.
  intros H H1 H2 H3.
  assert (Hneq : forall s, type <> JStr s -> is_str type s = false).
  { intros s Hs. destruct type; try reflexivity. simpl.
    destruct (String.eqb_spec s0 s); [subst; contradiction | reflexivity]. }
  unfold normalizeItem, js_in, prop. rewrite H.
  cbn [typeof truthy negb orb String.eqb Ascii.eqb Bool.eqb nullish_opt].
  rewrite !Hneq by assumption. reflexivity.
Qed.

Lemma resolveModel_unavailable (model : JValue) (fallbackModel : option string) :
  isNonBlankString model = false ->
  fallbackModel = None \/ fallbackModel = Some "" ->
  resolveModel model fallbackModel = "".
Proof.
  intros Hmodel Hfb. unfold resolveModel.
  destruct model; try (destruct Hfb as [->| ->]; reflexivity).
  rewrite Hmodel. destruct Hfb as [->| ->]; reflexivity.
Qed.

(** C9. [anthropicToAzureRequest] throws, and so returns no request, (a)
    with the EmptyMessages error when [messages] is absent or empty; (b)
    when some item of some message's content array is an object without a
    [type] or with a [type] other than text, tool_use and tool_result, an
    item that the normalizer rejects with the UnsupportedContentBlock
    errors; (c) when the request's model is not a string that is non-empty
    after trimming and the fallback model is absent or empty, with the
    NoModelSpecified error when the messages themselves translate.
    Whenever the translation throws, the handler posts nothing upstream. *)
Theorem translation_rejects {parser : JsonParser} (body : AnthropicRequest)
    (fallbackModel : option string) (options : option Options) :
  (req_messages body = None \/ req_messages body = Some [] ->
   anthropicToAzureRequest body fallbackModel options = Throw EmptyMessages)
  /\ (forall messages message items fields,
        req_messages body = Some messages ->
        In (Some message) messages ->
        msg_content message = JArr items ->
        In (JObj fields) items ->
        (assoc "type" fields = None
         \/ exists type, assoc "type" fields = Some type
                         /\ type <> JStr "text" /\ type <> JStr "tool_use"
                         /\ type <> JStr "tool_result") ->
        (normalizeItem (JObj fields) = Throw UnsupportedFormat
         \/ normalizeItem (JObj fields)
            = Throw (UnsupportedType (prop (JObj fields) "type")))
        /\ exists e, anthropicToAzureRequest body fallbackModel options = Throw e)
  /\ (isNonBlankString (req_model body) = false ->
      fallbackModel = None \/ fallbackModel = Some "" ->
      (exists e, anthropicToAzureRequest body fallbackModel options = Throw e)
      /\ forall messages input,
           req_messages body = Some messages -> messages <> [] ->
           foldM translateMessage messages (systemItems (req_system body)) = Ok input ->
           anthropicToAzureRequest body fallbackModel options = Throw NoModelSpecified)
  /\ (forall e encodeURIComponent serverConfig expectedAnthropicToken post
             x_api_key authorization res,
        anthropicToAzureRequest body fallbackModel options = Throw e ->
        cfg_model serverConfig = fallbackModel ->
        Some {| defaultReasoningEffort := cfg_reasoningEffort serverConfig |} = options ->
        outbound (postMessages encodeURIComponent serverConfig expectedAnthropicToken
                    post x_api_key authorization body res) = []).
Proof.
  repeat apply conj.
  - unfold anthropicToAzureRequest. intros [-> | ->]; reflexivity.
  - intros messages message items fields Hmsgs Hmsg Hcontent Hitem Hbad.
    assert (Hrej : exists e, normalizeItem (JObj fields) = Throw e
                             /\ (e = UnsupportedFormat
                                 \/ e = UnsupportedType (prop (JObj fields) "type"))).
    { destruct Hbad as [Hnone | (type & Hsome & H1 & H2 & H3)].
      - exists UnsupportedFormat. split; [|left; reflexivity].
        apply normalizeItem_untyped, Hnone.
      - exists (UnsupportedType type). split.
        + apply normalizeItem_unknown_type; assumption.
        + right. unfold prop. rewrite Hsome. reflexivity. }
    destruct Hrej as (e & He & Hcase). split.
    + destruct Hcase as [-> | ->]; [left | right]; exact He.
    + unfold anthropicToAzureRequest. rewrite Hmsgs.
      destruct messages as [|m ms]; [destruct Hmsg|].
      destruct (foldM_Throw_In translateMessage (m :: ms) (Some message) Hmsg
                  (translateMessage_bad_item _ _ _ _ Hcontent Hitem He)
                  (systemItems (req_system body))) as (e' & ->).
      exists e'. reflexivity.
  - intros Hmodel Hfb. split.
    + unfold anthropicToAzureRequest.
      destruct (req_messages body) as [[|m ms]|]; try (eexists; reflexivity).
      destruct (foldM translateMessage (m :: ms) (systemItems (req_system body)));
        cbn [bind]; [|eexists; reflexivity].
      rewrite (resolveModel_unavailable _ _ Hmodel Hfb). eexists; reflexivity.
    + intros messages input Hmsgs Hne Hfold.
      unfold anthropicToAzureRequest. rewrite Hmsgs.
      destruct messages as [|m ms]; [contradiction|].
      rewrite Hfold. cbn [bind].
      rewrite (resolveModel_unavailable _ _ Hmodel Hfb). reflexivity.
  - intros e encodeURIComponent serverConfig expectedAnthropicToken post x_api_key
      authorization res Hthrow <- <-.
    unfold postMessages. rewrite Hthrow.
    destruct (_ && _); reflexivity.
Qed.

Lemma translation_rejects_witness :
  anthropicToAzureRequest (sampleRequest None (JStr "gpt-5-codex") None) None None
  = Throw EmptyMessages
  /\ (exists e,
        anthropicToAzureRequest
          (sampleRequest (Some [untypedBlockMessage]) (JStr "gpt-5-codex") None)
          None None = Throw e)
  /\ anthropicToAzureRequest (sampleRequest (Some [helloMessage]) (JStr "  ") None)
       (Some "") None
     = Throw NoModelSpecified
  /\ outbound
       (postMessages (parser := rejectAll) (fun s => s) sampleConfig None unreachable
          None None (sampleRequest None (JStr "gpt-5-codex") None) freshResponse)
     = [].
Proof.
  repeat apply conj.
  - apply (translation_rejects (parser := rejectAll)
             (sampleRequest None (JStr "gpt-5-codex") None) None None).
    left. reflexivity.
  - apply (translation_rejects (parser := rejectAll)
             (sampleRequest (Some [untypedBlockMessage]) (JStr "gpt-5-codex") None)
             None None)
      with (messages := [Some untypedBlockMessage]) (message := untypedBlockMessage)
           (items := [untypedBlock]) (fields := [("text", JStr "hi")]).
    + reflexivity.
    + left. reflexivity.
    + reflexivity.
    + left. reflexivity.
    + left. reflexivity.
  - apply (translation_rejects (parser := rejectAll)
             (sampleRequest (Some [helloMessage]) (JStr "  ") None)
             (Some "") None)
      with (messages := [Some helloMessage])
           (input := [AzureMessageInput "user" [AzureTextContentBlock input_text "Hello"]]).
    + reflexivity.
    + right. reflexivity.
    + reflexivity.
    + discriminate.
    + reflexivity.
  - apply (translation_rejects (parser := rejectAll)
             (sampleRequest None (JStr "gpt-5-codex") None)
             (Some "gpt-5-codex") (Some {| defaultReasoningEffort := None |}))
      with (e := EmptyMessages); reflexivity.
Defined.

Lemma azureReasoning_Some (v : JValue) (s : string) :
  azureReasoning v = Some {| az_effort := s |} <-> v = JStr s /\ trim s <> "".
Proof.
  unfold azureReasoning. split.
  - destruct v; try discriminate.
    cbn [isNonBlankString].
    destruct (0 <? String.length (trim s0))%nat eqn:Hlen; [|discriminate].
    intros [= ->]. split; [reflexivity|]. apply length_pos_iff, Hlen.
  - intros [-> Hne]. cbn [isNonBlankString].
    apply length_pos_iff in Hne. rewrite Hne. reflexivity.
Qed.

Lemma resolveReasoningEffort_explicit (body : AnthropicRequest) (options : option Options) :
  isNullish (explicitEffort body) = false ->
  resolveReasoningEffort (req_reasoning body) options = explicitEffort body.
Proof.
  unfold resolveReasoningEffort, explicitEffort, nullish.
  intros ->. reflexivity.
Qed.

Lemma resolveReasoningEffort_default (body : AnthropicRequest) (options : option Options) :
  isNullish (explicitEffort body) = true ->
  resolveReasoningEffort (req_reasoning body) options
  = match defaultEffort options with Some d => JStr d | None => JUndefined end.
Proof.
  unfold resolveReasoningEffort, explicitEffort, nullish, defaultEffort.
  intros ->. destruct options; reflexivity.
Qed.

(** C3, as the code has it.  The effort is resolved to the request's
    [reasoning.effort] when that is present (neither undefined nor null) and
    to the caller-supplied default otherwise; the request produced carries
    a reasoning field exactly when the resolved value is a string that is
    non-empty after trimming, and the field then carries that string.  A
    request whose [reasoning.effort] is the empty string gets no reasoning
    field, whatever the default. *)
Theorem reasoning_effort_resolution (body : AnthropicRequest)
    (fallbackModel : option string) (options : option Options)
    (req : AzureResponsesRequestBody) :
  anthropicToAzureRequest body fallbackModel options = Ok req ->
  (isNullish (explicitEffort body) = false ->
   forall s, az_reasoning req = Some {| az_effort := s |}
             <-> explicitEffort body = JStr s /\ trim s <> "")
  /\ (isNullish (explicitEffort body) = true ->
      forall s, az_reasoning req = Some {| az_effort := s |}
                <-> defaultEffort options = Some s /\ trim s <> "")
  /\ (explicitEffort body = JStr "" -> az_reasoning req = None).
Proof.
  intros H.
  apply anthropicToAzureRequest_Ok in H as (_ & _ & _ & _ & _ & _ & _ & _ & ->).
  repeat apply conj.
  - intros Hpresent s.
    rewrite (resolveReasoningEffort_explicit _ _ Hpresent).
    apply azureReasoning_Some.
  - intros Habsent s.
    rewrite (resolveReasoningEffort_default _ _ Habsent), azureReasoning_Some.
    destruct (defaultEffort options) as [d|]; split.
    + intros [[= ->] Hne]. split; [reflexivity | assumption].
    + intros [[= ->] Hne]. split; [reflexivity | assumption].
    + intros [Hd _]. discriminate.
    + intros [Hd _]. discriminate.
  - intros Hempty.
    rewrite resolveReasoningEffort_explicit by (rewrite Hempty; reflexivity).
    rewrite Hempty. reflexivity.
Qed.

Lemma reasoning_effort_resolution_witness :
  exists req,
    anthropicToAzureRequest emptyEffortRequest None highDefault = Ok req
    /\ az_reasoning req = None.
Proof.
  eexists. split; [reflexivity|].
  apply (reasoning_effort_resolution emptyEffortRequest None highDefault _ eq_refl).
  reflexivity.
Defined.

(** C3 as stated fails: with [reasoning.effort] the empty string and the
    default ["high"], the specification resolves the effort to ["high"],
    and the request produced has no reasoning field. *)
Lemma reasoning_effort_empty_string_counterexample :
  specifiedEffort emptyEffortRequest highDefault = Some "high"
  /\ exists req,
       anthropicToAzureRequest emptyEffortRequest None highDefault = Ok req
       /\ az_reasoning req = None
       /\ az_reasoning req
          <> option_map (fun s => {| az_effort := s |})
               (specifiedEffort emptyEffortRequest highDefault).
Proof.
  split; [reflexivity|].
  eexists. split; [reflexivity|]. split; [reflexivity|]. discriminate.
Qed.

(** Likewise a blank effort is a non-empty string, and is left out. *)
Lemma reasoning_effort_blank (fallbackModel : option string) :
  specifiedEffort blankEffortRequest None = Some "  "
  /\ exists req,
       anthropicToAzureRequest blankEffortRequest fallbackModel None = Ok req
       /\ az_reasoning req = None.
Proof.
  split; [reflexivity|]. eexists. split; reflexivity.
Qed.

(** *** Response translation *)

Section ResponseProperties.

Context {parser : JsonParser}.

(** The synthesized placeholder is never used: the name always stands
    in for a missing id. *)
Lemma toolCallId_resolved (call : AzureToolCall) (blocks : nat) :
  toolCallId call blocks = nullish_opt (tc_id call) (toolCallName call).
Proof. unfold toolCallId. destruct (tc_id call); reflexivity. Qed.

Lemma functionCallId_resolved (call : AzureResponseFunctionCall) (seen : nat) :
  functionCallId call seen
  = nullish_opt (nullish_chain (fc_call_id call) (fc_id call))
      (functionCallName call).
Proof.
  unfold functionCallId.
  destruct (fc_call_id call), (fc_id call); reflexivity.
Qed.

(** **** Which results are translated *)

Lemma succeeds_expandToolCall (st : Translation) (call : option AzureToolCall) :
  succeeds (expandToolCall st call)
  = match call with Some _ => true | None => false end.
Proof. destruct call; reflexivity. Qed.

Lemma succeeds_translateOutputBlock (st : Translation)
    (block : option AzureContentBlock) :
  succeeds (translateOutputBlock st block) = blockCallsPresent block.
Proof.
  destruct block as [[type text|[calls|]]|]; cbn [translateOutputBlock blockCallsPresent];
    try reflexivity.
  - destruct type; reflexivity.
  - apply (succeeds_foldM expandToolCall _ calls succeeds_expandToolCall).
Qed.

Lemma succeeds_translateOutputMessage (st : Translation)
    (message : AzureResponseOutputMessage) :
  succeeds (translateOutputMessage st message) = messageCallsPresent message.
Proof.
  unfold translateOutputMessage, messageCallsPresent.
  rewrite <- (succeeds_foldM translateOutputBlock blockCallsPresent _
                succeeds_translateOutputBlock st).
  destruct (foldM translateOutputBlock _ st) as [st'|e]; cbn [bind succeeds];
    [|reflexivity].
  destruct (falsy (stopReason st')); reflexivity.
Qed.

Lemma succeeds_translateOutputItem (st : Translation)
    (item : option AzureResponseOutputItem) :
  succeeds (translateOutputItem st item) = itemCallsPresent item.
Proof.
  destruct item as [[message|call|type]|]; try reflexivity.
  apply succeeds_translateOutputMessage.
Qed.

Lemma succeeds_azureToAnthropicResponse (data : AzureResponsesResponseBody)
    (requestedModel : string) :
  succeeds (azureToAnthropicResponse data requestedModel) = callsPresent data.
Proof.
  unfold azureToAnthropicResponse, callsPresent, translateOutput.
  rewrite <- (succeeds_foldM translateOutputItem itemCallsPresent _
                succeeds_translateOutputItem initialTranslation).
  destruct (foldM translateOutputItem _ initialTranslation); reflexivity.
Qed.

(** **** What the loops append *)

Lemma expandToolCall_Ok (call : option AzureToolCall) (st st' : Translation) :
  expandToolCall st call = Ok st' ->
  exists c,
    call = Some c
    /\ contentBlocks st' = contentBlocks st ++ [toolUseOf c]
    /\ stopReason st' = stopReason st
    /\ processedToolCallIds st'
       = {[ nullish_opt (tc_id c) (toolCallName c) ]} ∪ processedToolCallIds st.
Proof.
  destruct call as [c|]; [|discriminate]. intros [= <-]. exists c.
  unfold toolUseOf. cbn [contentBlocks stopReason processedToolCallIds].
  rewrite toolCallId_resolved. repeat split.
Qed.

Lemma expandToolCalls_spec (calls : list (option AzureToolCall)) :
  forall st st' : Translation,
    foldM expandToolCall calls st = Ok st' ->
    contentBlocks st' = contentBlocks st ++ map toolUseOf (presentCalls calls)
    /\ stopReason st' = stopReason st
    /\ processedToolCallIds st ⊆ processedToolCallIds st'
    /\ (forall call, In (Some call) calls ->
          nullish_opt (tc_id call) (toolCallName call) ∈ processedToolCallIds st').
Proof.
  induction calls as [|c rest IH]; intros st st' H.
  - injection H as <-. cbn. rewrite app_nil_r.
    repeat split; [reflexivity | intros ? []].
  - cbn [foldM] in H. apply bind_Ok in H as (st1 & H1 & H).
    apply expandToolCall_Ok in H1 as (call & -> & Hb1 & Hs1 & Hseen1).
    destruct (IH _ _ H) as (Hb & Hs & Hsub & Hin).
    rewrite Hb, Hs, Hb1, Hs1. rewrite Hseen1 in Hsub.
    repeat split.
    + rewrite <- app_assoc. reflexivity.
    + etrans; [apply union_subseteq_r | exact Hsub].
    + intros call' [[= <-]|Hcall]; [|apply Hin, Hcall].
      apply Hsub, elem_of_union_l, elem_of_singleton. reflexivity.
Qed.

Lemma translateOutputBlock_spec (block : option AzureContentBlock)
    (st st' : Translation) :
  translateOutputBlock st block = Ok st' ->
  contentBlocks st' = contentBlocks st ++ outputBlockBlocks block
  /\ stopReason st' = stopReason st
  /\ processedToolCallIds st ⊆ processedToolCallIds st'
  /\ (forall calls call,
        block = Some (AzureToolCallBlock (Some calls)) -> In (Some call) calls ->
        nullish_opt (tc_id call) (toolCallName call) ∈ processedToolCallIds st').
Proof.
  destruct block as [[type text|[calls|]]|]; cbn [translateOutputBlock outputBlockBlocks].
  - destruct type; intros [= <-]; cbn [contentBlocks stopReason processedToolCallIds];
      rewrite ?app_nil_r; repeat split; try reflexivity; intros ? ? [=].
  - cbn [nullish_opt]. intros H.
    destruct (expandToolCalls_spec calls st st' H) as (Hb & Hs & Hsub & Hin).
    repeat split; try assumption.
    intros calls' call [= <-]. apply Hin.
  - cbn. intros [= <-]. rewrite app_nil_r. repeat split; try reflexivity.
    intros ? ? [=].
  - intros [= <-]. rewrite app_nil_r. repeat split; try reflexivity. intros ? ? [=].
Qed.

Lemma translateOutputBlocks_spec (blocks : list (option AzureContentBlock)) :
  forall st st' : Translation,
    foldM translateOutputBlock blocks st = Ok st' ->
    contentBlocks st' = contentBlocks st ++ flat_map outputBlockBlocks blocks
    /\ stopReason st' = stopReason st
    /\ processedToolCallIds st ⊆ processedToolCallIds st'
    /\ (forall calls call,
          In (Some (AzureToolCallBlock (Some calls))) blocks -> In (Some call) calls ->
          nullish_opt (tc_id call) (toolCallName call) ∈ processedToolCallIds st').
Proof.
  induction blocks as [|b rest IH]; intros st st' H.
  - injection H as <-. cbn. rewrite app_nil_r.
    repeat split; [reflexivity | intros ? ? []].
  - cbn [foldM] in H. apply bind_Ok in H as (st1 & H1 & H).
    destruct (IH _ _ H) as (Hb & Hs & Hsub & Hin).
    destruct (translateOutputBlock_spec b st st1 H1) as (Hb1 & Hs1 & Hsub1 & Hin1).
    cbn [flat_map]. rewrite Hb, Hs, Hb1, Hs1. repeat split.
    + rewrite <- app_assoc. reflexivity.
    + etrans; eassumption.
    + intros calls call [->|Hblock] Hcall.
      * apply Hsub. apply (Hin1 calls call eq_refl Hcall).
      * apply (Hin calls call Hblock Hcall).
Qed.

Lemma translateOutputMessage_spec (message : AzureResponseOutputMessage)
    (st st' : Translation) :
  translateOutputMessage st message = Ok st' ->
  contentBlocks st' = contentBlocks st ++ outputMessageBlocks message
  /\ processedToolCallIds st ⊆ processedToolCallIds st'
  /\ (forall content calls call,
        out_msg_content message = Some content ->
        In (Some (AzureToolCallBlock (Some calls))) content -> In (Some call) calls ->
        nullish_opt (tc_id call) (toolCallName call) ∈ processedToolCallIds st')
  /\ stopReason st'
     = (if falsy (stopReason st) then
          Some (mapStopReason (out_msg_stop_reason message)
                  (0 <? size (processedToolCallIds st'))%nat)
        else stopReason st).
Proof.
  unfold translateOutputMessage, outputMessageBlocks. intros H.
  apply bind_Ok in H as (st1 & H1 & H).
  destruct (translateOutputBlocks_spec _ _ _ H1) as (Hb & Hs & Hsub & Hin).
  assert (Hin' : forall content calls call,
             out_msg_content message = Some content ->
             In (Some (AzureToolCallBlock (Some calls))) content -> In (Some call) calls ->
             nullish_opt (tc_id call) (toolCallName call) ∈ processedToolCallIds st1).
  { intros content calls call Hc Hblock Hcall.
    apply (Hin calls call); [|assumption]. rewrite Hc. exact Hblock. }
  rewrite Hs in H.
  destruct (falsy (stopReason st)) eqn:Hfalsy; injection H as <-;
    cbn [contentBlocks processedToolCallIds stopReason]; repeat split; assumption.
Qed.

Lemma translateFunctionCall_seen (call : AzureResponseFunctionCall) (st : Translation) :
  processedToolCallIds st ⊆ processedToolCallIds (translateFunctionCall st call).
Proof.
  unfold translateFunctionCall.
  destruct (bool_decide _); cbn [processedToolCallIds];
    [reflexivity | apply union_subseteq_r].
Qed.

Lemma translateFunctionCall_cases (call : AzureResponseFunctionCall) (st : Translation)
    (callId : string) :
  callId = functionCallId call (size (processedToolCallIds st)) ->
  (callId ∈ processedToolCallIds st /\ translateFunctionCall st call = st)
  \/ ((callId ∉ processedToolCallIds st)
      /\ contentBlocks (translateFunctionCall st call)
         = contentBlocks st
             ++ [AnthropicToolUseBlock (JStr callId) (JStr (functionCallName call))
                   (safeJsonParse (fc_arguments call) (JObj []))]
      /\ processedToolCallIds (translateFunctionCall st call)
         = {[ callId ]} ∪ processedToolCallIds st
      /\ stopReason (translateFunctionCall st call)
         = if falsy (stopReason st) then Some "tool_use" else stopReason st).
Proof.
  intros ->. unfold translateFunctionCall.
  destruct (decide (functionCallId call (size (processedToolCallIds st))
                    ∈ processedToolCallIds st)) as [Hin|Hout].
  - left. rewrite bool_decide_eq_true_2 by exact Hin. split; [exact Hin | reflexivity].
  - right. rewrite bool_decide_eq_false_2 by exact Hout. repeat split. exact Hout.
Qed.

(** Every item leaves the blocks and the ids that were there. *)
Lemma translateOutputItem_grows (item : option AzureResponseOutputItem)
    (st st' : Translation) :
  translateOutputItem st item = Ok st' ->
  (exists added, contentBlocks st' = contentBlocks st ++ added)
  /\ processedToolCallIds st ⊆ processedToolCallIds st'.
Proof.
  destruct item as [[message|call|type]|]; cbn [translateOutputItem].
  - intros H. destruct (translateOutputMessage_spec message st st' H) as (Hb & Hsub & _).
    split; [eauto | exact Hsub].
  - intros [= <-]. split; [|apply translateFunctionCall_seen].
    destruct (translateFunctionCall_cases call st _ eq_refl)
      as [[_ ->] | (_ & -> & _)]; [exists []; rewrite app_nil_r|]; eauto.
  - intros [= <-]. split; [exists []; rewrite app_nil_r|]; reflexivity.
  - intros [= <-]. split; [exists []; rewrite app_nil_r|]; reflexivity.
Qed.

Lemma translateOutputItems_grow (items : list (option AzureResponseOutputItem)) :
  forall st st' : Translation,
    foldM translateOutputItem items st = Ok st' ->
    (exists added, contentBlocks st' = contentBlocks st ++ added)
    /\ processedToolCallIds st ⊆ processedToolCallIds st'.
Proof.
  induction items as [|item rest IH]; intros st st' H.
  - injection H as <-. split; [exists []; rewrite app_nil_r|]; reflexivity.
  - cbn [foldM] in H. apply bind_Ok in H as (st1 & H1 & H).
    destruct (translateOutputItem_grows _ _ _ H1) as ((added1 & Hb1) & Hsub1).
    destruct (IH _ _ H) as ((added & Hb) & Hsub).
    split; [|etrans; eassumption].
    exists (added1 ++ added). rewrite Hb, Hb1, app_assoc. reflexivity.
Qed.

(** A function call whose resolved id is in the seen-set is skipped. *)
Lemma translateFunctionCall_skip (call : AzureResponseFunctionCall)
    (st : Translation) :
  nullish_opt (nullish_chain (fc_call_id call) (fc_id call)) (functionCallName call)
  ∈ processedToolCallIds st ->
  translateFunctionCall st call = st.
Proof.
  intros Hin. unfold translateFunctionCall.
  rewrite functionCallId_resolved, bool_decide_eq_true_2 by exact Hin.
  reflexivity.
Qed.

(** Inversion of a successful translation, and its converse. *)
Lemma azureToAnthropicResponse_Ok (data : AzureResponsesResponseBody)
    (requestedModel : string) (response : AnthropicResponse) :
  azureToAnthropicResponse data requestedModel = Ok response ->
  exists st,
    translateOutput (nullish_opt (resp_output data) []) = Ok st
    /\ content response
       = match contentBlocks st with
         | [] => [AnthropicTextBlock (nullish_opt (resp_output_text data) "")]
         | blocks => blocks
         end
    /\ stop_reason response
       = (if falsy (stopReason st) then Some "end_turn" else stopReason st)
    /\ stop_sequence response = None
    /\ model response = nullish_opt (resp_model data) requestedModel.
Proof.
  unfold azureToAnthropicResponse. intros H.
  apply bind_Ok in H as (st & Hst & [= <-]). exists st.
  cbn [content stop_reason stop_sequence model].
  repeat split; try assumption. destruct (contentBlocks st); reflexivity.
Qed.

Lemma azureToAnthropicResponse_translated (data : AzureResponsesResponseBody)
    (requestedModel : string) (st : Translation) :
  translateOutput (nullish_opt (resp_output data) []) = Ok st ->
  exists response, azureToAnthropicResponse data requestedModel = Ok response.
Proof.
  intros H. unfold azureToAnthropicResponse. rewrite H. cbn [bind]. eauto.
Qed.

Lemma translateOutputMessages_blocks (messages : list AzureResponseOutputMessage) :
  forall st st' : Translation,
    foldM translateOutputItem (map (fun m => Some (OutputMessage m)) messages) st
    = Ok st' ->
    contentBlocks st' = contentBlocks st ++ flat_map outputMessageBlocks messages.
Proof.
  induction messages as [|m rest IH]; intros st st' H.
  - injection H as <-. cbn. rewrite app_nil_r. reflexivity.
  - cbn [map foldM translateOutputItem] in H. apply bind_Ok in H as (st1 & H1 & H).
    rewrite (IH _ _ H).
    destruct (translateOutputMessage_spec m st st1 H1) as (-> & _).
    cbn [flat_map]. rewrite <- app_assoc. reflexivity.
Qed.

(** **** The seen-set *)

Lemma toolUseIds_app (l1 l2 : list AnthropicContentBlock) :
  toolUseIds (l1 ++ l2) = toolUseIds l1 ++ toolUseIds l2.
Proof. apply flat_map_app. Qed.

Lemma seenInvariant_initial : seenInvariant initialTranslation.
Proof.
  split; [|constructor]. intros id. split.
  - intros H. apply not_elem_of_empty in H. destruct H.
  - intros H. exfalso. exact H.
Qed.

Lemma seenInvariant_expandToolCall (call : option AzureToolCall) (st st' : Translation) :
  expandToolCall st call = Ok st' -> seenInvariant st -> seenInvariant st'.
Proof.
  intros H [Hseen Hshape].
  apply expandToolCall_Ok in H as (c & _ & Hb & _ & Hs).
  split.
  - intros id. rewrite Hs, Hb, toolUseIds_app, elem_of_union, elem_of_singleton,
      in_app_iff, Hseen.
    cbn. intuition congruence.
  - rewrite Hb. apply List.Forall_app. split; [exact Hshape|].
    repeat constructor.
Qed.

Lemma seenInvariant_block (block : option AzureContentBlock) (st st' : Translation) :
  translateOutputBlock st block = Ok st' -> seenInvariant st -> seenInvariant st'.
Proof.
  destruct block as [[type text|calls]|]; cbn [translateOutputBlock].
  - intros H [Hseen Hshape].
    destruct type; injection H as <-; try (split; assumption).
    + split; cbn [contentBlocks processedToolCallIds].
      * intros id. rewrite toolUseIds_app, in_app_iff, Hseen. cbn. tauto.
      * apply List.Forall_app. split; [exact Hshape | repeat constructor].
    + split; cbn [contentBlocks processedToolCallIds].
      * intros id. rewrite toolUseIds_app, in_app_iff, Hseen. cbn. tauto.
      * apply List.Forall_app. split; [exact Hshape | repeat constructor].
  - intros H Hinv.
    apply (foldM_invariant expandToolCall seenInvariant (nullish_opt calls [])
             (fun s x s' Hs Hx => seenInvariant_expandToolCall x s s' Hx Hs)
             st st' Hinv H).
  - intros [= <-] H. exact H.
Qed.

Lemma seenInvariant_message (message : AzureResponseOutputMessage)
    (st st' : Translation) :
  translateOutputMessage st message = Ok st' -> seenInvariant st -> seenInvariant st'.
Proof.
  unfold translateOutputMessage. intros H Hinv.
  apply bind_Ok in H as (st1 & H1 & H).
  pose proof (foldM_invariant translateOutputBlock seenInvariant _
                (fun s x s' Hs Hx => seenInvariant_block x s s' Hx Hs)
                st st1 Hinv H1) as [Hseen Hshape].
  destruct (falsy (stopReason st1)); injection H as <-; split; assumption.
Qed.

Lemma seenInvariant_functionCall (call : AzureResponseFunctionCall) (st : Translation) :
  seenInvariant st -> seenInvariant (translateFunctionCall st call).
Proof.
  intros [Hseen Hshape].
  destruct (translateFunctionCall_cases call st _ eq_refl)
    as [[_ ->] | (_ & Hb & Hs & _)]; [split; assumption|].
  split.
  - intros id. rewrite Hs, Hb, toolUseIds_app, elem_of_union, elem_of_singleton,
      in_app_iff, Hseen.
    cbn. intuition congruence.
  - rewrite Hb. apply List.Forall_app. split; [exact Hshape | repeat constructor].
Qed.

Lemma seenInvariant_item (item : option AzureResponseOutputItem) (st st' : Translation) :
  translateOutputItem st item = Ok st' -> seenInvariant st -> seenInvariant st'.
Proof.
  destruct item as [[message|call|type]|]; cbn [translateOutputItem].
  - apply seenInvariant_message.
  - intros [= <-]. apply seenInvariant_functionCall.
  - intros [= <-] H. exact H.
  - intros [= <-] H. exact H.
Qed.

Lemma seenInvariant_items (items : list (option AzureResponseOutputItem))
    (st st' : Translation) :
  foldM translateOutputItem items st = Ok st' -> seenInvariant st -> seenInvariant st'.
Proof.
  intros H Hinv.
  apply (foldM_invariant translateOutputItem seenInvariant items
           (fun s x s' Hs Hx => seenInvariant_item x s s' Hx Hs) st st' Hinv H).
Qed.

Lemma seenInvariant_translateOutput (output : list (option AzureResponseOutputItem))
    (st : Translation) :
  translateOutput output = Ok st -> seenInvariant st.
Proof.
  intros H. apply (seenInvariant_items output initialTranslation st H).
  apply seenInvariant_initial.
Qed.

(** The ToolUse ids of a response are those of the blocks of the loop:
    the fallback block is a Text block. *)
Lemma toolUseIds_content (data : AzureResponsesResponseBody) (requestedModel : string)
    (response : AnthropicResponse) (st : Translation) :
  azureToAnthropicResponse data requestedModel = Ok response ->
  translateOutput (nullish_opt (resp_output data) []) = Ok st ->
  toolUseIds (content response) = toolUseIds (contentBlocks st)
  /\ (forall block, In block (contentBlocks st) -> In block (content response)).
Proof.
  intros H Hst.
  apply azureToAnthropicResponse_Ok in H as (st1 & Hst1 & -> & _).
  rewrite Hst in Hst1. injection Hst1 as <-.
  destruct (contentBlocks st); [split; [reflexivity | intros ? []] | split; auto].
Qed.

(** **** Where the blocks of an item end up *)

Lemma translateOutput_split (pre post : list (option AzureResponseOutputItem))
    (item : option AzureResponseOutputItem) (st : Translation) :
  translateOutput (pre ++ item :: post) = Ok st ->
  exists st1 st2,
    translateOutput pre = Ok st1
    /\ translateOutputItem st1 item = Ok st2
    /\ foldM translateOutputItem post st2 = Ok st.
Proof.
  unfold translateOutput. rewrite foldM_app. intros H.
  apply bind_Ok in H as (st1 & H1 & H). cbn [foldM] in H.
  apply bind_Ok in H as (st2 & H2 & H). eauto.
Qed.

Lemma translateOutput_setOutput (data : AzureResponsesResponseBody)
    (output : list (option AzureResponseOutputItem)) (requestedModel : string)
    (response : AnthropicResponse) :
  azureToAnthropicResponse (setOutput data output) requestedModel = Ok response ->
  exists st,
    translateOutput output = Ok st
    /\ toolUseIds (content response) = toolUseIds (contentBlocks st).
Proof.
  intros H.
  destruct (azureToAnthropicResponse_Ok _ _ _ H) as (st & Hst & _).
  exists st. split; [exact Hst|].
  apply (toolUseIds_content _ _ _ _ H Hst).
Qed.

Lemma In_toolUseOf (message : AzureResponseOutputMessage)
    (blocks : list (option AzureContentBlock)) (calls : list (option AzureToolCall))
    (call : AzureToolCall) :
  out_msg_content message = Some blocks ->
  In (Some (AzureToolCallBlock (Some calls))) blocks ->
  In (Some call) calls ->
  In (toolUseOf call) (outputMessageBlocks message).
Proof.
  intros Hcontent Hblock Hcall. unfold outputMessageBlocks. rewrite Hcontent.
  cbn [nullish_opt]. apply in_flat_map.
  exists (Some (AzureToolCallBlock (Some calls))). split; [exact Hblock|].
  cbn [outputBlockBlocks]. apply in_map. unfold presentCalls. apply in_flat_map.
  exists (Some call). split; [exact Hcall | left; reflexivity].
Qed.

(** The blocks of a message are in the content of the response. *)
Lemma message_blocks_in_content (data : AzureResponsesResponseBody)
    (requestedModel : string) (response : AnthropicResponse)
    (output : list (option AzureResponseOutputItem))
    (message : AzureResponseOutputMessage) (block : AnthropicContentBlock) :
  azureToAnthropicResponse data requestedModel = Ok response ->
  resp_output data = Some output ->
  In (Some (OutputMessage message)) output ->
  In block (outputMessageBlocks message) ->
  In block (content response).
Proof.
  intros H Hout Hmessage Hblock.
  destruct (azureToAnthropicResponse_Ok _ _ _ H) as (st & Hst & _).
  apply (toolUseIds_content _ _ _ _ H Hst).
  rewrite Hout in Hst. cbn [nullish_opt] in Hst.
  apply in_split in Hmessage as (pre & post & ->).
  apply translateOutput_split in Hst as (st1 & st2 & _ & H2 & Hpost).
  cbn [translateOutputItem] in H2.
  destruct (translateOutputMessage_spec _ _ _ H2) as (Hb & _).
  destruct (translateOutputItems_grow _ _ _ Hpost) as ((added & ->) & _).
  rewrite Hb. apply in_or_app. left. apply in_or_app. right. exact Hblock.
Qed.

(** A top-level function call is dropped when a ToolUse block with its
    resolved id comes from the items before it, and gives its own block
    otherwise. *)
Lemma function_call_dropped_or_translated (data : AzureResponsesResponseBody)
    (requestedModel : string) (response before : AnthropicResponse)
    (pre post : list (option AzureResponseOutputItem))
    (call : AzureResponseFunctionCall) :
  azureToAnthropicResponse data requestedModel = Ok response ->
  resp_output data = Some (pre ++ Some (OutputFunctionCall call) :: post) ->
  azureToAnthropicResponse (setOutput data pre) requestedModel = Ok before ->
  (In (functionCallResolvedId call) (toolUseIds (content before))
   /\ azureToAnthropicResponse (setOutput data (pre ++ post)) requestedModel
      = Ok response)
  \/ (~ In (functionCallResolvedId call) (toolUseIds (content before))
      /\ In (toolUseOfFunctionCall call) (content response)).
Proof.
  intros H Hout Hbefore.
  destruct (azureToAnthropicResponse_Ok _ _ _ H) as (st & Hst & _).
  pose proof (toolUseIds_content _ _ _ _ H Hst) as [_ Hcontent].
  apply translateOutput_setOutput in Hbefore as (st1 & Hst1 & ->).
  pose proof (seenInvariant_translateOutput _ _ Hst1) as [Hseen _].
  rewrite Hout in Hst. cbn [nullish_opt] in Hst.
  destruct (translateOutput_split _ _ _ _ Hst) as (st1' & st2 & Hst1' & H2 & Hpost).
  rewrite Hst1 in Hst1'. injection Hst1' as <-.
  cbn [translateOutputItem] in H2. injection H2 as <-.
  destruct (translateFunctionCall_cases call st1 _ eq_refl)
    as [[Hin Hskip] | (Hfresh & Hb & _)];
    rewrite functionCallId_resolved in *.
  - left. split; [apply Hseen, Hin|].
    rewrite Hskip in Hpost.
    unfold azureToAnthropicResponse in *. rewrite Hout in H.
    cbn [setOutput resp_output resp_output_text resp_usage resp_id resp_model
         nullish_opt] in *.
    unfold translateOutput in *. rewrite foldM_app in *. rewrite Hst1 in *.
    cbn [bind foldM translateOutputItem] in *. rewrite Hskip in H. exact H.
  - right. split; [intros Hin; apply Hfresh, Hseen, Hin|].
    apply Hcontent.
    destruct (translateOutputItems_grow _ _ _ Hpost) as ((added & ->) & _).
    rewrite Hb. apply in_or_app. left. apply in_or_app. right. left. reflexivity.
Qed.



(** C1, at the input where the code departs from it.  A message with only
    text and no stop_reason, followed by a top-level function call, is
    translated to a Text block and a ToolUse block with stop reason
    ["end_turn"], where the specification resolves ["tool_use"]: the
    message has already fixed the stop reason when the call is reached.
    The same two items in the other order give ["tool_use"]. *)
Theorem stop_reason_text_then_function_call (requestedModel : string) :
  exists response reversed,
    azureToAnthropicResponse textThenCall requestedModel = Ok response
    /\ content response
       = [AnthropicTextBlock "Hi";
          AnthropicToolUseBlock (JStr "c1") (JStr "lookup")
            (safeJsonParse (Some "{}") (JObj []))]
    /\ stop_reason response = Some "end_turn"
    /\ azureToAnthropicResponse callThenText requestedModel = Ok reversed
    /\ stop_reason reversed = Some "tool_use".
Proof. eexists. eexists. repeat split; reflexivity. Qed.

(** C2, at the inputs where the code departs from it.  A tool call without
    id and name inside a message, and a top-level function call without
    call_id, id and name, both get the id ["tool"] and not a synthesized
    [tool_<n>]: the name defaults to ["tool"] before the id is resolved, so
    the placeholder is never reached.  Two such function calls collide on
    that id and the second one is dropped. *)
Theorem anonymous_call_ids (requestedModel : string) :
  exists inMessage topLevel twice,
    azureToAnthropicResponse anonymousToolCall requestedModel = Ok inMessage
    /\ content inMessage
       = [AnthropicToolUseBlock (JStr "tool") (JStr "tool") (JObj [])]
    /\ azureToAnthropicResponse anonymousFunctionCall requestedModel = Ok topLevel
    /\ content topLevel
       = [AnthropicToolUseBlock (JStr "tool") (JStr "tool") (JObj [])]
    /\ azureToAnthropicResponse twoAnonymousFunctionCalls requestedModel = Ok twice
    /\ content twice
       = [AnthropicToolUseBlock (JStr "tool") (JStr "tool")
            (safeJsonParse (Some "1") (JObj []))].
Proof. eexists. eexists. eexists. repeat split; reflexivity. Qed.

(** C7. A top-level function call whose resolved id (call_id, else id) is
    the id of a tool call expanded from an earlier message is skipped: the
    response is the one obtained without that item.  A message with that
    single tool call followed by the duplicate gives exactly one ToolUse
    block. *)
Theorem duplicate_function_call_skipped
    (pre mid post : list (option AzureResponseOutputItem))
    (message : AzureResponseOutputMessage) (fc : AzureResponseFunctionCall)
    (blocks : list (option AzureContentBlock)) (calls : list (option AzureToolCall))
    (call : AzureToolCall) (callId : string)
    (data : AzureResponsesResponseBody) (requestedModel : string) :
  out_msg_content message = Some blocks ->
  In (Some (AzureToolCallBlock (Some calls))) blocks ->
  In (Some call) calls ->
  tc_id call = Some callId ->
  nullish_chain (fc_call_id fc) (fc_id fc) = Some callId ->
  azureToAnthropicResponse
    (setOutput data
       (pre ++ Some (OutputMessage message) :: mid
            ++ Some (OutputFunctionCall fc) :: post))
    requestedModel
  = azureToAnthropicResponse
      (setOutput data (pre ++ Some (OutputMessage message) :: mid ++ post))
      requestedModel
  /\ (blocks = [Some (AzureToolCallBlock (Some [Some call]))] ->
      exists response,
        azureToAnthropicResponse
          (setOutput data
             [Some (OutputMessage message); Some (OutputFunctionCall fc)])
          requestedModel
        = Ok response
        /\ content response
           = [AnthropicToolUseBlock (JStr callId) (JStr (toolCallName call))
                (safeJsonParse (toolCallArguments call) (JObj []))]).
Proof.
  intros Hcontent Hblock Hcall Hid Hfc.
  assert (Hskip : forall items st st1 st2,
             translateOutputMessage st message = Ok st1 ->
             foldM translateOutputItem items st1 = Ok st2 ->
             translateFunctionCall st2 fc = st2).
  { intros items st st1 st2 Hmessage Hitems.
    apply translateFunctionCall_skip. rewrite Hfc. cbn [nullish_opt].
    apply (proj2 (translateOutputItems_grow _ _ _ Hitems)).
    destruct (translateOutputMessage_spec _ _ _ Hmessage) as (_ & _ & Hin & _).
    specialize (Hin blocks calls call Hcontent Hblock Hcall).
    rewrite Hid in Hin. exact Hin. }
  split.
  - unfold azureToAnthropicResponse, setOutput, translateOutput.
    cbn [resp_output resp_output_text resp_usage resp_id resp_model nullish_opt].
    rewrite !foldM_app.
    destruct (foldM translateOutputItem pre initialTranslation) as [st0|e];
      cbn [bind]; [|reflexivity].
    cbn [foldM translateOutputItem].
    destruct (translateOutputMessage st0 message) as [st1|e] eqn:Hmessage;
      cbn [bind]; [|reflexivity].
    rewrite !foldM_app.
    destruct (foldM translateOutputItem mid st1) as [st2|e] eqn:Hmid;
      cbn [bind]; [|reflexivity].
    cbn [foldM translateOutputItem bind].
    rewrite (Hskip mid st0 st1 st2 Hmessage Hmid). reflexivity.
  - intros ->.
    assert (Hpresent : callsPresent
                         (setOutput data
                            [Some (OutputMessage message);
                             Some (OutputFunctionCall fc)]) = true).
    { unfold callsPresent, setOutput, messageCallsPresent.
      cbn [resp_output nullish_opt forallb itemCallsPresent].
      unfold messageCallsPresent. rewrite Hcontent. reflexivity. }
    rewrite <- (succeeds_azureToAnthropicResponse _ requestedModel) in Hpresent.
    apply succeeds_true in Hpresent as (response & Hresponse).
    exists response. split; [exact Hresponse|].
    apply azureToAnthropicResponse_Ok in Hresponse as (st & Hst & -> & _).
    unfold setOutput in Hst. cbn [resp_output nullish_opt] in Hst.
    apply (translateOutput_split []) in Hst as (st0 & st1 & Hst0 & Hmessage & Hrest).
    injection Hst0 as <-. cbn [translateOutputItem] in Hmessage.
    cbn [foldM translateOutputItem bind] in Hrest.
    rewrite (Hskip [] initialTranslation st1 st1 Hmessage eq_refl) in Hrest.
    injection Hrest as <-.
    destruct (translateOutputMessage_spec _ _ _ Hmessage) as (-> & _).
    unfold outputMessageBlocks, initialTranslation. rewrite Hcontent.
    cbn [contentBlocks nullish_opt flat_map outputBlockBlocks presentCalls map app].
    unfold toolUseOf. rewrite Hid. reflexivity.
Qed.

(** C10. The blocks that a message item appends do not depend on the
    seen-set: each call of each tool_calls block gives its own ToolUse
    block, in order, whatever ids were recorded before.  The same call
    twice in one message, or once in each of two messages, gives two
    ToolUse blocks with the same id. *)
Theorem message_tool_calls_not_deduplicated (requestedModel : string) :
  (forall st message,
      messageCallsPresent message = true ->
      exists st',
        translateOutputMessage st message = Ok st'
        /\ contentBlocks st' = contentBlocks st ++ outputMessageBlocks message)
  /\ (forall st messages,
        forallb messageCallsPresent messages = true ->
        exists st',
          foldM translateOutputItem
            (map (fun m => Some (OutputMessage m)) messages) st
          = Ok st'
          /\ contentBlocks st'
             = contentBlocks st ++ flat_map outputMessageBlocks messages)
  /\ (exists response,
        azureToAnthropicResponse repeatedInOneMessage requestedModel = Ok response
        /\ content response
           = [AnthropicToolUseBlock (JStr "call_1") (JStr "lookup") (JObj []);
              AnthropicToolUseBlock (JStr "call_1") (JStr "lookup") (JObj [])])
  /\ (exists response,
        azureToAnthropicResponse repeatedInTwoMessages requestedModel = Ok response
        /\ content response
           = [AnthropicToolUseBlock (JStr "call_1") (JStr "lookup") (JObj []);
              AnthropicToolUseBlock (JStr "call_1") (JStr "lookup") (JObj [])]).
Proof.
  repeat apply conj.
  - intros st message Hpresent.
    rewrite <- (succeeds_translateOutputMessage st) in Hpresent.
    apply succeeds_true in Hpresent as (st' & Hst').
    exists st'. split; [exact Hst'|]. apply (translateOutputMessage_spec _ _ _ Hst').
  - intros st messages Hpresent.
    assert (Hsucceeds : succeeds
                          (foldM translateOutputItem
                             (map (fun m => Some (OutputMessage m)) messages) st)
                        = true).
    { rewrite (succeeds_foldM translateOutputItem itemCallsPresent _
                 succeeds_translateOutputItem).
      rewrite <- Hpresent. clear Hpresent.
      induction messages as [|m rest IH]; [reflexivity|].
      cbn [map forallb itemCallsPresent]. rewrite IH. reflexivity. }
    apply succeeds_true in Hsucceeds as (st' & Hst').
    exists st'. split; [exact Hst'|]. apply (translateOutputMessages_blocks _ _ _ Hst').
  - eexists. split; reflexivity.
  - eexists. split; reflexivity.
Qed.


End ResponseProperties.

Lemma duplicate_function_call_skipped_witness :
  exists response,
    azureToAnthropicResponse (parser := rejectAll)
      (setOutput (responseBody [])
         [Some (OutputMessage repeatedCallMessage);
          Some (OutputFunctionCall repeatedCallItem)])
      "gpt-5-codex"
    = Ok response
    /\ content response
       = [AnthropicToolUseBlock (JStr "call_1") (JStr "lookup") (JObj [])].
Proof.
  destruct (duplicate_function_call_skipped (parser := rejectAll) [] [] []
              repeatedCallMessage repeatedCallItem
              [Some (AzureToolCallBlock (Some [Some repeatedCall]))]
              [Some repeatedCall]
              repeatedCall "call_1" (responseBody []) "gpt-5-codex"
              eq_refl (or_introl eq_refl) (or_introl eq_refl) eq_refl eq_refl)
    as [_ H].
  exact (H eq_refl).
Defined.

Lemma message_tool_calls_not_deduplicated_witness :
  exists st,
    translateOutputMessage (parser := rejectAll) initialTranslation repeatedCallMessage
    = Ok st
    /\ contentBlocks st
       = [AnthropicToolUseBlock (JStr "call_1") (JStr "lookup") (JObj [])].
Proof.
  destruct (proj1 (message_tool_calls_not_deduplicated (parser := rejectAll)
                     "gpt-5-codex")
              initialTranslation repeatedCallMessage eq_refl)
    as (st & Hst & Hblocks).
  exists st. split; [exact Hst | exact Hblocks].
Defined.



(** *** Stream emitter *)






(** A ToolUse block whose input is [null] is what the response
    translator produces from the arguments [null]. *)
Lemma null_input_reachable {parser : JsonParser} (requestedModel : string) :
  JSON_parse "null" = Some JNull ->
  exists response,
    azureToAnthropicResponse nullArguments requestedModel = Ok response
    /\ content response
       = [AnthropicToolUseBlock (JStr "call_1") (JStr "lookup") JNull].
Proof.
  intros H. eexists. split; [reflexivity|].
  unfold JSON_parse in H. vm_compute. rewrite H. reflexivity.
Qed.


(** ** Further properties of the code *)

(** *** Which requests are accepted *)

Lemma succeeds_serialize (tool_use_id content text is_error status : JValue) :
  succeeds (serializeToolResultOutput tool_use_id content text is_error status)
  = serializable content.
Proof.
  destruct content; try (destruct text; reflexivity).
  cbn [serializeToolResultOutput serializable].
  transitivity (succeeds (mapM partText items)).
  - destruct (mapM partText items); reflexivity.
  - rewrite succeeds_mapM. induction items as [|part rest IH]; [reflexivity|].
    cbn [forallb]. rewrite IH. f_equal.
    unfold partText. destruct (isNullish part); reflexivity.
Qed.

Lemma succeeds_translateBlock (role : string) (st : BlockLoop)
    (block : AnthropicContentBlock) :
  succeeds (translateBlock role st block) = blockSerializable block.
Proof.
  destruct block as [text|tid name inp|tid cont text err status];
    cbn [translateBlock blockSerializable].
  - destruct st. reflexivity.
  - destruct (flushText role st). reflexivity.
  - destruct (flushText role st). rewrite <- (succeeds_serialize tid cont text err status).
    destruct (serializeToolResultOutput tid cont text err status); reflexivity.
Qed.

Lemma is_str_exclusive (v : JValue) (s t : string) :
  is_str v s = true -> s <> t -> is_str v t = false.
Proof.
  destruct v; try discriminate. cbn [is_str].
  intros Hs Hne. apply String.eqb_eq in Hs. subst.
  apply String.eqb_neq. exact Hne.
Qed.

Lemma acceptsItem_normalizeItem (item : JValue) :
  acceptsItem item
  = match normalizeItem item with
    | Ok block => blockSerializable block
    | Throw _ => false
    end.
Proof.
  destruct item as [| |b|n|s|items|fields]; try reflexivity.
  - destruct b; reflexivity.
  - unfold normalizeItem. cbn [typeof truthy String.eqb Ascii.eqb Bool.eqb negb orb].
    destruct (Z.eqb n 0); reflexivity.
  - unfold normalizeItem, acceptsItem.
    cbn [typeof truthy negb orb String.eqb Ascii.eqb Bool.eqb].
    destruct (js_in "type" (JObj fields)); cbn [negb andb]; [|reflexivity].
    destruct (is_str (prop (JObj fields) "type") "text") eqn:Htext;
      cbn [orb]; [reflexivity|].
    destruct (is_str (prop (JObj fields) "type") "tool_use") eqn:Huse.
    + rewrite (is_str_exclusive _ _ "tool_result" Huse) by discriminate.
      cbn [andb orb].
      destruct (js_in "id" (JObj fields)), (js_in "name" (JObj fields));
        reflexivity.
    + cbn [andb orb].
      destruct (is_str (prop (JObj fields) "type") "tool_result"); [|reflexivity].
      cbn [andb].
      destruct (js_in "tool_use_id" (JObj fields)); reflexivity.
Qed.

Lemma acceptsItems_normalize (items : list JValue) :
  match mapM normalizeItem items with
  | Ok blocks => forallb blockSerializable blocks
  | Throw _ => false
  end
  = forallb acceptsItem items.
Proof.
  induction items as [|item rest IH]; [reflexivity|].
  cbn [mapM forallb]. rewrite acceptsItem_normalizeItem, <- IH.
  destruct (normalizeItem item) as [block|e]; cbn [bind]; [|reflexivity].
  destruct (mapM normalizeItem rest) as [blocks|e]; cbn [bind forallb];
    [reflexivity | rewrite andb_false_r; reflexivity].
Qed.

Lemma succeeds_translateMessage (input : list AzureInputItem)
    (entry : option AnthropicMessage) :
  succeeds (translateMessage input entry) = acceptsEntry entry.
Proof.
  destruct entry as [message|]; [|reflexivity].
  unfold translateMessage, acceptsEntry, acceptsMessage.
  assert (Hloop : forall blocks,
             succeeds
               (let* st := foldM (translateBlock (msg_role message)) blocks (input, [])
                in Ok (fst (flushText (msg_role message) st)))
             = forallb blockSerializable blocks).
  { intros blocks.
    rewrite <- (succeeds_foldM (translateBlock (msg_role message)) blockSerializable
                  blocks (succeeds_translateBlock (msg_role message)) (input, [])).
    destruct (foldM (translateBlock (msg_role message)) blocks (input, []));
      reflexivity. }
  destruct (msg_content message) as [| | | |s|items|fields]; try reflexivity.
  cbn [normalizeMessageContent]. rewrite <- acceptsItems_normalize.
  destruct (mapM normalizeItem items) as [blocks|e]; cbn [bind];
    [apply Hloop | reflexivity].
Qed.

Lemma acceptsEntries_iff (entries : list (option AnthropicMessage)) :
  forallb acceptsEntry entries = true
  <-> exists messages,
        entries = map Some messages
        /\ Forall (fun message => acceptsMessage message = true) messages.
Proof.
  induction entries as [|entry rest IH].
  - split; [|reflexivity]. intros _. exists []. split; [reflexivity | constructor].
  - cbn [forallb]. rewrite andb_true_iff, IH. split.
    + intros [Hentry (messages & -> & Hall)].
      destruct entry as [message|]; [|discriminate Hentry].
      exists (message :: messages). split; [reflexivity|].
      constructor; assumption.
    + intros (messages & Heq & Hall).
      destruct messages as [|message messages]; [discriminate Heq|].
      injection Heq as -> ->. inversion Hall; subst.
      split; [assumption|]. exists messages. split; [reflexivity | assumption].
Qed.

Lemma trim_empty_string : trim "" = "".
Proof. reflexivity. Qed.

Lemma resolveModel_available (model : JValue) (fallbackModel : option string) :
  resolveModel model fallbackModel <> ""
  <-> isNonBlankString model = true
      \/ exists fallback, fallbackModel = Some fallback /\ fallback <> "".
Proof.
  assert (Hblank : isNonBlankString model = false ->
                   resolveModel model fallbackModel = nullish_opt fallbackModel "").
  { intros Hm. unfold resolveModel. destruct model; try reflexivity.
    rewrite Hm. reflexivity. }
  assert (Hgiven : isNonBlankString model = true ->
                   resolveModel model fallbackModel <> "").
  { intros Hm. unfold resolveModel. destruct model; try discriminate.
    rewrite Hm. cbn [nullish_opt]. cbn [isNonBlankString] in Hm.
    apply length_pos_iff in Hm. intros ->. apply Hm. reflexivity. }
  destruct (isNonBlankString model) eqn:Hm.
  - split; [left; reflexivity | intros _; apply Hgiven; reflexivity].
  - rewrite (Hblank eq_refl). split.
    + intros H. right. destruct fallbackModel as [fallback|]; [|contradiction].
      exists fallback. split; [reflexivity | exact H].
    + intros [H | (fallback & -> & Hne)]; [discriminate | exact Hne].
Qed.

Lemma succeeds_anthropicToolsToAzure (tools : JValue) :
  succeeds (anthropicToolsToAzure tools) = acceptsTools tools.
Proof.
  unfold anthropicToolsToAzure, acceptsTools.
  destruct (negb (truthy tools) || is_num (js_length tools) 0); [reflexivity|].
  cbn [orb]. destruct tools as [| | | | |items|]; try reflexivity.
  transitivity (succeeds (mapM toolToAzure items)).
  - destruct (mapM toolToAzure items); reflexivity.
  - rewrite succeeds_mapM. induction items as [|tool rest IH]; [reflexivity|].
    cbn [forallb]. rewrite IH. f_equal.
    unfold toolToAzure. destruct (isNullish tool); reflexivity.
Qed.

(** X1. The requests that [anthropicToAzureRequest] translates are exactly
    those with at least one message, none of them null, whose every
    message has a string content or an array content of accepted items,
    for which a model is available (the request's, when it is a string
    that is not blank, or a fallback that is not empty), and whose tools
    are none (a falsy value or one of length 0) or an array without null
    and undefined entries. *)
Theorem request_accepted_iff (body : AnthropicRequest)
    (fallbackModel : option string) (options : option Options) :
  (exists req, anthropicToAzureRequest body fallbackModel options = Ok req)
  <-> (exists messages,
         req_messages body = Some (map Some messages)
         /\ messages <> []
         /\ Forall (fun message => acceptsMessage message = true) messages)
      /\ (isNonBlankString (req_model body) = true
          \/ exists fallback, fallbackModel = Some fallback /\ fallback <> "")
      /\ acceptsTools (req_tools body) = true.
Proof.
  rewrite <- resolveModel_available, <- succeeds_true,
    <- succeeds_anthropicToolsToAzure.
  assert (Hmessages : (exists messages,
                          req_messages body = Some (map Some messages)
                          /\ messages <> []
                          /\ Forall (fun message => acceptsMessage message = true)
                               messages)
                      <-> exists entries,
                            req_messages body = Some entries /\ entries <> []
                            /\ forallb acceptsEntry entries = true).
  { split.
    - intros (messages & Heq & Hne & Hall). exists (map Some messages).
      repeat split; [exact Heq | destruct messages; [contradiction | discriminate]|].
      apply acceptsEntries_iff. eauto.
    - intros (entries & Heq & Hne & Hall).
      apply acceptsEntries_iff in Hall as (messages & -> & Hall).
      exists messages. repeat split; [exact Heq | | exact Hall].
      intros ->. contradiction. }
  rewrite Hmessages. clear Hmessages.
  unfold anthropicToAzureRequest.
  destruct (req_messages body) as [[|m ms]|].
  - split; [discriminate | intros [(entries & [= <-] & Hne & _) _]; contradiction].
  - pose proof (succeeds_foldM translateMessage acceptsEntry (m :: ms)
                  succeeds_translateMessage (systemItems (req_system body))) as Hfold.
    destruct (foldM translateMessage (m :: ms) (systemItems (req_system body)))
      as [input|e]; cbn [bind succeeds] in *.
    + symmetry in Hfold.
      destruct (String.eqb_spec (resolveModel (req_model body) fallbackModel) "")
        as [Heq|Hne]; cbn [succeeds].
      * split; [discriminate | intros (_ & H & _); contradiction].
      * destruct (anthropicToolsToAzure (req_tools body)) as [azureTools|e];
          cbn [bind succeeds].
        -- split; [|reflexivity]. intros _. repeat split; [|exact Hne].
           exists (m :: ms). repeat split; [discriminate | exact Hfold].
        -- split; [discriminate | intros (_ & _ & H); discriminate H].
    + split; [discriminate|].
      intros [(entries & [= <-] & _ & Hall) _]. congruence.
  - split; [discriminate | intros [(entries & [=] & _) _]].
Qed.

(** *** What a successful translation contains *)

Lemma anthropicToAzureRequest_fields (body : AnthropicRequest)
    (fallbackModel : option string) (options : option Options)
    (req : AzureResponsesRequestBody) :
  anthropicToAzureRequest body fallbackModel options = Ok req ->
  az_stop req = match req_stop_sequences body with
                | Some (s :: rest) => Some (s :: rest)
                | _ => None
                end
  /\ anthropicToolsToAzure (req_tools body) = Ok (az_tools req)
  /\ az_tool_choice req = anthropicToolChoiceToAzure (req_tool_choice body)
  /\ az_temperature req = req_temperature body
  /\ az_top_p req = req_top_p body
  /\ az_max_output_tokens req = req_max_tokens body
  /\ az_metadata req = req_metadata body.
Proof.
  unfold anthropicToAzureRequest.
  destruct (req_messages body) as [[|m ms]|]; try discriminate.
  destruct (foldM translateMessage (m :: ms) (systemItems (req_system body)));
    [|discriminate].
  cbn [bind].
  destruct (String.eqb (resolveModel (req_model body) fallbackModel) "");
    [discriminate|].
  destruct (anthropicToolsToAzure (req_tools body)) as [azureTools|e];
    [|discriminate]. cbn [bind].
  intros [= <-]. repeat split.
Qed.

Lemma messageItems_string (message : AnthropicMessage) (s : string) :
  msg_content message = JStr s ->
  messageItems message
  = Ok [AzureMessageInput (msg_role message)
          [AzureTextContentBlock
             (if String.eqb (msg_role message) "assistant" then output_text
              else input_text) s]].
Proof.
  intros H. unfold messageItems. rewrite H. reflexivity.
Qed.

(** X2. A request whose messages all have a string content is translated to
    the system item, if the system prompt is truthy, followed by exactly
    one message item per message, in order, carrying the string unchanged
    (an empty string included), as output_text for the assistant role and
    as input_text for any other. *)
Theorem string_messages_one_item_each (body : AnthropicRequest)
    (fallbackModel : option string) (options : option Options)
    (req : AzureResponsesRequestBody) (messages : list AnthropicMessage) :
  anthropicToAzureRequest body fallbackModel options = Ok req ->
  req_messages body = Some (map Some messages) ->
  Forall (fun message => isString (msg_content message) = true) messages ->
  az_input req
  = (if truthy (req_system body) then
       [AzureMessageInput "system"
          [AzureTextContentBlock input_text (normalizeToString (req_system body))]]
     else [])
    ++ map (fun message =>
              AzureMessageInput (msg_role message)
                [AzureTextContentBlock
                   (if String.eqb (msg_role message) "assistant" then output_text
                    else input_text)
                   (normalizeToString (msg_content message))])
         messages.
Proof.
  intros H Hmsgs Hall.
  apply anthropicToAzureRequest_Ok in H
    as (messages' & itemss & Hm & _ & Hitems & -> & _).
  rewrite Hmsgs in Hm. injection Hm as Hm. apply map_Some_inj in Hm. subst messages'.
  unfold systemItems. f_equal.
  clear Hmsgs. revert itemss Hitems.
  induction Hall as [|m ms Hm Hms IH]; intros itemss Hitems.
  - injection Hitems as <-. reflexivity.
  - cbn [mapM] in Hitems.
    destruct (msg_content m) as [| | | |s| |] eqn:Hc; try discriminate.
    rewrite (messageItems_string m s Hc) in Hitems. cbn [bind] in Hitems.
    apply bind_Ok in Hitems as (rest & Hrest & [= <-]).
    cbn [List.concat map app]. rewrite Hc. cbn [normalizeToString].
    f_equal. apply IH, Hrest.
Qed.

Lemma string_messages_one_item_each_witness :
  exists req,
    anthropicToAzureRequest dialogueRequest None None = Ok req
    /\ az_input req
       = [AzureMessageInput "system" [AzureTextContentBlock input_text "Be brief."];
          AzureMessageInput "user" [AzureTextContentBlock input_text "Hello"];
          AzureMessageInput "assistant" [AzureTextContentBlock output_text ""]].
Proof.
  eexists. split; [reflexivity|].
  apply (string_messages_one_item_each dialogueRequest None None _
           [ {| msg_role := "user"; msg_content := JStr "Hello" |};
             {| msg_role := "assistant"; msg_content := JStr "" |} ]
           eq_refl eq_refl).
  repeat constructor.
Defined.

Lemma normalizeItem_tool_use (item : JValue) (block : AnthropicContentBlock) :
  prop item "type" = JStr "tool_use" ->
  normalizeItem item = Ok block ->
  block = AnthropicToolUseBlock (prop item "id") (prop item "name")
            (nullish (prop item "input") (JObj [])).
Proof.
  intros Htype. destruct item as [| | | | |?|fields]; try discriminate.
  unfold normalizeItem. rewrite Htype.
  cbn [typeof truthy negb orb String.eqb Ascii.eqb Bool.eqb is_str].
  destruct (js_in "type" (JObj fields)); cbn [negb]; [|intros H; discriminate H].
  destruct (js_in "id" (JObj fields)), (js_in "name" (JObj fields));
    cbn [negb orb]; try (intros H; discriminate H).
  intros [= <-]. reflexivity.
Qed.

Lemma nullish_nullish (v : JValue) (fields : list (string * JValue)) :
  nullish (nullish v (JObj fields)) (JObj fields) = nullish v (JObj fields).
Proof. destruct v; reflexivity. Qed.

(** X3. When [anthropicToAzureRequest] succeeds, every [tool_use] block of
    every message has its function_call item among the input items, with
    the block's id as call_id, the block's name, and as arguments the JSON
    encoding of the block's input, or of [{}] when the input is absent or
    null. *)
Theorem tool_use_function_call (body : AnthropicRequest)
    (fallbackModel : option string) (options : option Options)
    (req : AzureResponsesRequestBody) (messages : list (option AnthropicMessage))
    (message : AnthropicMessage) (items : list JValue) (item : JValue) :
  anthropicToAzureRequest body fallbackModel options = Ok req ->
  req_messages body = Some messages ->
  In (Some message) messages ->
  msg_content message = JArr items ->
  In item items ->
  prop item "type" = JStr "tool_use" ->
  In (AzureFunctionCallInput (prop item "id") (prop item "name")
        (JSON_stringify (nullish (prop item "input") (JObj []))))
     (az_input req).
Proof.
  intros H Hmsgs Hmsg Hcontent Hitem Htype.
  apply anthropicToAzureRequest_Ok in H
    as (messages' & itemss & Hm & _ & Hitems & Hinput & _).
  rewrite Hmsgs in Hm. injection Hm as ->. apply In_Some_map in Hmsg.
  destruct (mapM_Ok_In _ _ _ _ Hitems Hmsg) as (its & Hits & Hin_its).
  unfold messageItems in Hits. rewrite Hcontent in Hits.
  cbn [normalizeMessageContent] in Hits.
  apply bind_Ok in Hits as (blocks & Hblocks & Hruns).
  destruct (mapM_Ok_In _ _ _ _ Hblocks Hitem) as (block & Hblock & Hin_block).
  apply (normalizeItem_tool_use _ _ Htype) in Hblock. subst block.
  apply In_runs_Single in Hin_block; [|reflexivity].
  destruct (mapM_Ok_In _ _ _ _ Hruns Hin_block) as (y & Hy & Hin_y).
  cbn [runItem] in Hy. injection Hy as <-.
  rewrite nullish_nullish in Hin_y.
  rewrite Hinput. apply in_or_app. right.
  apply in_concat. exists its. split; assumption.
Qed.

Lemma tool_use_function_call_witness :
  exists req,
    anthropicToAzureRequest toolUseRequest None None = Ok req
    /\ In (AzureFunctionCallInput (JStr "t1") (JStr "lookup")
             (JSON_stringify (JObj [])))
          (az_input req).
Proof.
  eexists. split; [reflexivity|].
  apply (tool_use_function_call toolUseRequest None None _
           [Some toolUseMessage] toolUseMessage [lookupToolUse] lookupToolUse
           eq_refl eq_refl (or_introl eq_refl) eq_refl (or_introl eq_refl) eq_refl).
Defined.

Lemma runItem_textMessageItem (role : string) (r : Run) (item : AzureInputItem) :
  runItem role r = Ok item -> textMessageItem item.
Proof.
  destruct r as [texts|[text|tid name inp|tid cont text err status]];
    cbn [runItem].
  - intros [= <-]. cbn. eauto.
  - intros [= <-]. cbn. eauto.
  - intros [= <-]. exact I.
  - intros H. apply bind_Ok in H as (out & _ & [= <-]). exact I.
Qed.

(** X4. Every message item of a translated request carries exactly one text
    entry, typed output_text when the item's role is assistant and
    input_text otherwise (the system item included): no item is empty and
    none carries a tool_calls block. *)
Theorem message_items_single_text (body : AnthropicRequest)
    (fallbackModel : option string) (options : option Options)
    (req : AzureResponsesRequestBody) :
  anthropicToAzureRequest body fallbackModel options = Ok req ->
  Forall textMessageItem (az_input req).
Proof.
  intros H.
  apply anthropicToAzureRequest_Ok in H as (messages & itemss & _ & _ & Hitems & -> & _).
  apply List.Forall_app. split.
  - unfold systemItems. destruct (truthy (req_system body)); repeat constructor.
    cbn. eauto.
  - apply List.Forall_concat.
    apply (mapM_Forall messageItems (Forall textMessageItem) messages itemss);
      [|exact Hitems].
    intros m items Hm. unfold messageItems in Hm.
    apply bind_Ok in Hm as (blocks & _ & Hruns).
    apply (mapM_Forall (runItem (msg_role m)) textMessageItem _ _
             (runItem_textMessageItem (msg_role m)) Hruns).
Qed.

Lemma message_items_single_text_witness :
  exists req,
    anthropicToAzureRequest mergeRequest None None = Ok req
    /\ Forall textMessageItem (az_input req).
Proof.
  eexists. split; [reflexivity|].
  apply (message_items_single_text mergeRequest None None _ eq_refl).
Defined.

Lemma mapM_Forall2 {A B : Type} (f : A -> result B) (R : A -> B -> Prop)
    (l : list A) (ys : list B) :
  (forall x y, f x = Ok y -> R x y) -> mapM f l = Ok ys -> Forall2 R l ys.
Proof.
  intros Hf. revert ys. induction l as [|x l IH]; intros ys H.
  - injection H as <-. constructor.
  - cbn [mapM] in H. apply bind_Ok in H as (y & Hy & H).
    apply bind_Ok in H as (ys' & Hys & H). injection H as <-.
    constructor; [apply Hf, Hy | apply IH, Hys].
Qed.

Lemma is_num_eq (v : JValue) (n : Z) : is_num v n = true <-> v = JNum n.
Proof.
  destruct v; cbn [is_num]; split; try discriminate.
  - intros H. apply Z.eqb_eq in H. congruence.
  - intros [= ->]. apply Z.eqb_refl.
Qed.

Lemma toolToAzure_Ok (tool : JValue) (azureTool : AzureToolDefinition) :
  toolToAzure tool = Ok azureTool -> translatedTool tool azureTool.
Proof.
  unfold toolToAzure, translatedTool.
  destruct (isNullish tool); [discriminate|]. intros [= <-].
  cbn [az_tool_type az_tool_name az_tool_description az_tool_parameters].
  repeat apply conj; try reflexivity.
  - intros -> Hkeys. cbn [andb].
    destruct (keyCount (prop tool "input_schema")); [contradiction | reflexivity].
  - intros [-> | ->]; [reflexivity|]. rewrite andb_false_r. reflexivity.
Qed.

(** Inversion of a translation that returns tools. *)
Lemma anthropicToolsToAzure_Some (tools : JValue)
    (azureTools : list AzureToolDefinition) :
  anthropicToolsToAzure tools = Ok (Some azureTools) ->
  exists items,
    tools = JArr items /\ items <> [] /\ Forall2 translatedTool items azureTools.
Proof.
  unfold anthropicToolsToAzure.
  destruct (negb (truthy tools) || is_num (js_length tools) 0) eqn:Hnone;
    [discriminate|].
  destruct tools as [| | | | |items|]; try discriminate.
  intros H. apply bind_Ok in H as (translated & Hitems & [= <-]).
  exists items. repeat split.
  - intros ->. discriminate Hnone.
  - apply (mapM_Forall2 toolToAzure translatedTool _ _ toolToAzure_Ok Hitems).
Qed.

(** X5. [anthropicToolsToAzure] returns nothing exactly when the tools are
    falsy or have the length 0.  It throws exactly when the tools are
    truthy, their length is not 0, and they are not an array or hold a
    null or undefined entry.  Otherwise the tools are an array that is not
    empty and it returns one function definition per entry, in order,
    with the entry's name and description; the parameters are the entry's
    input_schema when that is truthy and has a key, and exactly the schema
    [{type: 'object', properties: {}}] when it is not. *)
Theorem tools_translated (tools : JValue) :
  (anthropicToolsToAzure tools = Ok None
   <-> truthy tools = false \/ js_length tools = JNum 0)
  /\ ((exists e, anthropicToolsToAzure tools = Throw e)
      <-> truthy tools = true /\ js_length tools <> JNum 0
          /\ (isArray tools = false
              \/ exists items,
                   tools = JArr items
                   /\ Exists (fun tool => isNullish tool = true) items))
  /\ (forall azureTools,
        anthropicToolsToAzure tools = Ok (Some azureTools) ->
        exists items,
          tools = JArr items /\ items <> []
          /\ Forall2 translatedTool items azureTools).
Proof.
  assert (Hnone : negb (truthy tools) || is_num (js_length tools) 0 = true
                  <-> truthy tools = false \/ js_length tools = JNum 0).
  { rewrite orb_true_iff, negb_true_iff, is_num_eq. reflexivity. }
  assert (Hnulls : forall items,
             succeeds (mapM toolToAzure items) = false
             <-> Exists (fun tool => isNullish tool = true) items).
  { intros items. rewrite succeeds_mapM. induction items as [|tool rest IH].
    - split; [discriminate | intros H; inversion H].
    - cbn [forallb]. rewrite andb_false_iff, IH, List.Exists_cons.
      unfold toolToAzure. destruct (isNullish tool); cbn [succeeds];
        intuition congruence. }
  split; [|split].
  - rewrite <- Hnone. clear Hnone Hnulls. unfold anthropicToolsToAzure.
    destruct (negb (truthy tools) || is_num (js_length tools) 0);
      [split; reflexivity|].
    split; intros H; [exfalso | discriminate H].
    destruct tools as [| | | | |items|]; try discriminate H.
    destruct (mapM toolToAzure items); discriminate H.
  - unfold anthropicToolsToAzure.
    destruct (negb (truthy tools) || is_num (js_length tools) 0) eqn:Hcond.
    + split; [intros (e & H); discriminate H|].
      intros (Htruthy & Hlength & _).
      destruct (proj1 Hnone eq_refl) as [H | H]; congruence.
    + apply orb_false_iff in Hcond as [Htruthy Hlength].
      apply negb_false_iff in Htruthy.
      assert (Hlength' : js_length tools <> JNum 0).
      { intros H. apply is_num_eq in H. congruence. }
      destruct tools as [| | | | |items|];
        try (split; [auto | intros _; eexists; reflexivity]).
      specialize (Hnulls items).
      destruct (mapM toolToAzure items) as [translated|e]; cbn [bind succeeds] in *.
      * split; [intros (e & H); discriminate H|].
        intros (_ & _ & [H | (items' & [= <-] & H)]); [discriminate H|].
        apply Hnulls in H. discriminate H.
      * split; [|intros _; eexists; reflexivity].
        intros _. repeat split; [assumption|]. right. exists items.
        split; [reflexivity|]. apply Hnulls. reflexivity.
  - apply anthropicToolsToAzure_Some.
Qed.

Lemma tools_translated_witness :
  exists lookup search,
    anthropicToolsToAzure (JArr [lookupTool; searchTool]) = Ok (Some [lookup; search])
    /\ az_tool_parameters lookup
       = JObj [("type", JStr "object"); ("properties", JObj [])]
    /\ az_tool_parameters search = searchSchema.
Proof.
  eexists. eexists. split; [reflexivity|].
  destruct (proj2 (proj2 (tools_translated (JArr [lookupTool; searchTool]))) _ eq_refl)
    as (items & [= <-] & _ & Htools).
  inversion Htools as [|? ? ? ? (_ & _ & _ & _ & _ & Hlookup) Hrest]; subst.
  inversion Hrest as [|? ? ? ? (_ & _ & _ & _ & Hsearch & _) _]; subst.
  split.
  - apply Hlookup. right. reflexivity.
  - apply Hsearch; [reflexivity | discriminate].
Defined.

Lemma anthropicToolChoiceToAzure_range (toolChoice : option AnthropicToolChoice) :
  (forall s, anthropicToolChoiceToAzure toolChoice = Some (AzureChoiceLiteral s) ->
             s = "auto" \/ s = "none" \/ s = "required")
  /\ (forall name,
        anthropicToolChoiceToAzure toolChoice = Some (AzureChoiceFunction name)
        <-> toolChoice = Some (ChoiceObject "tool" name)).
Proof.
  split.
  - intros s. destruct toolChoice as [[c|type name]|]; cbn; try discriminate.
    + repeat (match goal with
              | |- context [String.eqb c ?l] =>
                  destruct (String.eqb c l); try discriminate
              end);
        intros [= <-]; auto.
    + destruct (String.eqb type "tool"); discriminate.
  - intros name. destruct toolChoice as [[c|type name']|]; cbn.
    + split; [|discriminate].
      repeat (match goal with
              | |- context [String.eqb c ?l] =>
                  destruct (String.eqb c l); try discriminate
              end).
    + destruct (String.eqb_spec type "tool") as [->|Hne]; split.
      * intros [= ->]. reflexivity.
      * intros [= ->]. reflexivity.
      * discriminate.
      * intros [= -> _]. contradiction.
    + split; discriminate.
Qed.

(** X6. A translated request never carries an optional field that is empty:
    the model is not the empty string; [stop] and [tools] are absent
    rather than empty lists; a reasoning effort is not blank; a literal
    tool choice is one of auto, none and required (Anthropic's [any]
    becomes [required]), and a function tool choice comes from a choice
    object of type tool with the same name. *)
Theorem request_fields_never_empty (body : AnthropicRequest)
    (fallbackModel : option string) (options : option Options)
    (req : AzureResponsesRequestBody) :
  anthropicToAzureRequest body fallbackModel options = Ok req ->
  az_model req <> ""
  /\ az_stop req <> Some []
  /\ az_tools req <> Some []
  /\ (forall reasoning, az_reasoning req = Some reasoning ->
                        trim (az_effort reasoning) <> "")
  /\ (forall s, az_tool_choice req = Some (AzureChoiceLiteral s) ->
                s = "auto" \/ s = "none" \/ s = "required")
  /\ (req_tool_choice body = Some (ChoiceLiteral "any") ->
      az_tool_choice req = Some (AzureChoiceLiteral "required"))
  /\ (forall name, az_tool_choice req = Some (AzureChoiceFunction name) ->
                   req_tool_choice body = Some (ChoiceObject "tool" name)).
Proof.
  intros H.
  destruct (anthropicToAzureRequest_fields _ _ _ _ H)
    as (Hstop & Htools & Hchoice & _).
  apply anthropicToAzureRequest_Ok in H
    as (_ & _ & _ & _ & _ & _ & _ & Hmodel & Hreasoning).
  repeat apply conj.
  - exact Hmodel.
  - rewrite Hstop. destruct (req_stop_sequences body) as [[|s rest]|]; discriminate.
  - intros Hempty. rewrite Hempty in Htools.
    apply anthropicToolsToAzure_Some in Htools as (items & _ & Hne & Hall).
    inversion Hall. subst. contradiction.
  - intros [s] Hr. rewrite Hreasoning in Hr.
    apply azureReasoning_Some in Hr as [_ Hne]. exact Hne.
  - intros s Hs. rewrite Hchoice in Hs.
    apply (proj1 (anthropicToolChoiceToAzure_range _) s Hs).
  - intros Hany. rewrite Hchoice, Hany. reflexivity.
  - intros name Hn. rewrite Hchoice in Hn.
    apply (proj2 (anthropicToolChoiceToAzure_range _) name), Hn.
Qed.

Lemma request_fields_never_empty_witness :
  exists req,
    anthropicToAzureRequest dialogueRequest None None = Ok req
    /\ az_stop req <> Some [] /\ az_tools req <> Some [].
Proof.
  eexists. split; [reflexivity|].
  destruct (request_fields_never_empty dialogueRequest None None _ eq_refl)
    as (_ & Hstop & Htools & _).
  split; assumption.
Defined.

(** *** String coercion *)

Lemma append_empty_r (s : string) : s +:+ "" = s.
Proof.
  induction s as [|c s IH]; [reflexivity|].
  change (String c (s +:+ "") = String c s). f_equal. exact IH.
Qed.

Lemma append_associative (s t u : string) : (s +:+ t) +:+ u = s +:+ (t +:+ u).
Proof.
  induction s as [|c s IH]; [reflexivity|].
  change (String c ((s +:+ t) +:+ u) = String c (s +:+ (t +:+ u))).
  f_equal. exact IH.
Qed.

Lemma join_cons (s : string) (l : list string) :
  String.concat "" (s :: l) = s +:+ String.concat "" l.
Proof.
  destruct l as [|t l]; [|reflexivity].
  cbn [String.concat]. rewrite append_empty_r. reflexivity.
Qed.

Lemma join_app (l1 l2 : list string) :
  String.concat "" (l1 ++ l2) = String.concat "" l1 +:+ String.concat "" l2.
Proof.
  induction l1 as [|s l1 IH]; [reflexivity|].
  cbn [app]. rewrite !join_cons, IH, append_associative. reflexivity.
Qed.

(** X7. [normalizeToString] reads an array as the concatenation of its
    entries, however they are nested: it distributes over appending
    arrays, an array of arrays reads as the flattened array, and an array
    of strings reads as the strings joined without separator. *)
Theorem normalizeToString_flattens :
  (forall xs ys,
      normalizeToString (JArr (xs ++ ys))
      = normalizeToString (JArr xs) +:+ normalizeToString (JArr ys))
  /\ (forall xss,
        normalizeToString (JArr (map JArr xss))
        = normalizeToString (JArr (List.concat xss)))
  /\ (forall ss, normalizeToString (JArr (map JStr ss)) = String.concat "" ss).
Proof.
  assert (Happ : forall xs ys,
             normalizeToString (JArr (xs ++ ys))
             = normalizeToString (JArr xs) +:+ normalizeToString (JArr ys)).
  { intros xs ys. cbn [normalizeToString]. rewrite map_app. apply join_app. }
  repeat apply conj.
  - exact Happ.
  - induction xss as [|xs xss IH]; [reflexivity|].
    cbn [map List.concat]. rewrite Happ, <- IH.
    change (JArr xs :: map JArr xss) with ([JArr xs] ++ map JArr xss).
    rewrite Happ. f_equal.
  - induction ss as [|s ss IH]; [reflexivity|].
    change (map JStr (s :: ss)) with ([JStr s] ++ map JStr ss).
    rewrite Happ, IH, join_cons. reflexivity.
Qed.

(** *** The seen-set and the stop reason of the response translator *)

Section ResponseInvariants.

Context {parser : JsonParser}.

(** X8. Whatever the output items, when the loop of
    [azureToAnthropicResponse] ends the seen-set holds exactly the ids of
    the ToolUse blocks produced, whether they come from a message or from
    a top-level function call. *)
Theorem seen_set_is_the_tool_use_ids
    (output : list (option AzureResponseOutputItem)) (st : Translation) (id : string) :
  translateOutput output = Ok st ->
  id ∈ processedToolCallIds st <-> In id (toolUseIds (contentBlocks st)).
Proof.
  intros H. apply (seenInvariant_translateOutput output st H).
Qed.

(** X9. Every tool call of a message item gives its own ToolUse block in
    the content of the response.  A top-level function call gives its own
    ToolUse block unless a ToolUse block with its resolved id (call_id,
    else id, else name) comes from the items before it; then the call is
    dropped, whatever its name and arguments: the response is the one of
    the output without it.  Either way a ToolUse block of the response
    carries the resolved id of the call. *)
Theorem every_call_has_a_block (data : AzureResponsesResponseBody)
    (requestedModel : string) (response : AnthropicResponse)
    (output : list (option AzureResponseOutputItem)) :
  azureToAnthropicResponse data requestedModel = Ok response ->
  resp_output data = Some output ->
  (forall message blocks calls call,
      In (Some (OutputMessage message)) output ->
      out_msg_content message = Some blocks ->
      In (Some (AzureToolCallBlock (Some calls))) blocks ->
      In (Some call) calls ->
      In (toolUseOf call) (content response)
      /\ In (nullish_opt (tc_id call) (toolCallName call))
           (toolUseIds (content response)))
  /\ (forall pre call post before,
        output = pre ++ Some (OutputFunctionCall call) :: post ->
        azureToAnthropicResponse (setOutput data pre) requestedModel = Ok before ->
        (In (functionCallResolvedId call) (toolUseIds (content before))
         /\ azureToAnthropicResponse (setOutput data (pre ++ post)) requestedModel
            = Ok response)
        \/ (~ In (functionCallResolvedId call) (toolUseIds (content before))
            /\ In (toolUseOfFunctionCall call) (content response)))
  /\ (forall call,
        In (Some (OutputFunctionCall call)) output ->
        In (nullish_opt (nullish_chain (fc_call_id call) (fc_id call))
              (functionCallName call))
           (toolUseIds (content response))).
Proof.
  intros H Hout.
  assert (Hids : forall block id,
             In block (content response) ->
             toolUseIds [block] = [id] ->
             In id (toolUseIds (content response))).
  { intros block id Hin Hid. apply in_split in Hin as (l1 & l2 & ->).
    change (block :: l2) with ([block] ++ l2).
    rewrite !toolUseIds_app, Hid. apply in_or_app. right. left. reflexivity. }
  split; [|split].
  - intros message blocks calls call Hmessage Hblocks Hblock Hcall.
    assert (Hin : In (toolUseOf call) (content response)).
    { apply (message_blocks_in_content _ _ _ _ _ _ H Hout Hmessage).
      apply (In_toolUseOf _ _ _ _ Hblocks Hblock Hcall). }
    split; [exact Hin|]. apply (Hids (toolUseOf call) _ Hin). reflexivity.
  - intros pre call post before -> Hbefore.
    apply (function_call_dropped_or_translated _ _ _ _ _ _ _ H Hout Hbefore).
  - intros call Hin.
    destruct (azureToAnthropicResponse_Ok _ _ _ H) as (st & Hst & _).
    rewrite (proj1 (toolUseIds_content _ _ _ _ H Hst)).
    apply (seenInvariant_translateOutput _ _ Hst).
    rewrite Hout in Hst. cbn [nullish_opt] in Hst.
    apply in_split in Hin as (pre & post & ->).
    apply translateOutput_split in Hst as (st1 & st2 & _ & H2 & Hpost).
    apply (proj2 (translateOutputItems_grow _ _ _ Hpost)).
    cbn [translateOutputItem] in H2. injection H2 as <-.
    destruct (translateFunctionCall_cases call st1 _ eq_refl)
      as [[Hin' ->] | (_ & _ & -> & _)];
      rewrite functionCallId_resolved in *; [exact Hin'|].
    apply elem_of_union_l, elem_of_singleton. reflexivity.
Qed.

Lemma stopReason_stable (item : option AzureResponseOutputItem) (st st' : Translation) :
  translateOutputItem st item = Ok st' ->
  falsy (stopReason st) = false ->
  stopReason st' = stopReason st.
Proof.
  intros Hitem H. destruct item as [[message|call|type]|];
    cbn [translateOutputItem] in Hitem; try (injection Hitem as <-; reflexivity).
  - destruct (translateOutputMessage_spec _ _ _ Hitem) as (_ & _ & _ & ->).
    rewrite H. reflexivity.
  - injection Hitem as <-.
    destruct (translateFunctionCall_cases call st _ eq_refl)
      as [[_ ->] | (_ & _ & _ & ->)]; [reflexivity|].
    rewrite H. reflexivity.
Qed.

Lemma stopReason_stable_items (items : list (option AzureResponseOutputItem))
    (st st' : Translation) :
  foldM translateOutputItem items st = Ok st' ->
  falsy (stopReason st) = false ->
  stopReason st' = stopReason st.
Proof.
  intros Hitems H.
  apply (foldM_invariant translateOutputItem
           (fun s => stopReason s = stopReason st) items) with (s := st);
    [|reflexivity|exact Hitems].
  intros s x s' Hs Hx. rewrite <- Hs. apply (stopReason_stable x s s' Hx).
  rewrite Hs. exact H.
Qed.

Lemma ignored_items_skipped (items : list (option AzureResponseOutputItem)) :
  forallb ignoredItem items = true ->
  forall st, foldM translateOutputItem items st = Ok st.
Proof.
  induction items as [|item rest IH]; intros H st; [reflexivity|].
  cbn [forallb] in H. apply andb_prop in H as [Hi Hrest].
  cbn [foldM]. destruct item as [[message|call|type]|]; try discriminate;
    cbn [translateOutputItem bind]; apply IH, Hrest.
Qed.

Lemma mapStopReason_truthy (responseStopReason : option string) (hasToolCall : bool) :
  falsy (Some (mapStopReason responseStopReason hasToolCall)) = false.
Proof.
  unfold mapStopReason.
  destruct responseStopReason as [s|]; cbn [falsy negb nullish_opt].
  - destruct (String.eqb s "") eqn:Hs; cbn [negb]; [|exact Hs].
    destruct hasToolCall; reflexivity.
  - destruct hasToolCall; reflexivity.
Qed.

Lemma size_pos_iff (seen : gset string) :
  (0 <? size seen)%nat = true <-> exists id, id ∈ seen.
Proof.
  rewrite Nat.ltb_lt. split.
  - apply size_pos_elem_of.
  - intros (id & Hid).
    destruct (size seen) eqn:Hsize; [|apply Nat.lt_0_succ].
    apply size_empty_iff in Hsize. rewrite Hsize in Hid.
    apply not_elem_of_empty in Hid. destruct Hid.
Qed.

Lemma existsb_isToolUse (blocks : list AnthropicContentBlock) :
  Forall translatedBlock blocks ->
  existsb isToolUse blocks = true <-> exists id, In id (toolUseIds blocks).
Proof.
  induction 1 as [|b rest Hb Hrest IH].
  - cbn. split; [discriminate | intros (id & [])].
  - cbn [existsb]. change (b :: rest) with ([b] ++ rest).
    rewrite toolUseIds_app, orb_true_iff, IH.
    destruct b as [text|[| | | |id| |] [| | | |name| |] inp|]; try destruct Hb; cbn.
    + split.
      * intros [H|(id & H)]; [discriminate | eauto].
      * intros (id & H). right. eauto.
    + split; [intros _; eauto | intros _; left; reflexivity].
Qed.

(** X10. The stop reason is fixed by the first output item that is a message
    or a function call, whatever follows it.  A function call gives
    ["tool_use"].  A message gives its own stop_reason when it has a
    non-empty one, else ["tool_use"] when the message itself has a tool
    call, else ["end_turn"].  Without such an item the stop reason is
    ["end_turn"]. *)
Theorem first_item_decides_stop_reason (data : AzureResponsesResponseBody)
    (requestedModel : string) (response : AnthropicResponse)
    (pre rest : list (option AzureResponseOutputItem))
    (first : option AzureResponseOutputItem) :
  azureToAnthropicResponse data requestedModel = Ok response ->
  forallb ignoredItem pre = true ->
  (resp_output data = Some (pre ++ first :: rest) ->
   forall call, first = Some (OutputFunctionCall call) ->
   stop_reason response = Some "tool_use")
  /\ (resp_output data = Some (pre ++ first :: rest) ->
      forall message, first = Some (OutputMessage message) ->
      stop_reason response
      = Some (mapStopReason (out_msg_stop_reason message)
                (existsb isToolUse (outputMessageBlocks message))))
  /\ (resp_output data = Some pre \/ resp_output data = None ->
      stop_reason response = Some "end_turn").
Proof.
  intros H Hpre.
  destruct (azureToAnthropicResponse_Ok _ _ _ H) as (st & Hst & _ & Hstop & _).
  assert (Hdecided : resp_output data = Some (pre ++ first :: rest) ->
             exists st1,
               translateOutputItem initialTranslation first = Ok st1
               /\ (falsy (stopReason st1) = false ->
                   stop_reason response = stopReason st1)).
  { intros Hout. rewrite Hout in Hst. cbn [nullish_opt] in Hst.
    apply translateOutput_split in Hst as (st0 & st1 & Hst0 & Hfirst & Hrest).
    unfold translateOutput in Hst0.
    rewrite (ignored_items_skipped pre Hpre) in Hst0. injection Hst0 as <-.
    exists st1. split; [exact Hfirst|]. intros Hfalsy.
    rewrite Hstop, (stopReason_stable_items rest st1 st Hrest Hfalsy), Hfalsy.
    reflexivity. }
  repeat apply conj.
  - intros Hout call ->.
    destruct (Hdecided Hout) as (st1 & [= <-] & Hreason).
    rewrite Hreason; reflexivity.
  - intros Hout message ->.
    destruct (Hdecided Hout) as (st1 & Hmessage & Hreason).
    cbn [translateOutputItem] in Hmessage.
    pose proof (seenInvariant_message _ _ _ Hmessage seenInvariant_initial)
      as [Hseen Hshape].
    destruct (translateOutputMessage_spec _ _ _ Hmessage) as (Hb & _ & _ & Hs).
    cbn [initialTranslation stopReason falsy contentBlocks app] in Hs, Hb.
    rewrite Hb in Hshape, Hseen.
    assert (Hhas : (0 <? size (processedToolCallIds st1))%nat
                   = existsb isToolUse (outputMessageBlocks message)).
    { apply eq_true_iff_eq. rewrite size_pos_iff, (existsb_isToolUse _ Hshape).
      split; intros (id & Hid); exists id; apply Hseen, Hid. }
    rewrite Hhas in Hs. rewrite Hreason; rewrite Hs;
      [reflexivity | apply mapStopReason_truthy].
  - intros Hout. rewrite Hstop.
    assert (Hinit : translateOutput (nullish_opt (resp_output data) [])
                    = Ok initialTranslation).
    { destruct Hout as [-> | ->]; cbn [nullish_opt]; unfold translateOutput;
        [apply (ignored_items_skipped pre Hpre) | reflexivity]. }
    rewrite Hinit in Hst. injection Hst as <-. reflexivity.
Qed.

(** X11. A response always has a stop reason that is a non-empty string and
    no stop sequence, and its content holds only Text blocks and ToolUse
    blocks whose id and name are strings: never a ToolResult block. *)
Theorem response_well_formed (data : AzureResponsesResponseBody)
    (requestedModel : string) (response : AnthropicResponse) :
  azureToAnthropicResponse data requestedModel = Ok response ->
  (exists reason, stop_reason response = Some reason /\ reason <> "")
  /\ stop_sequence response = None
  /\ Forall translatedBlock (content response).
Proof.
  intros H.
  destruct (azureToAnthropicResponse_Ok _ _ _ H)
    as (st & Hst & Hcontent & Hstop & Hsequence & _).
  repeat apply conj.
  - rewrite Hstop. destruct (stopReason st) as [s|]; cbn [falsy].
    + destruct (String.eqb_spec s "") as [->|Hne].
      * exists "end_turn". split; [reflexivity | discriminate].
      * exists s. split; [reflexivity | exact Hne].
    + exists "end_turn". split; [reflexivity | discriminate].
  - exact Hsequence.
  - rewrite Hcontent.
    pose proof (seenInvariant_translateOutput _ _ Hst) as [_ Hshape].
    destruct (contentBlocks st); [repeat constructor | exact Hshape].
Qed.

Lemma functionCalls_distinct (items : list (option AzureResponseOutputItem)) :
  forallb (fun item => ignoredItem item || isFunctionCall item) items = true ->
  forall st,
    seenInvariant st ->
    NoDup (toolUseIds (contentBlocks st)) ->
    exists st',
      foldM translateOutputItem items st = Ok st'
      /\ NoDup (toolUseIds (contentBlocks st')).
Proof.
  induction items as [|item rest IH]; intros Hall st Hinv Hnd; [eauto|].
  cbn [forallb] in Hall. apply andb_prop in Hall as [Hitem Hrest].
  cbn [foldM].
  assert (Hstep : exists st1,
             translateOutputItem st item = Ok st1
             /\ NoDup (toolUseIds (contentBlocks st1))).
  { destruct item as [[message|call|type]|]; try discriminate;
      cbn [translateOutputItem]; eauto.
    eexists. split; [reflexivity|].
    destruct (translateFunctionCall_cases call st _ eq_refl)
      as [[_ ->] | (Hfresh & -> & _)]; [exact Hnd|].
    rewrite toolUseIds_app. cbn.
    apply NoDup_app. repeat split; [exact Hnd | | apply NoDup_singleton].
    intros id Hid Hid'. apply list_elem_of_singleton in Hid'. subst id.
    apply Hfresh. apply (proj1 Hinv). apply list_elem_of_In. exact Hid. }
  destruct Hstep as (st1 & Hst1 & Hnd1). rewrite Hst1. cbn [bind].
  apply (IH Hrest); [apply (seenInvariant_item _ _ _ Hst1 Hinv) | exact Hnd1].
Qed.

(** X12. When the output holds top-level function calls only (besides items
    that are passed over), the result is translated and the ToolUse blocks
    of the response have pairwise distinct ids: a call that repeats an id
    is dropped. *)
Theorem function_calls_never_repeat (data : AzureResponsesResponseBody)
    (requestedModel : string) (output : list (option AzureResponseOutputItem)) :
  resp_output data = Some output ->
  forallb (fun item => ignoredItem item || isFunctionCall item) output = true ->
  exists response,
    azureToAnthropicResponse data requestedModel = Ok response
    /\ NoDup (toolUseIds (content response)).
Proof.
  intros Hout Hall.
  destruct (functionCalls_distinct output Hall initialTranslation
              seenInvariant_initial NoDup_nil_2) as (st & Hst & Hnd).
  assert (Hst' : translateOutput (nullish_opt (resp_output data) []) = Ok st)
    by (rewrite Hout; exact Hst).
  destruct (azureToAnthropicResponse_translated data requestedModel st Hst')
    as (response & Hresponse).
  exists response. split; [exact Hresponse|].
  rewrite (proj1 (toolUseIds_content _ _ _ _ Hresponse Hst')). exact Hnd.
Qed.

End ResponseInvariants.

Lemma seen_set_is_the_tool_use_ids_witness :
  exists st,
    translateOutput (parser := rejectAll)
      [functionCall (Some "call_1") None (Some "lookup") None;
       functionCall (Some "call_1") None (Some "lookup") None]
    = Ok st
    /\ ("call_2" ∈ processedToolCallIds st
        <-> In "call_2" (toolUseIds (contentBlocks st))).
Proof.
  destruct (translateOutput (parser := rejectAll)
              [functionCall (Some "call_1") None (Some "lookup") None;
               functionCall (Some "call_1") None (Some "lookup") None])
    as [st|e] eqn:Hst; [|discriminate Hst].
  exists st. split; [reflexivity|].
  apply (seen_set_is_the_tool_use_ids (parser := rejectAll) _ st "call_2" Hst).
Defined.

Lemma every_call_has_a_block_witness :
  exists response,
    azureToAnthropicResponse (parser := rejectAll) repeatedFunctionCalls "gpt-5-codex"
    = Ok response
    /\ In "call_1" (toolUseIds (content response)).
Proof.
  eexists. split; [reflexivity|].
  apply (proj2 (proj2 (every_call_has_a_block (parser := rejectAll)
                         repeatedFunctionCalls "gpt-5-codex" _ _ eq_refl eq_refl))
           {| fc_id := None; fc_call_id := Some "call_1"; fc_name := Some "lookup";
              fc_arguments := None |}).
  right. right. left. reflexivity.
Defined.

Lemma first_item_decides_stop_reason_witness :
  exists response,
    azureToAnthropicResponse (parser := rejectAll) stoppedThenCall "gpt-5-codex"
    = Ok response
    /\ stop_reason response = Some "max_tokens".
Proof.
  eexists. split; [reflexivity|].
  apply (proj1 (proj2 (first_item_decides_stop_reason (parser := rejectAll)
                         stoppedThenCall "gpt-5-codex" _
                         [None; Some (OutputOther "reasoning")]
                         [functionCall (Some "call_1") None (Some "lookup") None]
                         (Some (OutputMessage stoppedMessage)) eq_refl eq_refl))
           eq_refl stoppedMessage eq_refl).
Defined.

Lemma response_well_formed_witness :
  exists response,
    azureToAnthropicResponse (parser := rejectAll) stoppedThenCall "gpt-5-codex"
    = Ok response
    /\ Forall translatedBlock (content response).
Proof.
  eexists. split; [reflexivity|].
  apply (response_well_formed (parser := rejectAll) stoppedThenCall "gpt-5-codex"
           _ eq_refl).
Defined.

Lemma function_calls_never_repeat_witness :
  exists response,
    azureToAnthropicResponse (parser := rejectAll) repeatedFunctionCalls "gpt-5-codex"
    = Ok response
    /\ NoDup (toolUseIds (content response)).
Proof.
  apply (function_calls_never_repeat (parser := rejectAll) repeatedFunctionCalls
           "gpt-5-codex" _ eq_refl eq_refl).
Defined.

(** *** Transport effects of the stream emitter *)

Lemma emitted_refl (res : ServerResponse) : emitted 0 res res.
Proof. unfold emitted. destruct (hasFlush res); repeat split; lia. Qed.

Lemma emitted_write (events : nat) (res0 res : ServerResponse) (event : string)
    (data : JValue) :
  emitted events res0 res ->
  emitted (S events) res0 (writeSseEvent res event data).
Proof.
  intros (Hf & Hh & Hc & Hw & Hfl). unfold emitted, writeSseEvent.
  cbn [hasFlush res_write]. rewrite Hf.
  destruct (hasFlush res0);
    cbn [hasFlush headers statusCode written flushes res_flush res_write];
    rewrite !length_app; cbn [List.length];
    repeat split; try assumption; lia.
Qed.

Lemma emitted_streamBlock (events : nat) (res0 res : ServerResponse)
    (block : AnthropicContentBlock) (index : nat) :
  emitted events res0 res ->
  exists more : nat,
    (2 <= more <= 3)%nat
    /\ emitted (events + more) res0 (streamBlock res block index).
Proof.
  intros H. unfold streamBlock.
  destruct block as [[|c text]| |]; cbn [String.length Nat.ltb Nat.leb].
  - exists 2%nat. split; [lia|]. rewrite Nat.add_succ_r, Nat.add_1_r.
    apply emitted_write, emitted_write, H.
  - exists 3%nat. split; [lia|]. rewrite !Nat.add_succ_r, Nat.add_0_r.
    apply emitted_write, emitted_write, emitted_write, H.
  - exists 3%nat. split; [lia|]. rewrite !Nat.add_succ_r, Nat.add_0_r.
    apply emitted_write, emitted_write, emitted_write, H.
  - exists 2%nat. split; [lia|]. rewrite Nat.add_succ_r, Nat.add_1_r.
    apply emitted_write, emitted_write, H.
Qed.

Lemma emitted_forEach (blocks : list AnthropicContentBlock) :
  forall (index events : nat) (res0 res : ServerResponse),
    emitted events res0 res ->
    exists more : nat,
      (2 * List.length blocks <= more <= 3 * List.length blocks)%nat
      /\ emitted (events + more) res0 (forEach streamBlock blocks index res).
Proof.
  induction blocks as [|b rest IH]; intros index events res0 res H.
  - exists 0%nat. split; [cbn; lia|]. rewrite Nat.add_0_r. exact H.
  - cbn [forEach].
    destruct (emitted_streamBlock events res0 res b index H) as (j & Hj & H1).
    destruct (IH (S index) _ _ _ H1) as (k & Hk & H2).
    exists (j + k)%nat. split; [cbn [List.length]; lia|].
    rewrite Nat.add_assoc. exact H2.
Qed.

(** X13. On the transport, [streamAnthropicResponse] sets the status 200, adds
    the three event-stream headers, and for each event makes two writes
    and, where the response object can flush, one flush; for a response of
    [n] content blocks it sends between [2n + 3] and [3n + 3] events, and
    it ends the response. *)
Theorem stream_transport_effects (res : ServerResponse) (response : AnthropicResponse) :
  exists events : nat,
    (2 * List.length (content response) + 3 <= events
     <= 3 * List.length (content response) + 3)%nat
    /\ List.length (written (streamAnthropicResponse res response))
       = (List.length (written res) + 2 * events)%nat
    /\ flushes (streamAnthropicResponse res response)
       = (flushes res + if hasFlush res then events else 0)%nat
    /\ headers (streamAnthropicResponse res response)
       = headers res
           ++ [("Content-Type", "text/event-stream");
               ("Cache-Control", "no-cache, no-transform");
               ("Connection", "keep-alive")]
    /\ statusCode (streamAnthropicResponse res response) = Some 200%Z
    /\ ended (streamAnthropicResponse res response) = true.
Proof.
  unfold streamAnthropicResponse.
  set (res0 := res_setHeader
                 (res_setHeader
                    (res_setHeader (res_status res 200) "Content-Type"
                       "text/event-stream")
                    "Cache-Control" "no-cache, no-transform")
                 "Connection" "keep-alive").
  match goal with
  | |- context [forEach streamBlock (content response) 0 ?r] =>
      destruct (emitted_forEach (content response) 0 1 res0 r
                  (emitted_write 0 res0 res0 _ _ (emitted_refl res0)))
        as (more & Hmore & H)
  end.
  apply (emitted_write _ _ _ "message_delta"
           (JObj [("type", JStr "message_delta");
                  ("delta",
                   JObj [("stop_reason", stringOrNull (stop_reason response));
                         ("stop_sequence", stringOrNull (stop_sequence response))]);
                  ("usage", usageObject (usage response))])) in H.
  apply (emitted_write _ _ _ "message_stop" (JObj [("type", JStr "message_stop")]))
    in H.
  destruct H as (Hf & Hh & Hc & Hw & Hfl).
  exists (S (S (1 + more))). cbn [res_end written flushes headers statusCode ended].
  rewrite Hw, Hfl, Hh, Hc. subst res0.
  cbn [written flushes headers statusCode hasFlush res_setHeader res_status].
  rewrite <- !app_assoc. repeat split; try reflexivity; lia.
Qed.

(** *** The [/v1/messages] handler *)

Lemma substring_all (s : string) : String.substring 0 (String.length s) s = s.
Proof.
  induction s as [|c s IH]; [reflexivity|].
  cbn [String.length String.substring]. f_equal. exact IH.
Qed.

(** X14. The token is taken from the [x-api-key] header whenever that header is
    present, even empty, and the authorization header is then not looked
    at; otherwise it is what follows ["Bearer "] in the authorization
    header, and there is no token when that header is absent or does not
    start with ["Bearer "]. *)
Theorem provided_token_precedence :
  (forall key authorization, providedToken (Some key) authorization = Some key)
  /\ (forall token, providedToken None (Some ("Bearer " +:+ token)) = Some token)
  /\ (forall authorization,
        String.prefix "Bearer " authorization = false ->
        providedToken None (Some authorization) = None)
  /\ providedToken None None = None.
Proof.
  repeat apply conj; try reflexivity.
  - intros token. unfold providedToken. cbn [nullish_chain].
    assert (Hprefix : String.prefix "Bearer " ("Bearer " +:+ token) = true)
      by (destruct token; reflexivity).
    assert (Hlength : (String.length ("Bearer " +:+ token) - 7)%nat
                      = String.length token).
    { change (String.length ("Bearer " +:+ token))
        with (7 + String.length token)%nat. lia. }
    rewrite Hprefix, Hlength. f_equal.
    transitivity (String.substring 0 (String.length token) token);
      [reflexivity | apply substring_all].
  - intros authorization H. unfold providedToken. rewrite H. reflexivity.
Qed.

Lemma provided_token_precedence_witness :
  providedToken None (Some "Basic dXNlcg==") = None.
Proof.
  apply (proj1 (proj2 (proj2 provided_token_precedence))). reflexivity.
Defined.

Section HandlerProperties.

Context {parser : JsonParser}.

Variable encodeURIComponent : string -> string.
Variable serverConfig : ServerConfig.
Variable expectedAnthropicToken : option string.
Variable post :
  string -> AzureResponsesRequestBody -> AxiosError + AzureResponsesResponseBody.

Lemma postMessages_authorized (x_api_key authorization : option string)
    (body : AnthropicRequest) (res : ServerResponse) :
  authorized expectedAnthropicToken x_api_key authorization ->
  postMessages encodeURIComponent serverConfig expectedAnthropicToken post
    x_api_key authorization body res
  = postMessages encodeURIComponent serverConfig None post None None body res.
Proof.
  intros [Hnone | Heq]; unfold postMessages.
  - rewrite Hnone. reflexivity.
  - rewrite Heq. rewrite bool_decide_eq_true_2 by reflexivity.
    cbn [negb orb]. rewrite orb_false_r, andb_negb_l. reflexivity.
Qed.

(** The exchange of a caller with a valid token, once the request is
    translated and the URL is built. *)
Lemma postMessages_posted (x_api_key authorization : option string)
    (body : AnthropicRequest) (res : ServerResponse)
    (azureRequest : AzureResponsesRequestBody) (url : string) :
  authorized expectedAnthropicToken x_api_key authorization ->
  anthropicToAzureRequest body (cfg_model serverConfig)
    (Some {| defaultReasoningEffort := cfg_reasoningEffort serverConfig |})
  = Ok azureRequest ->
  buildAzureUrl encodeURIComponent (cfg_azure serverConfig) = Ok url ->
  postMessages encodeURIComponent serverConfig expectedAnthropicToken post
    x_api_key authorization body res
  = match post url azureRequest with
    | inl error =>
        {| outbound := [(url, azureRequest)];
           reply :=
             ReplyError (nullish_opt (err_status error) 500%Z)
               (if isString (err_data error) then err_data error
                else
                  nullish
                    (nullish (optProp (optProp (err_data error) "error") "message")
                       (optProp (err_data error) "message"))
                    (JStr "Unexpected error from Azure OpenAI service")) |}
    | inr data =>
        match azureToAnthropicResponse data (az_model azureRequest) with
        | Throw e =>
            {| outbound := [(url, azureRequest)];
               reply := ReplyError 400 (JStr (exnMessage e)) |}
        | Ok anthropicResponse =>
            {| outbound := [(url, azureRequest)];
               reply :=
                 if truthy (req_stream body) then
                   ReplyStream (streamAnthropicResponse res anthropicResponse)
                 else ReplyJson anthropicResponse |}
        end
    end.
Proof.
  intros Hauth Hreq Hurl.
  rewrite (postMessages_authorized _ _ _ _ Hauth).
  unfold postMessages. cbn [falsy negb andb]. rewrite Hreq, Hurl. reflexivity.
Qed.

(** X15. When a token is expected, a caller whose token is missing or different
    gets the reply 401 and nothing is translated or posted; a caller with
    the expected token gets the exchange of a server that expects no token.  A
    present [x-api-key] header that is wrong is not made good by a valid
    authorization header. *)
Theorem api_key_gate (x_api_key authorization : option string)
    (body : AnthropicRequest) (res : ServerResponse) :
  falsy expectedAnthropicToken = false ->
  (providedToken x_api_key authorization <> expectedAnthropicToken ->
   postMessages encodeURIComponent serverConfig expectedAnthropicToken post
     x_api_key authorization body res
   = {| outbound := [];
        reply := ReplyError 401 (JStr "Invalid or missing API key") |})
  /\ (providedToken x_api_key authorization = expectedAnthropicToken ->
      postMessages encodeURIComponent serverConfig expectedAnthropicToken post
        x_api_key authorization body res
      = postMessages encodeURIComponent serverConfig None post None None body res)
  /\ (forall key,
        x_api_key = Some key -> Some key <> expectedAnthropicToken ->
        reply (postMessages encodeURIComponent serverConfig expectedAnthropicToken
                 post x_api_key authorization body res)
        = ReplyError 401 (JStr "Invalid or missing API key")).
Proof.
  intros Hexpected.
  assert (Hdenied : providedToken x_api_key authorization <> expectedAnthropicToken ->
                    postMessages encodeURIComponent serverConfig
                      expectedAnthropicToken post x_api_key authorization body res
                    = {| outbound := [];
                         reply := ReplyError 401 (JStr "Invalid or missing API key") |}).
  { intros Hne. unfold postMessages. rewrite Hexpected.
    rewrite bool_decide_eq_false_2 by exact Hne.
    cbn [negb andb]. rewrite orb_true_r. reflexivity. }
  repeat apply conj.
  - exact Hdenied.
  - intros Heq. apply postMessages_authorized. right. exact Heq.
  - intros key -> Hne. rewrite Hdenied; [reflexivity | exact Hne].
Qed.

(** X16. An exchange posts at most one request upstream, and what it
    posts is the translation of the body under the configured model and
    reasoning effort, to the URL built from the provider configuration,
    for a caller with a valid token. *)
Theorem outbound_at_most_once (x_api_key authorization : option string)
    (body : AnthropicRequest) (res : ServerResponse) :
  outbound (postMessages encodeURIComponent serverConfig expectedAnthropicToken
              post x_api_key authorization body res) = []
  \/ exists url azureRequest,
       outbound (postMessages encodeURIComponent serverConfig expectedAnthropicToken
                   post x_api_key authorization body res) = [(url, azureRequest)]
       /\ anthropicToAzureRequest body (cfg_model serverConfig)
            (Some {| defaultReasoningEffort := cfg_reasoningEffort serverConfig |})
          = Ok azureRequest
       /\ buildAzureUrl encodeURIComponent (cfg_azure serverConfig) = Ok url
       /\ authorized expectedAnthropicToken x_api_key authorization.
Proof.
  assert (Hposted : authorized expectedAnthropicToken x_api_key authorization ->
            outbound (postMessages encodeURIComponent serverConfig
                        expectedAnthropicToken post x_api_key authorization body res)
            = []
            \/ exists url azureRequest,
                 outbound (postMessages encodeURIComponent serverConfig
                             expectedAnthropicToken post x_api_key authorization
                             body res) = [(url, azureRequest)]
                 /\ anthropicToAzureRequest body (cfg_model serverConfig)
                      (Some {| defaultReasoningEffort :=
                                 cfg_reasoningEffort serverConfig |})
                    = Ok azureRequest
                 /\ buildAzureUrl encodeURIComponent (cfg_azure serverConfig) = Ok url
                 /\ authorized expectedAnthropicToken x_api_key authorization).
  { intros Hauth.
    destruct (anthropicToAzureRequest body (cfg_model serverConfig)
                (Some {| defaultReasoningEffort := cfg_reasoningEffort serverConfig |}))
      as [azureRequest|e] eqn:Hreq.
    - destruct (buildAzureUrl encodeURIComponent (cfg_azure serverConfig))
        as [url|e] eqn:Hurl.
      + right. exists url, azureRequest.
        rewrite (postMessages_posted _ _ _ _ _ _ Hauth Hreq Hurl).
        destruct (post url azureRequest) as [error|data];
          [|destruct (azureToAnthropicResponse data (az_model azureRequest))];
          repeat split; assumption.
      + left. rewrite (postMessages_authorized _ _ _ _ Hauth).
        unfold postMessages. cbn [falsy negb andb]. rewrite Hreq, Hurl. reflexivity.
    - left. rewrite (postMessages_authorized _ _ _ _ Hauth).
      unfold postMessages. cbn [falsy negb andb]. rewrite Hreq. reflexivity. }
  destruct (falsy expectedAnthropicToken) eqn:Hexpected.
  - apply Hposted. left. exact Hexpected.
  - destruct (decide (providedToken x_api_key authorization = expectedAnthropicToken))
      as [Heq|Hne].
    + apply Hposted. right. exact Heq.
    + left. unfold postMessages. rewrite Hexpected.
      rewrite bool_decide_eq_false_2 by exact Hne. cbn [negb andb].
      rewrite orb_true_r. reflexivity.
Qed.

(** X17. When the upstream call fails, the caller is sent the status of the
    upstream response, or 500 when there is none, and a message taken, in
    this order, from a body that is a string, from [error.message] of the
    body, from [message] of the body, or else the generic message; the
    request was posted once. *)
Theorem upstream_error_reply (x_api_key authorization : option string)
    (body : AnthropicRequest) (res : ServerResponse)
    (azureRequest : AzureResponsesRequestBody) (url : string) (error : AxiosError) :
  authorized expectedAnthropicToken x_api_key authorization ->
  anthropicToAzureRequest body (cfg_model serverConfig)
    (Some {| defaultReasoningEffort := cfg_reasoningEffort serverConfig |})
  = Ok azureRequest ->
  buildAzureUrl encodeURIComponent (cfg_azure serverConfig) = Ok url ->
  post url azureRequest = inl error ->
  exists message,
    postMessages encodeURIComponent serverConfig expectedAnthropicToken post
      x_api_key authorization body res
    = {| outbound := [(url, azureRequest)];
         reply := ReplyError (nullish_opt (err_status error) 500%Z) message |}
    /\ (isString (err_data error) = true -> message = err_data error)
    /\ (isString (err_data error) = false ->
        isNullish (optProp (optProp (err_data error) "error") "message") = false ->
        message = optProp (optProp (err_data error) "error") "message")
    /\ (isString (err_data error) = false ->
        isNullish (optProp (optProp (err_data error) "error") "message") = true ->
        isNullish (optProp (err_data error) "message") = false ->
        message = optProp (err_data error) "message")
    /\ (isString (err_data error) = false ->
        isNullish (optProp (optProp (err_data error) "error") "message") = true ->
        isNullish (optProp (err_data error) "message") = true ->
        message = JStr "Unexpected error from Azure OpenAI service").
Proof.
  intros Hauth Hreq Hurl Hpost.
  rewrite (postMessages_posted _ _ _ _ _ _ Hauth Hreq Hurl), Hpost.
  eexists. split; [reflexivity|].
  unfold nullish.
  destruct (isString (err_data error)); repeat apply conj; try discriminate;
    try reflexivity.
  - intros _ Herror. rewrite Herror, Herror. reflexivity.
  - intros _ Herror Hmessage. rewrite Herror, Hmessage. reflexivity.
  - intros _ Herror Hmessage. rewrite Herror, Hmessage. reflexivity.
Qed.

(** X18. When the upstream call succeeds and its result is translated, the
    caller is sent the response, as an ended event stream when the body's
    [stream] is truthy and as JSON when it is falsy.  The model the
    response reports is the upstream's; when the upstream names none it is
    the request's model if that is a string that is not blank, else the
    configured model.  A result in which no entry of a tool_calls array is
    null is translated; when the translation of the result throws, the
    caller is sent the status 400 with the message of the exception, the
    request having been posted. *)
Theorem success_reply (x_api_key authorization : option string)
    (body : AnthropicRequest) (res : ServerResponse)
    (azureRequest : AzureResponsesRequestBody) (url : string)
    (data : AzureResponsesResponseBody) :
  authorized expectedAnthropicToken x_api_key authorization ->
  anthropicToAzureRequest body (cfg_model serverConfig)
    (Some {| defaultReasoningEffort := cfg_reasoningEffort serverConfig |})
  = Ok azureRequest ->
  buildAzureUrl encodeURIComponent (cfg_azure serverConfig) = Ok url ->
  post url azureRequest = inr data ->
  (forall response,
      azureToAnthropicResponse data (az_model azureRequest) = Ok response ->
      postMessages encodeURIComponent serverConfig expectedAnthropicToken post
        x_api_key authorization body res
      = {| outbound := [(url, azureRequest)];
           reply :=
             if truthy (req_stream body) then
               ReplyStream (streamAnthropicResponse res response)
             else ReplyJson response |}
      /\ ended (streamAnthropicResponse res response) = true
      /\ (forall upstreamModel,
            resp_model data = Some upstreamModel -> model response = upstreamModel)
      /\ (resp_model data = None ->
          forall requested,
            req_model body = JStr requested -> trim requested <> "" ->
            model response = requested)
      /\ (resp_model data = None ->
          isNonBlankString (req_model body) = false ->
          forall configured,
            cfg_model serverConfig = Some configured -> model response = configured))
  /\ (callsPresent data = true ->
      exists response,
        azureToAnthropicResponse data (az_model azureRequest) = Ok response)
  /\ (forall e,
        azureToAnthropicResponse data (az_model azureRequest) = Throw e ->
        postMessages encodeURIComponent serverConfig expectedAnthropicToken post
          x_api_key authorization body res
        = {| outbound := [(url, azureRequest)];
             reply := ReplyError 400 (JStr (exnMessage e)) |}).
Proof.
  intros Hauth Hreq Hurl Hpost.
  rewrite (postMessages_posted _ _ _ _ _ _ Hauth Hreq Hurl), Hpost.
  split; [|split].
  - intros response Hresponse. rewrite Hresponse.
    split; [reflexivity|]. split; [reflexivity|].
    apply azureToAnthropicResponse_Ok in Hresponse as (_ & _ & _ & _ & _ & ->).
    apply anthropicToAzureRequest_Ok in Hreq
      as (_ & _ & _ & _ & _ & _ & Hmodel & _).
    rewrite Hmodel. repeat apply conj.
    + intros upstreamModel ->. reflexivity.
    + intros -> requested Hr Hne. cbn [nullish_opt]. unfold resolveModel.
      rewrite Hr. cbn [isNonBlankString].
      apply length_pos_iff in Hne. rewrite Hne. reflexivity.
    + intros -> Hblank configured Hc. cbn [nullish_opt]. unfold resolveModel.
      rewrite Hc. destruct (req_model body); try reflexivity.
      rewrite Hblank. reflexivity.
  - intros Hpresent. apply succeeds_true.
    rewrite succeeds_azureToAnthropicResponse. exact Hpresent.
  - intros e ->. reflexivity.
Qed.

(** X27. When the upstream URL cannot be built, which is when the base URL
    of the provider configuration is not a string, a caller with a valid
    token and whose request was translated is sent the status 400 with
    the message of the exception, and nothing is posted. *)
Theorem unbuildable_url_reply (x_api_key authorization : option string)
    (body : AnthropicRequest) (res : ServerResponse)
    (azureRequest : AzureResponsesRequestBody) :
  authorized expectedAnthropicToken x_api_key authorization ->
  anthropicToAzureRequest body (cfg_model serverConfig)
    (Some {| defaultReasoningEffort := cfg_reasoningEffort serverConfig |})
  = Ok azureRequest ->
  isString (azure_baseUrl (cfg_azure serverConfig)) = false ->
  exists e,
    buildAzureUrl encodeURIComponent (cfg_azure serverConfig) = Throw e
    /\ postMessages encodeURIComponent serverConfig expectedAnthropicToken post
         x_api_key authorization body res
       = {| outbound := []; reply := ReplyError 400 (JStr (exnMessage e)) |}.
Proof.
  intros Hauth Hreq Hbase.
  assert (Hurl : exists e,
             buildAzureUrl encodeURIComponent (cfg_azure serverConfig) = Throw e).
  { unfold buildAzureUrl.
    destruct (azure_baseUrl (cfg_azure serverConfig)); try discriminate; eauto. }
  destruct Hurl as (e & Hurl). exists e. split; [exact Hurl|].
  rewrite (postMessages_authorized _ _ _ _ Hauth).
  unfold postMessages. cbn [falsy negb andb]. rewrite Hreq, Hurl. reflexivity.
Qed.

End HandlerProperties.

Lemma api_key_gate_witness :
  postMessages (parser := rejectAll) (fun s => s) sampleConfig (Some "secret")
    unreachable (Some "guess") (Some "Bearer secret") streamingHello freshResponse
  = {| outbound := [];
       reply := ReplyError 401 (JStr "Invalid or missing API key") |}.
Proof.
  apply (api_key_gate (parser := rejectAll) (fun s => s) sampleConfig (Some "secret")
           unreachable (Some "guess") (Some "Bearer secret") streamingHello
           freshResponse eq_refl).
  discriminate.
Defined.

Lemma upstream_error_reply_witness :
  reply (postMessages (parser := rejectAll) (fun s => s) sampleConfig None
           (fun _ _ => inl rateLimited) None None streamingHello freshResponse)
  = ReplyError 429 (JStr "slow down").
Proof.
  destruct (upstream_error_reply (parser := rejectAll) (fun s => s) sampleConfig None
              (fun _ _ => inl rateLimited) None None streamingHello freshResponse
              _ sampleUrl rateLimited (or_introl eq_refl) eq_refl eq_refl eq_refl)
    as (message & -> & _ & Hmessage & _).
  cbn [reply]. rewrite (Hmessage eq_refl eq_refl). reflexivity.
Defined.

Lemma success_reply_witness :
  exists res,
    reply (postMessages (parser := rejectAll) (fun s => s) sampleConfig (Some "secret")
             answersHi None (Some "Bearer secret") streamingHello freshResponse)
    = ReplyStream res
    /\ ended res = true.
Proof.
  destruct (success_reply (parser := rejectAll) (fun s => s) sampleConfig
              (Some "secret") answersHi None (Some "Bearer secret") streamingHello
              freshResponse _ sampleUrl _ (or_intror eq_refl) eq_refl eq_refl eq_refl)
    as (Htranslated & _ & _).
  destruct (Htranslated _ eq_refl) as (-> & Hended & _).
  eexists. split; [reflexivity | exact Hended].
Defined.

Lemma unbuildable_url_reply_witness :
  reply (postMessages (parser := rejectAll) (fun s => s)
           {| cfg_model := None; cfg_reasoningEffort := None;
              cfg_azure := withBaseUrl sampleAzure (JNum 1) |}
           None answersHi None None streamingHello freshResponse)
  = ReplyError 400 (JStr "azure.baseUrl.replace is not a function").
Proof.
  destruct (unbuildable_url_reply (parser := rejectAll) (fun s => s)
              {| cfg_model := None; cfg_reasoningEffort := None;
                 cfg_azure := withBaseUrl sampleAzure (JNum 1) |}
              None answersHi None None streamingHello freshResponse _
              (or_introl eq_refl) eq_refl eq_refl)
    as (e & He & ->).
  injection He as <-. reflexivity.
Defined.

(** *** The upstream URL *)

Lemma rev_app_rev_app (s a b : string) :
  String.rev_app (String.rev_app s a) b = String.rev_app a (s +:+ b).
Proof.
  revert a. induction s as [|c s IH]; intros a; [reflexivity|].
  cbn [String.rev_app]. rewrite IH. reflexivity.
Qed.

Lemma rev_app_append (s t a : string) :
  String.rev_app (s +:+ t) a = String.rev_app t (String.rev_app s a).
Proof.
  revert a. induction s as [|c s IH]; intros a; [reflexivity|].
  change (String.rev_app (s +:+ t) (String c a)
          = String.rev_app t (String.rev_app s (String c a))).
  apply IH.
Qed.

Lemma rev_involutive (s : string) : String.rev (String.rev s) = s.
Proof.
  unfold String.rev. rewrite rev_app_rev_app. cbn [String.rev_app].
  apply append_empty_r.
Qed.

Lemma rev_append_slash (s : string) :
  String.rev (s +:+ "/") = String "/" (String.rev s).
Proof. unfold String.rev. rewrite rev_app_append. reflexivity. Qed.

(** Exactly one slash is removed from the end. *)
Lemma stripTrailingSlash_slash (s : string) : stripTrailingSlash (s +:+ "/") = s.
Proof.
  unfold stripTrailingSlash. rewrite rev_append_slash. apply rev_involutive.
Qed.

Lemma stripTrailingSlash_none (s : string) :
  endsWithSlash s = false -> stripTrailingSlash s = s.
Proof.
  unfold endsWithSlash, stripTrailingSlash.
  destruct (String.rev s) as [|c r]; [reflexivity|].
  destruct (Ascii.eqb_spec c "/") as [->|Hc]; [discriminate|].
  intros _. destruct c as [[] [] [] [] [] [] [] []]; try reflexivity.
  contradiction Hc. reflexivity.
Qed.

Lemma rev_app_accumulator (s a b : string) :
  String.rev_app s (a +:+ b) = String.rev_app s a +:+ b.
Proof.
  revert a. induction s as [|c s IH]; intros a; [reflexivity|].
  cbn [String.rev_app]. apply (IH (String c a)).
Qed.

Lemma stripTrailingSlash_cases (s : string) :
  s = stripTrailingSlash s +:+ "/" \/ stripTrailingSlash s = s.
Proof.
  destruct (endsWithSlash s) eqn:Hends.
  - left. unfold endsWithSlash in Hends. unfold stripTrailingSlash.
    destruct (String.rev s) as [|c r] eqn:Hrev; [discriminate|].
    destruct (Ascii.eqb_spec c "/") as [->|Hc].
    + rewrite <- (rev_involutive s) at 1. rewrite Hrev.
      unfold String.rev. cbn [String.rev_app].
      apply (rev_app_accumulator r "" "/").
    + destruct c as [[] [] [] [] [] [] [] []]; try discriminate.
      contradiction Hc. reflexivity.
  - right. apply stripTrailingSlash_none. exact Hends.
Qed.

Lemma includes_cons (c : ascii) (s : string) :
  includes (String c s) "?" = Ascii.eqb c "?" || includes s "?".
Proof.
  unfold includes. cbn [String.index String.prefix].
  destruct (ascii_dec "?" c) as [<-|Hc].
  - destruct s; reflexivity.
  - destruct (Ascii.eqb_spec c "?") as [->|_]; [contradiction Hc; reflexivity|].
    destruct (String.index 0 "?" s); reflexivity.
Qed.

Lemma includes_append (s t : string) :
  includes (s +:+ t) "?" = includes s "?" || includes t "?".
Proof.
  induction s as [|c s IH]; [reflexivity|].
  change (includes (String c (s +:+ t)) "?"
          = includes (String c s) "?" || includes t "?").
  rewrite !includes_cons, IH. apply orb_assoc.
Qed.

Lemma includes_stripTrailingSlash (s : string) :
  includes (stripTrailingSlash s) "?" = includes s "?".
Proof.
  destruct (stripTrailingSlash_cases s) as [Hs| ->]; [|reflexivity].
  rewrite Hs at 2. rewrite includes_append.
  change (includes "/" "?") with false. rewrite orb_false_r. reflexivity.
Qed.

(** X19. When the base URL is a string, the upstream URL is the base
    without one trailing slash, a slash and the wire API; with a truthy
    API version it is followed by the separator, [api-version=] and the
    encoded version.  The separator is [&] exactly when the base URL or
    the wire API contains a question mark, and [?] otherwise. *)
Theorem upstream_url (encodeURIComponent : string -> string)
    (azure : AzureProviderConfig) (baseUrl : string) :
  azure_baseUrl azure = JStr baseUrl ->
  buildAzureUrl encodeURIComponent azure
  = Ok (stripTrailingSlash baseUrl +:+ "/" +:+ js_String (azure_wireApi azure)
        +:+ (if truthy (azure_apiVersion azure) then
               (if includes baseUrl "?" || includes (js_String (azure_wireApi azure)) "?"
                then "&" else "?")
               +:+ "api-version="
               +:+ encodeURIComponent (js_String (azure_apiVersion azure))
             else "")).
Proof.
  intros Hbase. unfold buildAzureUrl. rewrite Hbase.
  destruct (truthy (azure_apiVersion azure)).
  - rewrite !includes_append, includes_stripTrailingSlash.
    change (includes "/" "?") with false. rewrite orb_false_l.
    rewrite !append_associative. reflexivity.
  - rewrite append_empty_r. reflexivity.
Qed.

Lemma upstream_url_witness :
  buildAzureUrl (fun s => s) sampleAzure
  = Ok "https://example.openai.azure.com/openai/responses?api-version=2025-04-01-preview".
Proof.
  rewrite (upstream_url (fun s => s) sampleAzure
             "https://example.openai.azure.com/openai" eq_refl).
  reflexivity.
Defined.

(** X20. A base URL with one more slash at its end gives the same
    upstream URL, as long as the base URL does not itself end in a slash:
    exactly one trailing slash is removed. *)
Theorem trailing_slash_optional (encodeURIComponent : string -> string)
    (azure : AzureProviderConfig) (baseUrl : string) :
  endsWithSlash baseUrl = false ->
  buildAzureUrl encodeURIComponent (withBaseUrl azure (JStr (baseUrl +:+ "/")))
  = buildAzureUrl encodeURIComponent (withBaseUrl azure (JStr baseUrl)).
Proof.
  intros Hends. unfold buildAzureUrl, withBaseUrl.
  cbn [azure_baseUrl azure_wireApi azure_apiVersion].
  rewrite stripTrailingSlash_slash, (stripTrailingSlash_none _ Hends).
  reflexivity.
Qed.

Lemma trailing_slash_optional_witness :
  buildAzureUrl (fun s => s)
    (withBaseUrl sampleAzure (JStr "https://example.openai.azure.com/openai/"))
  = buildAzureUrl (fun s => s) sampleAzure.
Proof.
  exact (trailing_slash_optional (fun s => s) sampleAzure
           "https://example.openai.azure.com/openai" eq_refl).
Defined.

(** *** Configuration *)

Section ConfigurationProperties.

Variable configPath : string.
Variable existsSync : bool.
Variable parsedToml : result JValue.
Variable env : string -> option EnvValue.

(** What a configuration that was loaded was read from. *)
Lemma loadCodexConfig_Ok (config : CodexConfig) :
  loadCodexConfig configPath existsSync parsedToml env = Ok config ->
  exists parsed,
    let providerConfig := optProp (optProp parsed "model_providers") "azure" in
    let envKey := optProp providerConfig "env_key" in
    existsSync = true
    /\ parsedToml = Ok parsed
    /\ optProp parsed "model_provider" = JStr "azure"
    /\ truthy providerConfig = true
    /\ truthy (optProp providerConfig "base_url") = true
    /\ truthy envKey = true
    /\ truthy (optProp providerConfig "wire_api") = true
    /\ envFalsy (nullish_chain (env (js_String envKey)) (env "ANTHROPIC_AUTH_TOKEN"))
       = false
    /\ config
       = {| config_model := optProp parsed "model";
            config_modelProvider := JStr "azure";
            config_azure :=
              {| azure_name :=
                   nullish (optProp providerConfig "name") (JStr "Azure OpenAI");
                 azure_baseUrl := optProp providerConfig "base_url";
                 azure_envKey := envKey;
                 azure_wireApi := optProp providerConfig "wire_api";
                 azure_apiVersion := optProp providerConfig "api_version";
                 azure_apiKey :=
                   nullish_opt
                     (nullish_chain (env (js_String envKey))
                        (env "ANTHROPIC_AUTH_TOKEN")) (EnvString "") |} |}.
Proof.
  unfold loadCodexConfig.
  destruct existsSync; [|discriminate]. cbn [negb].
  destruct parsedToml as [parsed|e]; [|discriminate]. cbn [bind].
  destruct (optProp parsed "model_provider") as [| |b|n|provider|l|l] eqn:Hprovider;
    cbn [truthy is_str negb orb]; try discriminate;
    try (destruct (negb _); discriminate).
  destruct (String.eqb_spec provider "azure") as [->|_];
    [|rewrite orb_true_r; discriminate].
  cbn [String.eqb Ascii.eqb Bool.eqb negb orb js_String].
  destruct (truthy (optProp (optProp parsed "model_providers") "azure")) eqn:Hconfig;
    [|discriminate]. cbn [negb].
  destruct (truthy (optProp _ "base_url")) eqn:HbaseUrl; [|discriminate].
  destruct (truthy (optProp _ "env_key")) eqn:HenvKey; [|discriminate].
  destruct (truthy (optProp _ "wire_api")) eqn:HwireApi; [|discriminate].
  cbn [negb orb].
  destruct (envFalsy _) eqn:HapiKey; [discriminate|].
  intros [= <-]. exists parsed. cbn zeta. rewrite HapiKey. auto 10.
Qed.

(** X21. A configuration is only loaded from a file that exists and names
    the provider [azure]; its base URL, environment key and wire API are
    truthy, its name is never null or undefined (it defaults to
    [Azure OpenAI]), and its API key is not the empty string. *)
Theorem loaded_config_guarantees (config : CodexConfig) :
  loadCodexConfig configPath existsSync parsedToml env = Ok config ->
  existsSync = true
  /\ config_modelProvider config = JStr "azure"
  /\ truthy (azure_baseUrl (config_azure config)) = true
  /\ truthy (azure_envKey (config_azure config)) = true
  /\ truthy (azure_wireApi (config_azure config)) = true
  /\ isNullish (azure_name (config_azure config)) = false
  /\ azure_apiKey (config_azure config) <> EnvString "".
Proof.
  intros Hload. apply loadCodexConfig_Ok in Hload
    as (parsed & Hexists & _ & _ & _ & HbaseUrl & HenvKey & HwireApi & HapiKey & ->).
  cbn [config_modelProvider config_azure azure_baseUrl azure_envKey azure_wireApi
       azure_name azure_apiKey].
  repeat apply conj; auto.
  - unfold nullish.
    destruct (isNullish (optProp _ "name")) eqn:Hname; [reflexivity | exact Hname].
  - destruct (nullish_chain _ _) as [key|]; [|discriminate].
    cbn [envFalsy nullish_opt] in *. intros ->. discriminate.
Qed.

(** X22. The API key of a loaded configuration is what [process.env] yields
    for the name in [env_key] whenever that is not undefined: the value of
    the variable of that name, which is then not empty, or, for a name
    that is no variable but a property the object inherits, that
    property, which is not a string.  It is the value of
    [ANTHROPIC_AUTH_TOKEN] only when [process.env] yields undefined for the
    name.  A variable set to the empty string is not replaced by the
    fallback: then no configuration is loaded. *)
Theorem api_key_source (config : CodexConfig) :
  loadCodexConfig configPath existsSync parsedToml env = Ok config ->
  (forall value,
      env (js_String (azure_envKey (config_azure config))) = Some value ->
      azure_apiKey (config_azure config) = value /\ value <> EnvString "")
  /\ (env (js_String (azure_envKey (config_azure config))) = None ->
      env "ANTHROPIC_AUTH_TOKEN" = Some (azure_apiKey (config_azure config)))
  /\ (forall name,
        env (js_String (azure_envKey (config_azure config)))
        = Some (EnvInherited name) ->
        forall key, azure_apiKey (config_azure config) <> EnvString key).
Proof.
  intros Hload. apply loadCodexConfig_Ok in Hload
    as (parsed & _ & _ & _ & _ & _ & _ & _ & HapiKey & ->).
  cbn [config_azure azure_envKey azure_apiKey].
  repeat apply conj.
  - intros value Hvalue. rewrite Hvalue in *.
    cbn [nullish_chain nullish_opt envFalsy] in *.
    split; [reflexivity|]. intros ->. discriminate.
  - intros Hvalue. rewrite Hvalue in *. cbn [nullish_chain nullish_opt] in *.
    destruct (env "ANTHROPIC_AUTH_TOKEN"); [reflexivity | discriminate].
  - intros name Hvalue key. rewrite Hvalue. discriminate.
Qed.

End ConfigurationProperties.

Lemma loaded_config_guarantees_witness :
  exists config,
    loadCodexConfig "/home/user/.codex/config.toml" true (Ok sampleToml) fallbackEnv
    = Ok config
    /\ azure_apiKey (config_azure config) <> EnvString "".
Proof.
  eexists. split; [reflexivity|].
  apply (loaded_config_guarantees "/home/user/.codex/config.toml" true
           (Ok sampleToml) fallbackEnv _ eq_refl).
Defined.

Lemma api_key_source_witness :
  (exists config,
      loadCodexConfig "/home/user/.codex/config.toml" true (Ok sampleToml) fallbackEnv
      = Ok config
      /\ fallbackEnv "ANTHROPIC_AUTH_TOKEN" = Some (azure_apiKey (config_azure config)))
  /\ (exists config,
        loadCodexConfig "/home/user/.codex/config.toml" true (Ok constructorToml)
          inheritingEnv
        = Ok config
        /\ azure_apiKey (config_azure config) = EnvInherited "constructor").
Proof.
  split.
  - eexists. split; [reflexivity|].
    apply (api_key_source "/home/user/.codex/config.toml" true
             (Ok sampleToml) fallbackEnv _ eq_refl).
    reflexivity.
  - eexists. split; [reflexivity|].
    apply (proj1 (api_key_source "/home/user/.codex/config.toml" true
                    (Ok constructorToml) inheritingEnv _ eq_refl)
             (EnvInherited "constructor") eq_refl).
Defined.

(** *** The command line *)

Lemma js_split_upTo (sep : ascii) (s : string) :
  exists pieces, js_split sep s = upTo sep s :: pieces.
Proof.
  induction s as [|c s [pieces IH]]; cbn [js_split upTo]; [eauto|].
  destruct (Ascii.eqb c sep); [eauto|]. rewrite IH. eauto.
Qed.

(** The value of an option written [--port=value] or [--host=value] is
    the text between the first and the second equals sign. *)
Lemma optionValue_port (value : string) :
  optionValue ("--port=" +:+ value) = Some (upTo "=" value).
Proof.
  unfold optionValue.
  change ("--port=" +:+ value)
    with (String "-" (String "-" (String "p" (String "o" (String "r" (String "t"
            (String "=" value))))))).
  destruct (js_split_upTo "=" value) as [pieces Hsplit].
  cbn [js_split Ascii.eqb Bool.eqb]. rewrite Hsplit. reflexivity.
Qed.

Lemma optionValue_host (value : string) :
  optionValue ("--host=" +:+ value) = Some (upTo "=" value).
Proof.
  unfold optionValue.
  change ("--host=" +:+ value)
    with (String "-" (String "-" (String "h" (String "o" (String "s" (String "t"
            (String "=" value))))))).
  destruct (js_split_upTo "=" value) as [pieces Hsplit].
  cbn [js_split Ascii.eqb Bool.eqb]. rewrite Hsplit. reflexivity.
Qed.

(** Evaluates the tests of [parseArgsFrom] on the argument [flag]. *)
Ltac evaluate_flag flag :=
  repeat match goal with
         | |- context [String.eqb flag ?other] =>
             let v := eval vm_compute in (String.eqb flag other) in
             change (String.eqb flag other) with v
         | |- context [String.prefix ?other flag] =>
             let v := eval vm_compute in (String.prefix other flag) in
             change (String.prefix other flag) with v
         end;
  cbn [orb].

Section CommandLineProperties.

Variable integerValue : string -> option Z.

Lemma validPort_positive (value : option string) (port : Z) :
  validPort integerValue value = Some port -> (0 < port)%Z.
Proof.
  unfold validPort. destruct value as [s|]; [|discriminate].
  destruct (integerValue s) as [n|]; [|discriminate].
  destruct (Z.leb_spec n 0); [discriminate|]. intros [= <-]. assumption.
Qed.

(** Arguments that parse to options are consumed whole: what follows them
    is parsed from these options on. *)
Lemma parseArgsFrom_app (argv : list string) :
  forall (options parsed : CliOptions) (rest : list string),
    parseArgsFrom integerValue argv options = Parsed parsed ->
    parseArgsFrom integerValue (argv ++ rest) options
    = parseArgsFrom integerValue rest parsed.
Proof.
  assert (Hbounded : forall n argv, (List.length argv <= n)%nat ->
            forall options parsed rest,
              parseArgsFrom integerValue argv options = Parsed parsed ->
              parseArgsFrom integerValue (argv ++ rest) options
              = parseArgsFrom integerValue rest parsed).
  { clear argv. induction n as [|n IH]; intros argv Hlength options parsed rest.
    - destruct argv; [|cbn in Hlength; lia]. intros [= <-]. reflexivity.
    - destruct argv as [|arg argv]; [intros [= <-]; reflexivity|].
      cbn [List.length] in Hlength.
      change ((arg :: argv) ++ rest) with (arg :: (argv ++ rest)).
      cbn [parseArgsFrom].
      destruct (String.eqb arg "-h" || String.eqb arg "--help"); [discriminate|].
      destruct (String.eqb arg "-v" || String.eqb arg "--version"); [discriminate|].
      destruct (String.eqb arg "-p" || String.eqb arg "--port").
      { destruct argv as [|next argv]; [discriminate|].
        cbn [app].
        destruct (String.eqb next ""); [discriminate|].
        destruct (validPort integerValue (Some next)); [|discriminate].
        apply IH. cbn [List.length] in Hlength. lia. }
      destruct (String.prefix "--port=" arg).
      { destruct (validPort integerValue (optionValue arg)); [|discriminate].
        apply IH. lia. }
      destruct (String.eqb arg "-H" || String.eqb arg "--host").
      { destruct argv as [|next argv]; [discriminate|].
        cbn [app].
        destruct (String.eqb next ""); [discriminate|].
        apply IH. cbn [List.length] in Hlength. lia. }
      destruct (String.prefix "--host=" arg); [|discriminate].
      apply IH. lia. }
  exact (Hbounded (List.length argv) argv (le_n _)).
Qed.

Lemma parseArgsFrom_port (argv : list string) :
  forall (options parsed : CliOptions),
    parseArgsFrom integerValue argv options = Parsed parsed ->
    (forall port, cli_port options = Some port -> (0 < port)%Z) ->
    forall port, cli_port parsed = Some port -> (0 < port)%Z.
Proof.
  assert (Hbounded : forall n argv, (List.length argv <= n)%nat ->
            forall options parsed,
              parseArgsFrom integerValue argv options = Parsed parsed ->
              (forall port, cli_port options = Some port -> (0 < port)%Z) ->
              forall port, cli_port parsed = Some port -> (0 < port)%Z).
  { clear argv. induction n as [|n IH]; intros argv Hlength options parsed.
    - destruct argv; [|cbn in Hlength; lia]. intros [= <-]. auto.
    - destruct argv as [|arg argv]; [intros [= <-]; auto|].
      cbn [List.length] in Hlength. cbn [parseArgsFrom].
      destruct (String.eqb arg "-h" || String.eqb arg "--help"); [discriminate|].
      destruct (String.eqb arg "-v" || String.eqb arg "--version"); [discriminate|].
      destruct (String.eqb arg "-p" || String.eqb arg "--port").
      { destruct argv as [|next argv]; [discriminate|].
        destruct (String.eqb next ""); [discriminate|].
        destruct (validPort integerValue (Some next)) as [port|] eqn:Hport;
          [|discriminate].
        intros Hparsed _. revert Hparsed. cbn [List.length] in Hlength.
        intros Hparsed. apply (IH argv ltac:(lia) _ _ Hparsed).
        cbn [cli_port]. intros ? [= <-]. exact (validPort_positive _ _ Hport). }
      destruct (String.prefix "--port=" arg).
      { destruct (validPort integerValue (optionValue arg)) as [port|] eqn:Hport;
          [|discriminate].
        intros Hparsed _. apply (IH argv ltac:(lia) _ _ Hparsed).
        cbn [cli_port]. intros ? [= <-]. exact (validPort_positive _ _ Hport). }
      destruct (String.eqb arg "-H" || String.eqb arg "--host").
      { destruct argv as [|next argv]; [discriminate|].
        destruct (String.eqb next ""); [discriminate|].
        cbn [List.length] in Hlength.
        intros Hparsed Hoptions. apply (IH argv ltac:(lia) _ _ Hparsed).
        exact Hoptions. }
      destruct (String.prefix "--host=" arg); [|discriminate].
      intros Hparsed Hoptions. apply (IH argv ltac:(lia) _ _ Hparsed).
      exact Hoptions. }
  exact (Hbounded (List.length argv) argv (le_n _)).
Qed.

(** X23. A port that the command line sets is a positive integer. *)
Theorem parsed_port_positive (argv : list string) (options : CliOptions) (port : Z) :
  parseArgs integerValue argv = Parsed options ->
  cli_port options = Some port ->
  (0 < port)%Z.
Proof.
  intros Hparsed. apply (parseArgsFrom_port argv _ _ Hparsed).
  cbn [cli_port]. discriminate.
Qed.

(** X24. After arguments that parse to options, a help or version flag
    ends the parsing with that answer, whatever follows it: the arguments
    after the flag are never examined.  Help and version come in the
    order in which they are written. *)
Theorem help_and_version_end_parsing (argv : list string) (options : CliOptions)
    (rest : list string) :
  parseArgs integerValue argv = Parsed options ->
  parseArgs integerValue (argv ++ "-h" :: rest) = ParsedHelp
  /\ parseArgs integerValue (argv ++ "--help" :: rest) = ParsedHelp
  /\ parseArgs integerValue (argv ++ "-v" :: rest) = ParsedVersion
  /\ parseArgs integerValue (argv ++ "--version" :: rest) = ParsedVersion.
Proof.
  intros Hparsed. unfold parseArgs.
  rewrite !(parseArgsFrom_app argv _ _ _ Hparsed). auto.
Qed.

(** X25. An option given again replaces the earlier value and leaves the
    other option as it was: after arguments that parse to options, a
    further host option with a value that is not empty gives these options
    with that host, and a further port option with a valid value gives
    them with that port. *)
Theorem later_option_overrides (argv : list string) (options : CliOptions)
    (value : string) :
  parseArgs integerValue argv = Parsed options ->
  value <> "" ->
  parseArgs integerValue (argv ++ ["--host"; value])
  = Parsed {| cli_host := Some value; cli_port := cli_port options |}
  /\ parseArgs integerValue (argv ++ ["-H"; value])
     = Parsed {| cli_host := Some value; cli_port := cli_port options |}
  /\ (forall port,
        validPort integerValue (Some value) = Some port ->
        parseArgs integerValue (argv ++ ["--port"; value])
        = Parsed {| cli_host := cli_host options; cli_port := Some port |}
        /\ parseArgs integerValue (argv ++ ["-p"; value])
           = Parsed {| cli_host := cli_host options; cli_port := Some port |}).
Proof.
  intros Hparsed Hvalue. unfold parseArgs.
  rewrite !(parseArgsFrom_app argv _ _ _ Hparsed).
  apply String.eqb_neq in Hvalue.
  cbn [parseArgsFrom].
  evaluate_flag "--host"; evaluate_flag "-H"; evaluate_flag "--port";
    evaluate_flag "-p".
  rewrite Hvalue. repeat apply conj; try reflexivity.
  intros port ->. split; reflexivity.
Qed.

(** X26. In the form with an equals sign the value of an option is the
    text between the first and the second equals sign.  A host written
    this way is taken as it is, even when it is empty; a port written
    this way is set when it is valid and reported, as that text, when it
    is not. *)
Theorem equals_form_value (value : string) (rest : list string)
    (options : CliOptions) :
  parseArgsFrom integerValue (("--host=" +:+ value) :: rest) options
  = parseArgsFrom integerValue rest
      {| cli_host := Some (upTo "=" value); cli_port := cli_port options |}
  /\ parseArgsFrom integerValue (("--port=" +:+ value) :: rest) options
     = match validPort integerValue (Some (upTo "=" value)) with
       | Some port =>
           parseArgsFrom integerValue rest
             {| cli_host := cli_host options; cli_port := Some port |}
       | None => ParsedError ("Invalid port: " +:+ upTo "=" value)
       end.
Proof.
  split.
  - cbn [parseArgsFrom]. rewrite optionValue_host.
    change ("--host=" +:+ value)
      with (String "-" (String "-" (String "h" (String "o" (String "s" (String "t"
              (String "=" value))))))).
    destruct value; reflexivity.
  - cbn [parseArgsFrom]. rewrite optionValue_port.
    change ("--port=" +:+ value)
      with (String "-" (String "-" (String "p" (String "o" (String "r" (String "t"
              (String "=" value))))))).
    destruct value; reflexivity.
Qed.

End CommandLineProperties.

Lemma parsed_port_positive_witness : (0 < 8080)%Z.
Proof.
  apply (parsed_port_positive decimalValue ["--host=127.0.0.1"; "-p"; "8080"]
           {| cli_host := Some "127.0.0.1"; cli_port := Some 8080%Z |} 8080%Z);
    reflexivity.
Defined.

Lemma help_and_version_end_parsing_witness :
  parseArgs decimalValue (["-p"; "8080"] ++ ["--help"; "--port"; "none"]) = ParsedHelp.
Proof.
  apply (help_and_version_end_parsing decimalValue ["-p"; "8080"]
           {| cli_host := None; cli_port := Some 8080%Z |} ["--port"; "none"]).
  reflexivity.
Defined.

Lemma later_option_overrides_witness :
  parseArgs decimalValue (["--port=8080"; "-p"; "1"] ++ ["--port"; "9999"])
  = Parsed {| cli_host := None; cli_port := Some 9999%Z |}.
Proof.
  apply (later_option_overrides decimalValue ["--port=8080"; "-p"; "1"]
           {| cli_host := None; cli_port := Some 1%Z |} "9999").
  - reflexivity.
  - discriminate.
  - reflexivity.
Defined.
